(** * HydroCredToken: certification-gated minting, role hierarchy, retirement

    A shallow embedding of [blockchain/contracts/HydroCredToken.sol] and of
    the backend's [BlockchainService] certification verifier.

    Conventions.
    - [address], [uint256] and [bytes32] values are integers ([Z]); byte
      strings ([bytes]) are [list byte].
    - Every external function is a function [State -> result State]; a
      [Revert] discards all writes of the call, so the ledger keeps the state
      it had before the call (see [exec]).
    - The contract inherits OpenZeppelin's ERC721, ERC721Enumerable,
      AccessControl, Pausable and ECDSA (the 5.x line: [_update] hook,
      custom errors).  The inherited storage and entry points the contract
      relies on are written out below after the library's sources; the
      per-owner enumeration arrays of ERC721Enumerable are left out, since
      only [totalSupply] is read by the code modelled here.
    - [keccak256], the [ecrecover] precompile, the ERC721 receiver callback
      and ethers' [recoverAddress] are primitives of the platform: they are
      the fields of the class [Platform].
    - A recipient contract is called back by [_safeMint] and
      [safeTransferFrom] and may call the ledger again from there.  [run]
      is the contract with recipients that answer at once; [run_re] is the
      contract with recipients that run code of their own (class
      [Receivers]), and [run] is the instance [call_free] of it.  What is
      proved about minting is proved for [run_re]. *)

From Stdlib Require Import ZArith List Lia.
From Stdlib.Strings Require Import Byte.
From stdpp Require Import base gmap list strings pretty.
Import ListNotations.

Local Open Scope Z_scope.

(** ** Solidity values *)

Definition MAX_UINT256 : Z := 2 ^ 256 - 1.
Definition ZeroAddress : Z := 0.

(** Solidity mappings return the zero value for absent keys. *)
Definition getB {K} `{Countable K} (m : gmap K bool) (k : K) : bool :=
  default false (m !! k).
Definition getZ {K} `{Countable K} (m : gmap K Z) (k : K) : Z :=
  default 0 (m !! k).

(** ** Roles (AccessControl role identifiers)

    The seven role constants are [keccak256] of their names and
    [DEFAULT_ADMIN_ROLE] is [0x00]; they are pairwise distinct identifiers.
    [OtherRole] stands for any further [bytes32] a caller may pass to the
    inherited [grantRole]. *)

Inductive Role :=
| DEFAULT_ADMIN_ROLE
| MAIN_ADMIN_ROLE
| COUNTRY_ADMIN_ROLE
| STATE_ADMIN_ROLE
| CITY_ADMIN_ROLE
| PRODUCER_ROLE
| BUYER_ROLE
| AUDITOR_ROLE
| OtherRole (id : Z).

#[global] Instance Role_eq_dec : EqDecision Role.
Proof. solve_decision. Defined.

Definition Role_code (r : Role) : Z + Z :=
  match r with
  | DEFAULT_ADMIN_ROLE => inl 0
  | MAIN_ADMIN_ROLE => inl 1
  | COUNTRY_ADMIN_ROLE => inl 2
  | STATE_ADMIN_ROLE => inl 3
  | CITY_ADMIN_ROLE => inl 4
  | PRODUCER_ROLE => inl 5
  | BUYER_ROLE => inl 6
  | AUDITOR_ROLE => inl 7
  | OtherRole id => inr id
  end.

Definition Role_decode (c : Z + Z) : Role :=
  match c with
  | inl 0 => DEFAULT_ADMIN_ROLE
  | inl 1 => MAIN_ADMIN_ROLE
  | inl 2 => COUNTRY_ADMIN_ROLE
  | inl 3 => STATE_ADMIN_ROLE
  | inl 4 => CITY_ADMIN_ROLE
  | inl 5 => PRODUCER_ROLE
  | inl 6 => BUYER_ROLE
  | inl _ => AUDITOR_ROLE
  | inr id => OtherRole id
  end.

#[global] Instance Role_countable : Countable Role.
Proof. apply (inj_countable' Role_code Role_decode). by intros []. Defined.

(** ** Errors and the result monad *)

Inductive Error :=
| Error_ (reason : string)                        (* require(cond, reason) *)
| Panic (code : Z)                                (* checked arithmetic *)
| EnforcedPause
| ExpectedPause
| AccessControlUnauthorizedAccount (account : Z) (neededRole : Role)
| AccessControlBadConfirmation
| ECDSAInvalidSignature
| ECDSAInvalidSignatureLength (len : Z)
| ECDSAInvalidSignatureS (s : Z)
| ERC721InvalidReceiver (receiver : Z)
| ERC721InvalidSender (sender : Z)
| ERC721NonexistentToken (tokenId : Z)
| ERC721InsufficientApproval (operator tokenId : Z)
| ERC721IncorrectOwner (sender tokenId owner : Z)
| ERC721InvalidApprover (approver : Z)
| ERC721InvalidOperator (operator : Z).

Inductive result (A : Type) :=
| Ok (a : A)
| Revert (e : Error).
Arguments Ok {A} a.
Arguments Revert {A} e.

Definition rbind {A B} (k : A -> result B) (c : result A) : result B :=
  match c with
  | Ok a => k a
  | Revert e => Revert e
  end.

#[global] Instance result_bind : MBind result := @rbind.
#[global] Instance result_ret : MRet result := @Ok.

Definition require (cond : bool) (reason : string) : result unit :=
  if cond then Ok tt else Revert (Error_ reason).

Definition checked_add (a b : Z) : result Z :=
  if a + b <=? MAX_UINT256 then Ok (a + b) else Revert (Panic 17).

Definition checked_sub (a b : Z) : result Z :=
  if b <=? a then Ok (a - b) else Revert (Panic 17).

(** The failure conditions of the specification, as the contract raises them. *)
Definition Paused : Error := EnforcedPause.
Definition InsufficientCapability (caller : Z) (r : Role) : Error :=
  AccessControlUnauthorizedAccount caller r.
Definition ZeroIdentity_mint : Error := Error_ "Cannot mint to zero address".
Definition InvalidAmount : Error := Error_ "Invalid amount".
Definition UnknownRecipient : Error := Error_ "Recipient must be registered producer".
Definition HashReused : Error := Error_ "Certification hash already used".
Definition InvalidCertifierSignature : Error := Error_ "Invalid certifier signature".
Definition RetiredCreditTransfer : Error := Error_ "Cannot transfer retired credit".
Definition AlreadyRetired : Error := Error_ "Credit already retired".
Definition NotOwner : Error := Error_ "Only owner can retire credit".
Definition AlreadyHeld_country : Error := Error_ "Already a country admin".
Definition AlreadyHeld_state : Error := Error_ "Already a state admin".
Definition AlreadyHeld_city : Error := Error_ "Already a city admin".
Definition AlreadyHeld_producer : Error := Error_ "Already a producer".

(** ** Storage *)

Record CertificationData := mkCertificationData {
  producer : Z;
  certifier : Z;
  timestamp : Z;
  metadata : string;
  certificationHash : Z
}.

Inductive Event :=
| CreditsIssued (to amount fromId toId certHash : Z)
| CreditRetired (owner tokenId time : Z)
| CountryAdminAppointed (admin countryId appointedBy : Z)
| StateAdminAppointed (admin stateId appointedBy : Z)
| CityAdminAppointed (admin cityId appointedBy : Z)
| ProducerRegistered (who registeredBy : Z)
| BuyerRegistered (buyer : Z)
| AuditorRegistered (auditor registeredBy : Z)
| Transfer (from to tokenId : Z)
| Approval (owner approved tokenId : Z)
| ApprovalForAll (owner operator : Z) (approved : bool)
| RoleGranted (role : Role) (account sender : Z)
| RoleRevoked (role : Role) (account sender : Z)
| PausedBy (account : Z)
| UnpausedBy (account : Z).

(** ERC721 and ERC721Enumerable storage. *)
Record ERC721Storage := mkERC721 {
  _owners : gmap Z Z;
  _balances : gmap Z Z;
  _tokenApprovals : gmap Z Z;
  _operatorApprovals : gmap (Z * Z) bool;
  _allTokens : list Z
}.

(** The admin hierarchy mappings. *)
Record Hierarchy := mkHierarchy {
  isCountryAdmin : gmap Z bool;
  countryAdminCountryId : gmap Z Z;
  isStateAdmin : gmap Z bool;
  stateAdminStateId : gmap Z Z;
  isCityAdmin : gmap Z bool;
  cityAdminCityId : gmap Z Z;
  isProducer : gmap Z bool;
  isBuyer : gmap Z bool;
  isAuditor : gmap Z bool
}.

(** Retirement bookkeeping. *)
Record Retirement := mkRetirement {
  isRetired : gmap Z bool;
  retiredBy : gmap Z Z;
  retiredAt : gmap Z Z
}.

Record State := mkState {
  _paused : bool;
  _roles : gmap (Role * Z) bool;
  erc721 : ERC721Storage;
  _nextTokenId : Z;
  hierarchy : Hierarchy;
  certificationHashUsed : gmap Z bool;
  tokenCertifications : gmap Z CertificationData;
  retirement : Retirement;
  events : list Event
}.

Definition set_paused (b : bool) (s : State) : State :=
  mkState b (_roles s) (erc721 s) (_nextTokenId s) (hierarchy s)
    (certificationHashUsed s) (tokenCertifications s) (retirement s) (events s).
Definition set_roles (r : gmap (Role * Z) bool) (s : State) : State :=
  mkState (_paused s) r (erc721 s) (_nextTokenId s) (hierarchy s)
    (certificationHashUsed s) (tokenCertifications s) (retirement s) (events s).
Definition set_erc721 (t : ERC721Storage) (s : State) : State :=
  mkState (_paused s) (_roles s) t (_nextTokenId s) (hierarchy s)
    (certificationHashUsed s) (tokenCertifications s) (retirement s) (events s).
Definition set_nextTokenId (n : Z) (s : State) : State :=
  mkState (_paused s) (_roles s) (erc721 s) n (hierarchy s)
    (certificationHashUsed s) (tokenCertifications s) (retirement s) (events s).
Definition set_hierarchy (h : Hierarchy) (s : State) : State :=
  mkState (_paused s) (_roles s) (erc721 s) (_nextTokenId s) h
    (certificationHashUsed s) (tokenCertifications s) (retirement s) (events s).
Definition set_certificationHashUsed (u : gmap Z bool) (s : State) : State :=
  mkState (_paused s) (_roles s) (erc721 s) (_nextTokenId s) (hierarchy s)
    u (tokenCertifications s) (retirement s) (events s).
Definition set_tokenCertifications (c : gmap Z CertificationData) (s : State) : State :=
  mkState (_paused s) (_roles s) (erc721 s) (_nextTokenId s) (hierarchy s)
    (certificationHashUsed s) c (retirement s) (events s).
Definition set_retirement (r : Retirement) (s : State) : State :=
  mkState (_paused s) (_roles s) (erc721 s) (_nextTokenId s) (hierarchy s)
    (certificationHashUsed s) (tokenCertifications s) r (events s).
Definition emit (e : Event) (s : State) : State :=
  mkState (_paused s) (_roles s) (erc721 s) (_nextTokenId s) (hierarchy s)
    (certificationHashUsed s) (tokenCertifications s) (retirement s) (events s ++ [e]).

(** ** Pausable *)

Definition whenNotPaused (s : State) : result unit :=
  if _paused s then Revert EnforcedPause else Ok tt.

Definition whenPaused (s : State) : result unit :=
  if _paused s then Ok tt else Revert ExpectedPause.

(** ** AccessControl *)

Definition hasRole (role : Role) (account : Z) (s : State) : bool :=
  getB (_roles s) (role, account).

Definition onlyRole (role : Role) (caller : Z) (s : State) : result unit :=
  if hasRole role caller s then Ok tt
  else Revert (AccessControlUnauthorizedAccount caller role).

(** No function of the contract calls [_setRoleAdmin]: every role is
    administered by [DEFAULT_ADMIN_ROLE]. *)
Definition getRoleAdmin (role : Role) : Role := DEFAULT_ADMIN_ROLE.

Definition _grantRole (role : Role) (account caller : Z) (s : State) : State :=
  if hasRole role account s then s
  else emit (RoleGranted role account caller)
         (set_roles (<[(role, account) := true]> (_roles s)) s).

Definition _revokeRole (role : Role) (account caller : Z) (s : State) : State :=
  if hasRole role account s
  then emit (RoleRevoked role account caller)
         (set_roles (<[(role, account) := false]> (_roles s)) s)
  else s.

Definition grantRole (caller : Z) (role : Role) (account : Z) (s : State)
  : result State :=
  _ ← onlyRole (getRoleAdmin role) caller s;
  Ok (_grantRole role account caller s).

Definition revokeRole (caller : Z) (role : Role) (account : Z) (s : State)
  : result State :=
  _ ← onlyRole (getRoleAdmin role) caller s;
  Ok (_revokeRole role account caller s).

Definition renounceRole (caller : Z) (role : Role) (callerConfirmation : Z)
    (s : State) : result State :=
  if negb (callerConfirmation =? caller) then Revert AccessControlBadConfirmation
  else Ok (_revokeRole role callerConfirmation caller s).

(** ** Bytes and ABI encodings *)

Definition byte_of_Z (z : Z) : byte :=
  default x00 (Byte.of_N (Z.to_N (z mod 256))).

(** The [n] low-order bytes of [z], most significant first. *)
Fixpoint be_bytes (n : nat) (z : Z) : list byte :=
  match n with
  | O => []
  | S n' => be_bytes n' (z / 256) ++ [byte_of_Z z]
  end.

Definition Z_of_bytes (bs : list byte) : Z :=
  fold_left (fun acc b => acc * 256 + Z.of_N (Byte.to_N b)) bs 0.

(** [abi.encodePacked(address, uint256, bytes32)]: 20 + 32 + 32 bytes. *)
Definition encodePacked (to amount certHash : Z) : list byte :=
  be_bytes 20 to ++ be_bytes 32 amount ++ be_bytes 32 certHash.

(** [AbiCoder.defaultAbiCoder().encode(['address','uint256','bytes32'], ...)]:
    the standard ABI encoding, every static value in a 32-byte word. *)
Definition AbiCoder_encode (producerAddress amount certHash : Z) : list byte :=
  be_bytes 32 producerAddress ++ be_bytes 32 amount ++ be_bytes 32 certHash.

Arguments be_bytes : simpl never.
Arguments encodePacked : simpl never.
Arguments AbiCoder_encode : simpl never.

(** The prefix of the signed-message convention (EIP-191, version 0x45). *)
Definition MessagePrefix : list byte :=
  x19 :: String.list_byte_of_string "Ethereum Signed Message:" ++ [x0a].

(** ** Platform primitives *)

Class Platform := {
  (** the hash function of the ledger *)
  keccak256 : list byte -> Z;
  (** the precompile: [ecrecover hash v r s], the zero address on failure *)
  ecrecover : Z -> Z -> Z -> Z -> Z;
  (** [onERC721Received to operator from tokenId]: [to] is not a contract,
      or it is one and its callback returns the magic value *)
  onERC721Received : Z -> Z -> Z -> Z -> bool;
  (** ethers' [recoverAddress digest signature]; [None] when it throws *)
  ethers_recoverAddress : Z -> string -> option Z
}.

Section Contract.
Context `{Platform}.

(** [MessageHashUtils.toEthSignedMessageHash(bytes32)] *)
Definition toEthSignedMessageHash (messageHash : Z) : Z :=
  keccak256 (MessagePrefix ++ String.list_byte_of_string "32" ++ be_bytes 32 messageHash).

(** ethers' [hashMessage(bytes)] *)
Definition hashMessage (message : list byte) : Z :=
  keccak256 (MessagePrefix
             ++ String.list_byte_of_string (pretty (N.of_nat (length message)))
             ++ message).

(** ethers' [getBytes] of a 32-byte hex string *)
Definition getBytes (h : Z) : list byte := be_bytes 32 h.

Arguments toEthSignedMessageHash : simpl never.
Arguments hashMessage : simpl never.

(** *** ECDSA *)

Definition HALF_ORDER : Z :=
  0x7FFFFFFFFFFFFFFFFFFFFFFFFFFFFFFF5D576E7357A4501DDFE92F46681B20A0.

Definition tryRecover_vrs (hash v r s : Z) : result Z :=
  if HALF_ORDER <? s then Revert (ECDSAInvalidSignatureS s)
  else
    let signer := ecrecover hash v r s in
    if signer =? 0 then Revert ECDSAInvalidSignature else Ok signer.

(** [ECDSA.recover(hash, signature)]: reverts on every malformed signature. *)
Definition ECDSA_recover (hash : Z) (signature : list byte) : result Z :=
  if Z.of_nat (length signature) =? 65 then
    let r := Z_of_bytes (take 32 signature) in
    let s := Z_of_bytes (take 32 (drop 32 signature)) in
    let v := Z_of_bytes (take 1 (drop 64 signature)) in
    tryRecover_vrs hash v r s
  else Revert (ECDSAInvalidSignatureLength (Z.of_nat (length signature))).

(** ** ERC721 / ERC721Enumerable *)

Definition _ownerOf (tokenId : Z) (s : State) : Z :=
  getZ (_owners (erc721 s)) tokenId.
Definition _balanceOf (owner : Z) (s : State) : Z :=
  getZ (_balances (erc721 s)) owner.
Definition _getApproved (tokenId : Z) (s : State) : Z :=
  getZ (_tokenApprovals (erc721 s)) tokenId.
Definition isApprovedForAll (owner operator : Z) (s : State) : bool :=
  getB (_operatorApprovals (erc721 s)) (owner, operator).
Definition totalSupply (s : State) : Z :=
  Z.of_nat (length (_allTokens (erc721 s))).

Definition _isAuthorized (owner spender tokenId : Z) (s : State) : bool :=
  negb (spender =? 0)
  && ((owner =? spender) || isApprovedForAll owner spender s
      || (_getApproved tokenId s =? spender)).

Definition _checkAuthorized (owner spender tokenId : Z) (s : State)
  : result unit :=
  if negb (_isAuthorized owner spender tokenId s) then
    if owner =? 0 then Revert (ERC721NonexistentToken tokenId)
    else Revert (ERC721InsufficientApproval spender tokenId)
  else Ok tt.

Definition wrap256 (z : Z) : Z := z mod 2 ^ 256.

(** [ERC721._update]: the balance updates are unchecked. *)
Definition ERC721_update (to tokenId auth : Z) (s : State)
  : result (Z * State) :=
  let from := _ownerOf tokenId s in
  _ ← (if negb (auth =? 0) then _checkAuthorized from auth tokenId s
       else Ok tt);
  let t := erc721 s in
  let t1 :=
    if negb (from =? 0) then
      mkERC721 (_owners t)
        (<[from := wrap256 (getZ (_balances t) from - 1)]> (_balances t))
        (<[tokenId := 0]> (_tokenApprovals t))
        (_operatorApprovals t) (_allTokens t)
    else t in
  let t2 :=
    if negb (to =? 0) then
      mkERC721 (_owners t1)
        (<[to := wrap256 (getZ (_balances t1) to + 1)]> (_balances t1))
        (_tokenApprovals t1) (_operatorApprovals t1) (_allTokens t1)
    else t1 in
  let t3 :=
    mkERC721 (<[tokenId := to]> (_owners t2)) (_balances t2)
      (_tokenApprovals t2) (_operatorApprovals t2) (_allTokens t2) in
  Ok (from, emit (Transfer from to tokenId) (set_erc721 t3 s)).

Fixpoint index_of (x : Z) (l : list Z) : option nat :=
  match l with
  | [] => None
  | y :: l' => if x =? y then Some O else S <$> index_of x l'
  end.

Definition _addTokenToAllTokensEnumeration (tokenId : Z) (s : State) : State :=
  let t := erc721 s in
  set_erc721 (mkERC721 (_owners t) (_balances t) (_tokenApprovals t)
                (_operatorApprovals t) (_allTokens t ++ [tokenId])) s.

(** Swap with the last element, then pop. *)
Definition _removeTokenFromAllTokensEnumeration (tokenId : Z) (s : State)
  : State :=
  let t := erc721 s in
  match index_of tokenId (_allTokens t), last (_allTokens t) with
  | Some tokenIndex, Some lastTokenId =>
      set_erc721 (mkERC721 (_owners t) (_balances t) (_tokenApprovals t)
                    (_operatorApprovals t)
                    (removelast (<[tokenIndex := lastTokenId]> (_allTokens t)))) s
  | _, _ => s
  end.

(** [ERC721Enumerable._update] (the per-owner arrays are not represented). *)
Definition ERC721Enumerable_update (to tokenId auth : Z) (s : State)
  : result (Z * State) :=
  '(previousOwner, s1) ← ERC721_update to tokenId auth s;
  let s2 :=
    if previousOwner =? 0 then _addTokenToAllTokensEnumeration tokenId s1
    else s1 in
  let s3 :=
    if to =? 0 then _removeTokenFromAllTokensEnumeration tokenId s2 else s2 in
  Ok (previousOwner, s3).

(** [HydroCredToken._update]: the override that blocks retired credits. *)
Definition _update (to tokenId auth : Z) (s : State) : result (Z * State) :=
  _ ← whenNotPaused s;
  let from := _ownerOf tokenId s in
  _ ← (if negb (from =? 0)  (* Skip check for minting *)
       then require (negb (getB (isRetired (retirement s)) tokenId))
              "Cannot transfer retired credit"
       else Ok tt);
  ERC721Enumerable_update to tokenId auth s.

Definition _mint (to tokenId : Z) (s : State) : result State :=
  if to =? 0 then Revert (ERC721InvalidReceiver 0)
  else
    '(previousOwner, s1) ← _update to tokenId 0 s;
    if negb (previousOwner =? 0) then Revert (ERC721InvalidSender 0)
    else Ok s1.

Definition checkOnERC721Received (operator from to tokenId : Z)
  : result unit :=
  if onERC721Received to operator from tokenId then Ok tt
  else Revert (ERC721InvalidReceiver to).

(** [_safeMint] with a recipient that makes no call of its own during
    the callback; [_safeMint_re] below is the general form. *)
Definition _safeMint (caller to tokenId : Z) (s : State) : result State :=
  s1 ← _mint to tokenId s;
  _ ← checkOnERC721Received caller 0 to tokenId;
  Ok s1.

Definition transferFrom (caller from to tokenId : Z) (s : State)
  : result State :=
  if to =? 0 then Revert (ERC721InvalidReceiver 0)
  else
    '(previousOwner, s1) ← _update to tokenId caller s;
    if negb (previousOwner =? from)
    then Revert (ERC721IncorrectOwner from tokenId previousOwner)
    else Ok s1.

Definition safeTransferFrom (caller from to tokenId : Z) (s : State)
  : result State :=
  s1 ← transferFrom caller from to tokenId s;
  _ ← checkOnERC721Received caller from to tokenId;
  Ok s1.

Definition approve (caller to tokenId : Z) (s : State) : result State :=
  let owner := _ownerOf tokenId s in
  if owner =? 0 then Revert (ERC721NonexistentToken tokenId)
  else if negb (caller =? 0) && negb (owner =? caller)
          && negb (isApprovedForAll owner caller s)
  then Revert (ERC721InvalidApprover caller)
  else
    let t := erc721 s in
    Ok (set_erc721
          (mkERC721 (_owners t) (_balances t)
             (<[tokenId := to]> (_tokenApprovals t))
             (_operatorApprovals t) (_allTokens t))
          (emit (Approval owner to tokenId) s)).

Definition setApprovalForAll (caller operator : Z) (approved : bool)
    (s : State) : result State :=
  if operator =? 0 then Revert (ERC721InvalidOperator operator)
  else
    let t := erc721 s in
    Ok (emit (ApprovalForAll caller operator approved)
          (set_erc721
             (mkERC721 (_owners t) (_balances t) (_tokenApprovals t)
                (<[(caller, operator) := approved]> (_operatorApprovals t))
                (_allTokens t)) s)).

(** ** HydroCredToken *)

Definition empty_state : State :=
  mkState false ∅ (mkERC721 ∅ ∅ ∅ ∅ []) 1
    (mkHierarchy ∅ ∅ ∅ ∅ ∅ ∅ ∅ ∅ ∅) ∅ ∅ (mkRetirement ∅ ∅ ∅) [].

Definition constructor (deployer mainAdmin : Z) : result State :=
  _ ← require (negb (mainAdmin =? 0)) "Main admin cannot be zero address";
  Ok (_grantRole MAIN_ADMIN_ROLE mainAdmin deployer
        (_grantRole DEFAULT_ADMIN_ROLE mainAdmin deployer empty_state)).

(** The body of the minting loop, run [n] times. *)
Fixpoint mint_loop (n : nat) (caller now to certifier_ certHash : Z)
    (s : State) : result State :=
  match n with
  | O => Ok s
  | S n' =>
      s1 ← _safeMint caller to (_nextTokenId s) s;
      let s2 :=
        set_tokenCertifications
          (<[_nextTokenId s1 :=
               mkCertificationData to certifier_ now "" certHash]>
             (tokenCertifications s1)) s1 in
      next ← checked_add (_nextTokenId s2) 1;
      mint_loop n' caller now to certifier_ certHash (set_nextTokenId next s2)
  end.

Definition mintWithCertification (caller now to amount certHash : Z)
    (certifierSignature : list byte) (s : State) : result State :=
  _ ← whenNotPaused s;
  _ ← require (negb (to =? 0)) "Cannot mint to zero address";
  _ ← require ((0 <? amount) && (amount <=? 1000)) "Invalid amount";
  _ ← require (getB (isProducer (hierarchy s)) to)
        "Recipient must be registered producer";
  _ ← require (negb (getB (certificationHashUsed s) certHash))
        "Certification hash already used";
  (* Verify certifier signature *)
  let messageHash := keccak256 (encodePacked to amount certHash) in
  let ethSignedMessageHash := toEthSignedMessageHash messageHash in
  certifier_ ← ECDSA_recover ethSignedMessageHash certifierSignature;
  _ ← require (hasRole CITY_ADMIN_ROLE certifier_ s)
        "Invalid certifier signature";
  (* Mark certification hash as used *)
  let s1 :=
    set_certificationHashUsed (<[certHash := true]> (certificationHashUsed s)) s in
  let fromId := _nextTokenId s1 in
  sum ← checked_add (_nextTokenId s1) amount;
  toId ← checked_sub sum 1;
  s2 ← mint_loop (Z.to_nat amount) caller now to certifier_ certHash s1;
  Ok (emit (CreditsIssued to amount fromId toId certHash) s2).

Definition appointCountryAdmin (caller admin countryId : Z) (s : State)
  : result State :=
  _ ← onlyRole MAIN_ADMIN_ROLE caller s;
  _ ← require (negb (admin =? 0)) "Admin cannot be zero address";
  _ ← require (negb (getB (isCountryAdmin (hierarchy s)) admin))
        "Already a country admin";
  let h := hierarchy s in
  let s1 :=
    set_hierarchy
      (mkHierarchy (<[admin := true]> (isCountryAdmin h))
         (<[admin := countryId]> (countryAdminCountryId h))
         (isStateAdmin h) (stateAdminStateId h)
         (isCityAdmin h) (cityAdminCityId h)
         (isProducer h) (isBuyer h) (isAuditor h)) s in
  Ok (emit (CountryAdminAppointed admin countryId caller)
        (_grantRole COUNTRY_ADMIN_ROLE admin caller s1)).

Definition appointStateAdmin (caller admin stateId : Z) (s : State)
  : result State :=
  _ ← onlyRole COUNTRY_ADMIN_ROLE caller s;
  _ ← require (negb (admin =? 0)) "Admin cannot be zero address";
  _ ← require (negb (getB (isStateAdmin (hierarchy s)) admin))
        "Already a state admin";
  let h := hierarchy s in
  let s1 :=
    set_hierarchy
      (mkHierarchy (isCountryAdmin h) (countryAdminCountryId h)
         (<[admin := true]> (isStateAdmin h))
         (<[admin := stateId]> (stateAdminStateId h))
         (isCityAdmin h) (cityAdminCityId h)
         (isProducer h) (isBuyer h) (isAuditor h)) s in
  Ok (emit (StateAdminAppointed admin stateId caller)
        (_grantRole STATE_ADMIN_ROLE admin caller s1)).

Definition appointCityAdmin (caller admin cityId : Z) (s : State)
  : result State :=
  _ ← onlyRole STATE_ADMIN_ROLE caller s;
  _ ← require (negb (admin =? 0)) "Admin cannot be zero address";
  _ ← require (negb (getB (isCityAdmin (hierarchy s)) admin))
        "Already a city admin";
  let h := hierarchy s in
  let s1 :=
    set_hierarchy
      (mkHierarchy (isCountryAdmin h) (countryAdminCountryId h)
         (isStateAdmin h) (stateAdminStateId h)
         (<[admin := true]> (isCityAdmin h))
         (<[admin := cityId]> (cityAdminCityId h))
         (isProducer h) (isBuyer h) (isAuditor h)) s in
  Ok (emit (CityAdminAppointed admin cityId caller)
        (_grantRole CITY_ADMIN_ROLE admin caller s1)).

Definition registerProducer (caller who : Z) (s : State) : result State :=
  _ ← onlyRole CITY_ADMIN_ROLE caller s;
  _ ← require (negb (who =? 0)) "Producer cannot be zero address";
  _ ← require (negb (getB (isProducer (hierarchy s)) who))
        "Already a producer";
  let h := hierarchy s in
  let s1 :=
    set_hierarchy
      (mkHierarchy (isCountryAdmin h) (countryAdminCountryId h)
         (isStateAdmin h) (stateAdminStateId h)
         (isCityAdmin h) (cityAdminCityId h)
         (<[who := true]> (isProducer h)) (isBuyer h) (isAuditor h)) s in
  Ok (emit (ProducerRegistered who caller)
        (_grantRole PRODUCER_ROLE who caller s1)).

Definition registerBuyer (caller : Z) (s : State) : result State :=
  _ ← require (negb (getB (isBuyer (hierarchy s)) caller)) "Already a buyer";
  let h := hierarchy s in
  let s1 :=
    set_hierarchy
      (mkHierarchy (isCountryAdmin h) (countryAdminCountryId h)
         (isStateAdmin h) (stateAdminStateId h)
         (isCityAdmin h) (cityAdminCityId h)
         (isProducer h) (<[caller := true]> (isBuyer h)) (isAuditor h)) s in
  Ok (emit (BuyerRegistered caller) (_grantRole BUYER_ROLE caller caller s1)).

Definition registerAuditor (caller auditor : Z) (s : State) : result State :=
  _ ← onlyRole MAIN_ADMIN_ROLE caller s;
  _ ← require (negb (auditor =? 0)) "Auditor cannot be zero address";
  _ ← require (negb (getB (isAuditor (hierarchy s)) auditor))
        "Already an auditor";
  let h := hierarchy s in
  let s1 :=
    set_hierarchy
      (mkHierarchy (isCountryAdmin h) (countryAdminCountryId h)
         (isStateAdmin h) (stateAdminStateId h)
         (isCityAdmin h) (cityAdminCityId h)
         (isProducer h) (isBuyer h) (<[auditor := true]> (isAuditor h))) s in
  Ok (emit (AuditorRegistered auditor caller)
        (_grantRole AUDITOR_ROLE auditor caller s1)).

(** Retire a credit (makes it non-transferable). *)
Definition retire (caller now tokenId : Z) (s : State) : result State :=
  _ ← require (_ownerOf tokenId s =? caller) "Only owner can retire credit";
  _ ← require (negb (getB (isRetired (retirement s)) tokenId))
        "Credit already retired";
  let r := retirement s in
  Ok (emit (CreditRetired caller tokenId now)
        (set_retirement
           (mkRetirement (<[tokenId := true]> (isRetired r))
              (<[tokenId := caller]> (retiredBy r))
              (<[tokenId := now]> (retiredAt r))) s)).

Definition pause (caller : Z) (s : State) : result State :=
  _ ← onlyRole MAIN_ADMIN_ROLE caller s;
  _ ← whenNotPaused s;
  Ok (emit (PausedBy caller) (set_paused true s)).

Definition unpause (caller : Z) (s : State) : result State :=
  _ ← onlyRole MAIN_ADMIN_ROLE caller s;
  _ ← whenPaused s;
  Ok (emit (UnpausedBy caller) (set_paused false s)).

(** *** Views *)

(** [_exists(tokenId)]: the token has an owner. *)
Definition _exists (tokenId : Z) (s : State) : bool :=
  negb (_ownerOf tokenId s =? 0).

(** The value a mapping to [CertificationData] holds at an unwritten key. *)
Definition zero_certification : CertificationData :=
  mkCertificationData 0 0 0 "" 0.

Definition getCertificationData (tokenId : Z) (s : State)
  : result CertificationData :=
  _ ← require (_exists tokenId s) "Token does not exist";
  Ok (default zero_certification (tokenCertifications s !! tokenId)).

(** ** Transactions *)

Inductive Call :=
| MintWithCertification (to amount certHash : Z) (certifierSignature : list byte)
| AppointCountryAdmin (admin countryId : Z)
| AppointStateAdmin (admin stateId : Z)
| AppointCityAdmin (admin cityId : Z)
| RegisterProducer (who : Z)
| RegisterBuyer
| RegisterAuditor (auditor : Z)
| Retire (tokenId : Z)
| DoPause
| DoUnpause
| TransferFrom (from to tokenId : Z)
| SafeTransferFrom (from to tokenId : Z)
| Approve (to tokenId : Z)
| SetApprovalForAll (operator : Z) (approved : bool)
| GrantRole (role : Role) (account : Z)
| RevokeRole (role : Role) (account : Z)
| RenounceRole (role : Role) (callerConfirmation : Z).

(** One call by [caller] in a block stamped [now]. *)
Definition run (caller now : Z) (c : Call) (s : State) : result State :=
  match c with
  | MintWithCertification to amount certHash sig =>
      mintWithCertification caller now to amount certHash sig s
  | AppointCountryAdmin admin countryId =>
      appointCountryAdmin caller admin countryId s
  | AppointStateAdmin admin stateId => appointStateAdmin caller admin stateId s
  | AppointCityAdmin admin cityId => appointCityAdmin caller admin cityId s
  | RegisterProducer who => registerProducer caller who s
  | RegisterBuyer => registerBuyer caller s
  | RegisterAuditor auditor => registerAuditor caller auditor s
  | Retire tokenId => retire caller now tokenId s
  | DoPause => pause caller s
  | DoUnpause => unpause caller s
  | TransferFrom from to tokenId => transferFrom caller from to tokenId s
  | SafeTransferFrom from to tokenId =>
      safeTransferFrom caller from to tokenId s
  | Approve to tokenId => approve caller to tokenId s
  | SetApprovalForAll operator approved =>
      setApprovalForAll caller operator approved s
  | GrantRole role account => grantRole caller role account s
  | RevokeRole role account => revokeRole caller role account s
  | RenounceRole role confirmation => renounceRole caller role confirmation s
  end.

(** The ledger after the call: a reverted call changes nothing. *)
Definition exec (caller now : Z) (c : Call) (s : State) : State :=
  match run caller now c s with
  | Ok s' => s'
  | Revert _ => s
  end.

Record Tx := mkTx { tx_sender : Z; tx_time : Z; tx_call : Call }.

Definition exec_tx (s : State) (tx : Tx) : State :=
  exec (tx_sender tx) (tx_time tx) (tx_call tx) s.

Definition exec_all (txs : list Tx) (s : State) : State :=
  fold_left exec_tx txs s.

(** Transactions are sent by accounts: the sender is never the zero address. *)
Definition valid_tx (tx : Tx) : Prop := tx_sender tx <> 0.

Inductive reachable : State -> Prop :=
| reachable_deploy deployer mainAdmin s :
    constructor deployer mainAdmin = Ok s -> reachable s
| reachable_step s tx :
    reachable s -> valid_tx tx -> reachable (exec_tx s tx).

(** ** Receivers that call back

    [_safeMint] and [safeTransferFrom] end with an external call to the
    recipient when it is a contract, and the contract has no reentrancy
    guard: inside [onERC721Received] the recipient may call the ledger
    again.  [run] above is the ledger as seen with recipients that make no
    call of their own; [run_re] below lets them.

    A receiver is deterministic code.  What it does in a callback is a
    [Script]: it returns, accepting the token ([Return true]: the selector
    comes back) or not (a revert, or another return value); or it has
    [sender] call this contract and goes on from the outcome of that call:
    whether it went through, and the ledger after it, which the receiver
    can read through the views.  [onReceived to operator from tokenId s]
    is the script of [to] when the callback is entered on ledger [s].
    [depth] is what is left of the call stack: with none left the external
    call fails. *)

Inductive Script :=
| Return (accept : bool)
| Invoke (sender : Z) (c : Call) (next : bool -> State -> Script).

Class Receivers := {
  (** [to.code.length > 0] *)
  hasCode : Z -> bool;
  onReceived : Z -> Z -> Z -> Z -> State -> Script
}.

Context {RC : Receivers}.

(** The callback: a nested call that reverts is undone on its own and the
    script goes on (no account calls from the zero address). *)
Fixpoint run_script (run_nested : Z -> Call -> State -> result State)
    (p : Script) (s : State) : option State :=
  match p with
  | Return accept => if accept then Some s else None
  | Invoke sender c next =>
      if sender =? 0 then run_script run_nested (next false s) s
      else
        match run_nested sender c s with
        | Ok s' => run_script run_nested (next true s') s'
        | Revert _ => run_script run_nested (next false s) s
        end
  end.

(** [ERC721Utils.checkOnERC721Received], the callback included. *)
Definition checkOnERC721Received_re
    (nested : option (Z -> Call -> State -> result State))
    (operator from to tokenId : Z) (s : State) : result State :=
  if negb (hasCode to) then Ok s
  else
    match nested with
    | Some run_nested =>
        match run_script run_nested (onReceived to operator from tokenId s) s
        with
        | Some s' => Ok s'
        | None => Revert (ERC721InvalidReceiver to)
        end
    | None => Revert (ERC721InvalidReceiver to)
    end.

Definition _safeMint_re (nested : option (Z -> Call -> State -> result State))
    (caller to tokenId : Z) (s : State) : result State :=
  s1 ← _mint to tokenId s;
  checkOnERC721Received_re nested caller 0 to tokenId s1.

Fixpoint mint_loop_re (nested : option (Z -> Call -> State -> result State))
    (n : nat) (caller now to certifier_ certHash : Z) (s : State)
  : result State :=
  match n with
  | O => Ok s
  | S n' =>
      s1 ← _safeMint_re nested caller to (_nextTokenId s) s;
      let s2 :=
        set_tokenCertifications
          (<[_nextTokenId s1 :=
               mkCertificationData to certifier_ now "" certHash]>
             (tokenCertifications s1)) s1 in
      next ← checked_add (_nextTokenId s2) 1;
      mint_loop_re nested n' caller now to certifier_ certHash
        (set_nextTokenId next s2)
  end.

Definition mintWithCertification_re
    (nested : option (Z -> Call -> State -> result State))
    (caller now to amount certHash : Z) (certifierSignature : list byte)
    (s : State) : result State :=
  _ ← whenNotPaused s;
  _ ← require (negb (to =? 0)) "Cannot mint to zero address";
  _ ← require ((0 <? amount) && (amount <=? 1000)) "Invalid amount";
  _ ← require (getB (isProducer (hierarchy s)) to)
        "Recipient must be registered producer";
  _ ← require (negb (getB (certificationHashUsed s) certHash))
        "Certification hash already used";
  (* Verify certifier signature *)
  let messageHash := keccak256 (encodePacked to amount certHash) in
  let ethSignedMessageHash := toEthSignedMessageHash messageHash in
  certifier_ ← ECDSA_recover ethSignedMessageHash certifierSignature;
  _ ← require (hasRole CITY_ADMIN_ROLE certifier_ s)
        "Invalid certifier signature";
  (* Mark certification hash as used *)
  let s1 :=
    set_certificationHashUsed (<[certHash := true]> (certificationHashUsed s)) s in
  let fromId := _nextTokenId s1 in
  sum ← checked_add (_nextTokenId s1) amount;
  toId ← checked_sub sum 1;
  s2 ← mint_loop_re nested (Z.to_nat amount) caller now to certifier_ certHash s1;
  Ok (emit (CreditsIssued to amount fromId toId certHash) s2).

Definition safeTransferFrom_re (nested : option (Z -> Call -> State -> result State))
    (caller from to tokenId : Z) (s : State) : result State :=
  s1 ← transferFrom caller from to tokenId s;
  checkOnERC721Received_re nested caller from to tokenId s1.

(** One call, given how the calls nested in it run. *)
Definition call_re (nested : option (Z -> Call -> State -> result State))
    (caller now : Z) (c : Call) (s : State) : result State :=
  match c with
  | MintWithCertification to amount certHash sig =>
      mintWithCertification_re nested caller now to amount certHash sig s
  | SafeTransferFrom from to tokenId =>
      safeTransferFrom_re nested caller from to tokenId s
  | _ => run caller now c s
  end.

(** One call with [depth] nested calls left; the nested calls run in the
    same block. *)
Fixpoint run_re (depth : nat) (caller now : Z) (c : Call) (s : State)
    {struct depth} : result State :=
  call_re
    match depth with
    | O => None
    | S d => Some (fun sender c' s' => run_re d sender now c' s')
    end
    caller now c s.

Definition exec_re (depth : nat) (caller now : Z) (c : Call) (s : State)
  : State :=
  match run_re depth caller now c s with
  | Ok s' => s'
  | Revert _ => s
  end.

Definition exec_tx_re (depth : nat) (s : State) (tx : Tx) : State :=
  exec_re depth (tx_sender tx) (tx_time tx) (tx_call tx) s.

Definition exec_all_re (depth : nat) (txs : list Tx) (s : State) : State :=
  fold_left (exec_tx_re depth) txs s.

Inductive reachable_re (depth : nat) : State -> Prop :=
| reachable_re_deploy deployer mainAdmin s :
    constructor deployer mainAdmin = Ok s -> reachable_re depth s
| reachable_re_step s tx :
    reachable_re depth s -> valid_tx tx ->
    reachable_re depth (exec_tx_re depth s tx).

(** The receivers [run] stands for: each one answers its callback at once,
    as the platform says, and calls nothing. *)
Definition call_free : Receivers :=
  {| hasCode := fun _ => true;
     onReceived := fun to operator from tokenId _ =>
                     Return (onERC721Received to operator from tokenId) |}.

(** ** The backend: [BlockchainService] *)

(** [verifyCertificationSignature]: every exception is caught and turned
    into an invalid result with the zero address. *)
Definition verifyCertificationSignature (s : State)
    (producerAddress amount certHash : Z) (signature : string) : bool * Z :=
  let attempt : option (bool * Z) :=
    let messageHash :=
      keccak256 (AbiCoder_encode producerAddress amount certHash) in
    let ethSignedMessageHash := hashMessage (getBytes messageHash) in
    certifier_ ← ethers_recoverAddress ethSignedMessageHash signature;
    (* Check if certifier has CITY_ADMIN_ROLE *)
    let hasRole_ := hasRole CITY_ADMIN_ROLE certifier_ s in
    Some (hasRole_, certifier_) in
  match attempt with
  | Some r => r
  | None => (false, ZeroAddress)
  end.

(** The digest [verifyCertificationSignature] recovers the certifier from. *)
Definition offchain_digest (producerAddress amount certHash : Z) : Z :=
  hashMessage (getBytes (keccak256 (AbiCoder_encode producerAddress amount certHash))).

(** The token ids [BlockchainService.mintWithCertification] reports:
    [Array.from({length: amount}, (_, i) => fromTokenId + i)] with
    [fromTokenId = Number(totalSupply) + 1]. *)
Definition predictedTokenIds (s : State) (amount : Z) : list Z :=
  let currentSupply := totalSupply s in
  let fromTokenId := currentSupply + 1 in
  map (fun i => fromTokenId + Z.of_nat i) (seq 0 (Z.to_nat amount)).

(** [getUserRole]: the first role, in this order, the account holds. *)
Definition getUserRole (s : State) (userAddress : Z) : option string :=
  let roles :=
    [("main_admin", hasRole MAIN_ADMIN_ROLE userAddress s);
     ("country_admin", hasRole COUNTRY_ADMIN_ROLE userAddress s);
     ("state_admin", hasRole STATE_ADMIN_ROLE userAddress s);
     ("city_admin", hasRole CITY_ADMIN_ROLE userAddress s);
     ("producer", hasRole PRODUCER_ROLE userAddress s);
     ("buyer", hasRole BUYER_ROLE userAddress s);
     ("auditor", hasRole AUDITOR_ROLE userAddress s)] in
  fst <$> find (fun rc => snd rc) roles.



(** The ids a call added to the enumeration. *)
Definition mintedIds (s s' : State) : list Z :=
  drop (length (_allTokens (erc721 s))) (_allTokens (erc721 s')).

(** ** Notions used to state the properties *)

(** Sender-side facts every reachable ledger satisfies: nobody is an
    operator of the zero address, and a token nobody owns has no approved
    spender. *)
Definition approvals_wf (s : State) : Prop :=
  (forall op, isApprovedForAll 0 op s = false)
  /\ (forall id, _ownerOf id s = 0 -> _getApproved id s = 0).

(** The token store after [tokenId] moved from its owner to [to]. *)
Definition moved (to tokenId : Z) (s : State) : State :=
  let t := erc721 s in
  let from := _ownerOf tokenId s in
  let b1 := <[from := wrap256 (getZ (_balances t) from - 1)]> (_balances t) in
  emit (Transfer from to tokenId)
    (set_erc721
       (mkERC721 (<[tokenId := to]> (_owners t))
          (<[to := wrap256 (getZ b1 to + 1)]> b1)
          (<[tokenId := 0]> (_tokenApprovals t))
          (_operatorApprovals t) (_allTokens t)) s).

(** The token store after [tokenId] was created for [to]. *)
Definition created (to tokenId : Z) (s : State) : State :=
  let t := erc721 s in
  set_erc721
    (mkERC721 (<[tokenId := to]> (_owners t))
       (<[to := wrap256 (getZ (_balances t) to + 1)]> (_balances t))
       (_tokenApprovals t) (_operatorApprovals t)
       (_allTokens t ++ [tokenId]))
    (emit (Transfer 0 to tokenId) s).

(** One turn of the loop body, and [n] turns. *)
Definition issue_one (now to certifier_ certHash : Z) (s : State) : State :=
  let s1 := created to (_nextTokenId s) s in
  set_nextTokenId (_nextTokenId s + 1)
    (set_tokenCertifications
       (<[_nextTokenId s := mkCertificationData to certifier_ now "" certHash]>
          (tokenCertifications s1)) s1).

Fixpoint issue (n : nat) (now to certifier_ certHash : Z) (s : State) : State :=
  match n with
  | O => s
  | S n' => issue n' now to certifier_ certHash
              (issue_one now to certifier_ certHash s)
  end.

(** The digest the contract recovers the certifier from. *)
Definition onchain_digest (to amount certHash : Z) : Z :=
  toEthSignedMessageHash (keccak256 (encodePacked to amount certHash)).

(** The ledger after a successful [mintWithCertification]. *)
Definition minted (now to amount certHash certifier_ : Z) (s : State) : State :=
  let s1 :=
    set_certificationHashUsed (<[certHash := true]> (certificationHashUsed s)) s in
  emit (CreditsIssued to amount (_nextTokenId s)
          (_nextTokenId s + amount - 1) certHash)
    (issue (Z.to_nat amount) now to certifier_ certHash s1).

Definition same_outside_token (s s' : State) : Prop :=
  _paused s' = _paused s /\ _roles s' = _roles s
  /\ _nextTokenId s' = _nextTokenId s /\ hierarchy s' = hierarchy s
  /\ certificationHashUsed s' = certificationHashUsed s
  /\ tokenCertifications s' = tokenCertifications s
  /\ retirement s' = retirement s.

Definition same_ledger (s s' : State) : Prop :=
  erc721 s' = erc721 s /\ _nextTokenId s' = _nextTokenId s
  /\ certificationHashUsed s' = certificationHashUsed s
  /\ tokenCertifications s' = tokenCertifications s
  /\ retirement s' = retirement s.

(** The role, registration and pause entry points. *)
Definition quiet (c : Call) : bool :=
  match c with
  | AppointCountryAdmin _ _ | AppointStateAdmin _ _ | AppointCityAdmin _ _
  | RegisterProducer _ | RegisterBuyer | RegisterAuditor _
  | DoPause | DoUnpause
  | GrantRole _ _ | RevokeRole _ _ | RenounceRole _ _ => true
  | _ => false
  end.

Definition appointed_le (h h' : Hierarchy) : Prop :=
  forall a,
    (getB (isCountryAdmin h) a = true -> getB (isCountryAdmin h') a = true)
    /\ (getB (isStateAdmin h) a = true -> getB (isStateAdmin h') a = true)
    /\ (getB (isCityAdmin h) a = true -> getB (isCityAdmin h') a = true)
    /\ (getB (isProducer h) a = true -> getB (isProducer h') a = true).

(** What every reachable ledger satisfies: the id counter is one past the
    supply, the enumeration is [1, 2, ..., supply] in order, ids from the
    counter on are unowned, and the approvals are well-formed. *)
Definition ledger_inv (s : State) : Prop :=
  _nextTokenId s = totalSupply s + 1
  /\ _allTokens (erc721 s)
     = map (fun i => 1 + Z.of_nat i) (seq 0 (length (_allTokens (erc721 s))))
  /\ (forall id, _nextTokenId s <= id -> _ownerOf id s = 0)
  /\ approvals_wf s.

(** Every credit carries the record of its certification: a registered
    producer and a consumed certification hash. *)
Definition certified (s : State) : Prop :=
  forall id,
    _ownerOf id s <> 0 ->
    exists rec,
      tokenCertifications s !! id = Some rec
      /\ producer rec <> 0
      /\ getB (isProducer (hierarchy s)) (producer rec) = true
      /\ getB (certificationHashUsed s) (certificationHash rec) = true.

(** The credits are exactly the ids [1 .. totalSupply]. *)
Definition ids_owned (s : State) : Prop :=
  forall id, _ownerOf id s <> 0 <-> 1 <= id <= totalSupply s.

(** A ledger in the middle of the minting loop: the id the counter points
    at is already owned. *)
Definition blocked (s : State) : Prop := _ownerOf (_nextTokenId s) s <> 0.

(** What the calls made during a callback leave as it was: the id counter,
    the enumeration, the certification records, the consumed hashes, and
    which ids exist. *)
Definition mid_same (s s' : State) : Prop :=
  _nextTokenId s' = _nextTokenId s
  /\ _allTokens (erc721 s') = _allTokens (erc721 s)
  /\ tokenCertifications s' = tokenCertifications s
  /\ certificationHashUsed s' = certificationHashUsed s
  /\ (forall id, _ownerOf id s' = 0 <-> _ownerOf id s = 0).

(** What [n] turns of the minting loop achieve, receivers calling back or
    not. *)
Definition issued (n : nat) (now to certifier_ certHash : Z) (s s' : State)
  : Prop :=
  _nextTokenId s' = _nextTokenId s + Z.of_nat n
  /\ _allTokens (erc721 s')
     = _allTokens (erc721 s)
       ++ map (fun i => _nextTokenId s + Z.of_nat i) (seq 0 n)
  /\ certificationHashUsed s' = certificationHashUsed s
  /\ (forall id,
        _nextTokenId s <= id < _nextTokenId s + Z.of_nat n ->
        _ownerOf id s' <> 0
        /\ tokenCertifications s' !! id
           = Some (mkCertificationData to certifier_ now "" certHash))
  /\ (forall id,
        ~ (_nextTokenId s <= id < _nextTokenId s + Z.of_nat n) ->
        (_ownerOf id s' = 0 <-> _ownerOf id s = 0)
        /\ tokenCertifications s' !! id = tokenCertifications s !! id)
  /\ approvals_wf s'.

(** The calls nested in a callback of the minting loop keep [mid_same]. *)
Definition callbacks_frozen
    (nested : option (Z -> Call -> State -> result State)) : Prop :=
  forall s0 run_nested,
    blocked s0 -> nested = Some run_nested ->
    forall sender c s1 s2,
      sender <> 0 ->
      approvals_wf s1 /\ mid_same s0 s1 ->
      run_nested sender c s1 = Ok s2 ->
      approvals_wf s2 /\ mid_same s0 s2.

(** A recipient that makes no call of its own: an account without code, or
    a contract whose callback just accepts. *)
Definition plain_recipient (depth : nat) (to : Z) : Prop :=
  hasCode to = false
  \/ ((0 < depth)%nat
      /\ forall operator from tokenId s,
           onReceived to operator from tokenId s = Return true).

(** Two scripts that do the same as long as every ledger they get to see
    has the hash [h] consumed. *)
Fixpoint script_agree (h : Z) (p1 p2 : Script) : Prop :=
  match p1, p2 with
  | Return a1, Return a2 => a1 = a2
  | Invoke sender1 c1 next1, Invoke sender2 c2 next2 =>
      sender1 = sender2 /\ c1 = c2
      /\ forall b s,
           getB (certificationHashUsed s) h = true ->
           script_agree h (next1 b s) (next2 b s)
  | _, _ => False
  end.

(** Two receiver populations that behave alike on every ledger in which
    the hash [h] is consumed. *)
Definition receivers_agree_after (h : Z) (R1 R2 : Receivers) : Prop :=
  (forall a, @hasCode R1 a = @hasCode R2 a)
  /\ (forall to operator from tokenId s,
        getB (certificationHashUsed s) h = true ->
        script_agree h (@onReceived R1 to operator from tokenId s)
          (@onReceived R2 to operator from tokenId s)).

(** The runners of nested calls of two receiver populations give the same
    on every ledger in which the hash [h] is consumed. *)
Definition runners_agree (h : Z)
    (n1 n2 : option (Z -> Call -> State -> result State)) : Prop :=
  match n1, n2 with
  | None, None => True
  | Some r1, Some r2 =>
      forall sender c s,
        getB (certificationHashUsed s) h = true ->
        r1 sender c s = r2 sender c s
  | _, _ => False
  end.

(** The retirement record of a credit. *)
Definition retirement_of (tokenId : Z) (s : State) : bool * Z * Z :=
  (getB (isRetired (retirement s)) tokenId,
   getZ (retiredBy (retirement s)) tokenId,
   getZ (retiredAt (retirement s)) tokenId).

End Contract.

(** ** An executable platform and a deployment, for running scenarios

    [sim_keccak256] is a polynomial hash and [sim_ecrecover] inverts
    [sim_sign]; every account accepts tokens.  Accounts: 100 deploys, 1 is
    the main admin, 2 a country admin, 3 a state admin, 4 a city admin, 5 a
    producer, 6 holds no role. *)

Definition sim_keccak256 (bs : list byte) : Z :=
  fold_left (fun acc b => (acc * 257 + Z.of_N (Byte.to_N b) + 1) mod 2 ^ 256)
    bs 0.

Definition sim_ecrecover (hash v r s : Z) : Z :=
  if (v =? 27) || (v =? 28) then (r - hash) mod 2 ^ 160 else 0.

Definition sim_sign (signer digest : Z) : list byte :=
  be_bytes 32 (signer + digest) ++ be_bytes 32 1 ++ [x1b].

Definition sim_recoverAddress (digest : Z) (signature : string) : option Z :=
  if decide (signature = "") then None else Some 6.

Definition sim : Platform :=
  {| keccak256 := sim_keccak256;
     ecrecover := sim_ecrecover;
     onERC721Received := fun _ _ _ _ => true;
     ethers_recoverAddress := sim_recoverAddress |}.

Definition deployed : State :=
  match constructor 100 1 with
  | Ok s => s
  | Revert _ => empty_state
  end.

(** The chain of appointments down to producer 5. *)
Definition staffed : State :=
  exec_all (H := sim)
    [mkTx 1 10 (AppointCountryAdmin 2 1);
     mkTx 2 11 (AppointStateAdmin 3 9);
     mkTx 3 12 (AppointCityAdmin 4 7);
     mkTx 4 13 (RegisterProducer 5)]
    deployed.

(** Account 2 is made a country admin and then appoints itself state admin. *)
Definition double_admin : State :=
  exec_all (H := sim)
    [mkTx 1 10 (AppointCountryAdmin 2 1);
     mkTx 2 11 (AppointStateAdmin 2 9)]
    deployed.

(** The certification of [amount] credits for [to] under [certHash], signed
    by [signer], as the contract hashes it. *)
Definition sim_certificate (signer to amount certHash : Z) : list byte :=
  sim_sign signer
    (toEthSignedMessageHash (H := sim)
       (sim_keccak256 (encodePacked to amount certHash))).

(** Producer 5 receives credits 1, 2 and 3 under certification hash 77. *)
Definition funded : State :=
  exec (H := sim) 5 20
    (MintWithCertification 5 3 77 (sim_certificate 4 5 3 77)) staffed.

(** ... and then the main admin pauses the contract. *)
Definition paused_ledger : State := exec (H := sim) 1 21 DoPause funded.

(** Producer 5 retires credit 1; later the main admin pauses. *)
Definition retired_ledger : State := exec (H := sim) 5 30 (Retire 1) funded.

Definition retired_then_paused : State :=
  exec (H := sim) 1 31 DoPause retired_ledger.

(** Receivers for the scenarios.  [no_code]: no account has code. *)
Definition no_code : Receivers :=
  {| hasCode := fun _ => false;
     onReceived := fun _ _ _ _ _ => Return true |}.

(** [forwarder]: account 5 is a contract that passes every credit it
    receives on to account 6 and then accepts it. *)
Definition forwarder : Receivers :=
  {| hasCode := fun a => a =? 5;
     onReceived := fun to _ _ tokenId _ =>
                     Invoke to (TransferFrom to 6 tokenId)
                       (fun _ _ => Return true) |}.

(** [greedy]: account 5 is a contract that, in the callback, submits a
    second certification of its own (2 credits under hash 78), and accepts
    the credit whatever comes of it. *)
Definition greedy : Receivers :=
  {| hasCode := fun a => a =? 5;
     onReceived := fun to _ _ _ _ =>
                     Invoke to
                       (MintWithCertification 5 2 78
                          (sim_certificate 4 5 2 78))
                       (fun _ _ => Return true) |}.

(** [probe b]: account 5 is a contract that reads
    [certificationHashUsed(77)] in the callback; it accepts the credit when
    the hash is consumed, and otherwise only if [b]. *)
Definition probe (b : bool) : Receivers :=
  {| hasCode := fun a => a =? 5;
     onReceived := fun _ _ _ _ s =>
                     Return (b || getB (certificationHashUsed s) 77) |}.

(** The ledger after the mint of [funded] when producer 5 is the contract
    of [forwarder]. *)
Definition forwarded : State :=
  exec_re (H := sim) (RC := forwarder) 1 5 20
    (MintWithCertification 5 3 77 (sim_certificate 4 5 3 77)) staffed.


(** Account 6 registers as a buyer and is then registered as an auditor. *)
Definition buyer_and_auditor : State :=
  exec_all (H := sim)
    [mkTx 6 50 RegisterBuyer; mkTx 1 51 (RegisterAuditor 6)] staffed.

(** For comparison only, this is not the contract's code:
    [mintWithCertification] with line 102 (the hash is marked as used)
    moved below the loop. *)
Definition mintWithCertification_hash_last `{Platform} {RC : Receivers}
    (nested : option (Z -> Call -> State -> result State))
    (caller now to amount certHash : Z) (certifierSignature : list byte)
    (s : State) : result State :=
  _ ← whenNotPaused s;
  _ ← require (negb (to =? 0)) "Cannot mint to zero address";
  _ ← require ((0 <? amount) && (amount <=? 1000)) "Invalid amount";
  _ ← require (getB (isProducer (hierarchy s)) to)
        "Recipient must be registered producer";
  _ ← require (negb (getB (certificationHashUsed s) certHash))
        "Certification hash already used";
  let messageHash := keccak256 (encodePacked to amount certHash) in
  let ethSignedMessageHash := toEthSignedMessageHash messageHash in
  certifier_ ← ECDSA_recover ethSignedMessageHash certifierSignature;
  _ ← require (hasRole CITY_ADMIN_ROLE certifier_ s)
        "Invalid certifier signature";
  let fromId := _nextTokenId s in
  sum ← checked_add (_nextTokenId s) amount;
  toId ← checked_sub sum 1;
  s2 ← mint_loop_re nested (Z.to_nat amount) caller now to certifier_ certHash s;
  let s3 :=
    set_certificationHashUsed
      (<[certHash := true]> (certificationHashUsed s2)) s2 in
  Ok (emit (CreditsIssued to amount fromId toId certHash) s3).

(** * Properties *)

Section Properties.
Context `{Platform}.

(** ** Inversion of the result monad *)

Lemma bind_Ok {A B} (c : result A) (k : A -> result B) (b : B) :
  (c ≫= k) = Ok b -> exists a, c = Ok a /\ k a = Ok b.
Proof. destruct c as [a|e]; cbn; [eauto | discriminate]. Qed.

Lemma require_Ok (cond : bool) (m : string) (u : unit) :
  require cond m = Ok u -> cond = true.
Proof. unfold require. by destruct cond. Qed.

Lemma exec_Ok caller now c s s' :
  run caller now c s = Ok s' -> exec caller now c s = s'.
Proof. unfold exec. by intros ->. Qed.

Lemma exec_Revert caller now c s e :
  run caller now c s = Revert e -> exec caller now c s = s.
Proof. unfold exec. by intros ->. Qed.

(** Peel the guards of a successful call, one bind at a time. *)
Ltac peel H :=
  repeat match type of H with
    | (_ ≫= _) = Ok _ =>
        let a := fresh "a" in
        let Ha := fresh "Hg" in
        apply bind_Ok in H as (a & Ha & H)
    end.

Ltac guards :=
  repeat match goal with
    | Hg : require _ _ = Ok _ |- _ => apply require_Ok in Hg
    | Hg : onlyRole ?r ?c ?s = Ok _ |- _ =>
        unfold onlyRole in Hg;
        destruct (hasRole r c s) eqn:?; [clear Hg | discriminate Hg]
    | Hg : whenNotPaused ?s = Ok _ |- _ =>
        unfold whenNotPaused in Hg;
        destruct (_paused s) eqn:?; [discriminate Hg | clear Hg]
    | Hg : whenPaused ?s = Ok _ |- _ =>
        unfold whenPaused in Hg;
        destruct (_paused s) eqn:?; [clear Hg | discriminate Hg]
    end.

(** ** Reading through the setters *)

Lemma hasRole_grant_same role account caller s :
  hasRole role account (_grantRole role account caller s) = true.
Proof.
  unfold _grantRole. destruct (hasRole role account s) eqn:E; [done|].
  unfold hasRole, getB; cbn. by rewrite lookup_insert_eq.
Qed.

Lemma hasRole_grant_other role role' account account' caller s :
  (role, account) <> (role', account') ->
  hasRole role' account' (_grantRole role account caller s)
  = hasRole role' account' s.
Proof.
  intros Hne. unfold _grantRole. destruct (hasRole role account s); [done|].
  unfold hasRole, getB; cbn. by rewrite lookup_insert_ne.
Qed.

(** ** The appointment chain *)

Lemma onlyRole_missing role caller s :
  hasRole role caller s = false ->
  onlyRole role caller s = Revert (InsufficientCapability caller role).
Proof. unfold onlyRole. by intros ->. Qed.

(** C5. Each appointment is guarded by the capability one level up:
    [appointCountryAdmin] needs [MAIN_ADMIN_ROLE], [appointStateAdmin] needs
    [COUNTRY_ADMIN_ROLE], [appointCityAdmin] needs [STATE_ADMIN_ROLE] and
    [registerProducer] needs [CITY_ADMIN_ROLE].  A successful call implies
    the caller held the capability; a caller without it is answered with
    [InsufficientCapability] and the ledger is left exactly as it was (no
    role, flag or jurisdiction id recorded). *)
Theorem appointment_chain (caller now x id : Z) (s : State) :
  (forall s', run caller now (AppointCountryAdmin x id) s = Ok s' ->
              hasRole MAIN_ADMIN_ROLE caller s = true)
  /\ (forall s', run caller now (AppointStateAdmin x id) s = Ok s' ->
                 hasRole COUNTRY_ADMIN_ROLE caller s = true)
  /\ (forall s', run caller now (AppointCityAdmin x id) s = Ok s' ->
                 hasRole STATE_ADMIN_ROLE caller s = true)
  /\ (forall s', run caller now (RegisterProducer x) s = Ok s' ->
                 hasRole CITY_ADMIN_ROLE caller s = true)
  /\ (hasRole MAIN_ADMIN_ROLE caller s = false ->
      run caller now (AppointCountryAdmin x id) s
      = Revert (InsufficientCapability caller MAIN_ADMIN_ROLE)
      /\ exec caller now (AppointCountryAdmin x id) s = s)
  /\ (hasRole COUNTRY_ADMIN_ROLE caller s = false ->
      run caller now (AppointStateAdmin x id) s
      = Revert (InsufficientCapability caller COUNTRY_ADMIN_ROLE)
      /\ exec caller now (AppointStateAdmin x id) s = s)
  /\ (hasRole STATE_ADMIN_ROLE caller s = false ->
      run caller now (AppointCityAdmin x id) s
      = Revert (InsufficientCapability caller STATE_ADMIN_ROLE)
      /\ exec caller now (AppointCityAdmin x id) s = s)
  /\ (hasRole CITY_ADMIN_ROLE caller s = false ->
      run caller now (RegisterProducer x) s
      = Revert (InsufficientCapability caller CITY_ADMIN_ROLE)
      /\ exec caller now (RegisterProducer x) s = s).
Proof.
  repeat split.
  1-4: intros s' Hrun; cbn in Hrun;
       unfold appointCountryAdmin, appointStateAdmin, appointCityAdmin,
         registerProducer in Hrun; peel Hrun; guards; done.
  all: try (unfold exec); cbn;
       unfold appointCountryAdmin, appointStateAdmin, appointCityAdmin,
         registerProducer; rewrite onlyRole_missing by done; done.
Qed.

(** ** The token store under [_update] *)

Lemma update_existing to tokenId auth s :
  _ownerOf tokenId s <> 0 -> to <> 0 ->
  _update to tokenId auth s
  = (_ ← whenNotPaused s;
     _ ← require (negb (getB (isRetired (retirement s)) tokenId))
           "Cannot transfer retired credit";
     _ ← (if negb (auth =? 0)
          then _checkAuthorized (_ownerOf tokenId s) auth tokenId s
          else Ok tt);
     Ok (_ownerOf tokenId s, moved to tokenId s)).
Proof.
  intros Hown Hto. unfold _update, ERC721Enumerable_update, ERC721_update.
  apply Z.eqb_neq in Hown as Hown'. apply Z.eqb_neq in Hto as Hto'.
  destruct (whenNotPaused s); cbn; [|done].
  rewrite Hown'; cbn.
  destruct (require _ _); cbn; [|done].
  destruct (if negb (auth =? 0) then _ else _); cbn; [|done].
  by rewrite Hown', Hto'.
Qed.

Lemma update_fresh to tokenId s :
  _ownerOf tokenId s = 0 -> to <> 0 ->
  _update to tokenId 0 s
  = (_ ← whenNotPaused s; Ok (0, created to tokenId s)).
Proof.
  intros Hown Hto. unfold _update, ERC721Enumerable_update, ERC721_update.
  apply Z.eqb_neq in Hto as Hto'.
  destruct (whenNotPaused s); cbn; [|done].
  rewrite Hown; cbn. by rewrite Hto'.
Qed.

Lemma authorized_exists owner spender tokenId s u :
  approvals_wf s -> spender <> 0 -> owner = _ownerOf tokenId s ->
  _checkAuthorized owner spender tokenId s = Ok u -> owner <> 0.
Proof.
  intros [Hop Happ] Hsp -> Hchk Hz.
  unfold _checkAuthorized, _isAuthorized in Hchk.
  rewrite Hz, Hop, (Happ _ Hz) in Hchk.
  assert ((0 =? spender) = false) as Hne by (apply Z.eqb_neq; lia).
  rewrite Hne, andb_false_r in Hchk. by cbn in Hchk.
Qed.

Lemma ERC721_update_auth to tokenId auth s r :
  ERC721_update to tokenId auth s = Ok r ->
  auth <> 0 -> approvals_wf s -> _ownerOf tokenId s <> 0.
Proof.
  unfold ERC721_update. intros Hrun Hauth Hwf.
  apply Z.eqb_neq in Hauth as Hauth'. rewrite Hauth' in Hrun. cbn in Hrun.
  destruct (_checkAuthorized _ _ _ _) eqn:E; [|done].
  eapply authorized_exists in E; eauto.
Qed.

Lemma update_auth_exists to tokenId auth s r :
  _update to tokenId auth s = Ok r ->
  auth <> 0 -> approvals_wf s -> _ownerOf tokenId s <> 0.
Proof.
  unfold _update, ERC721Enumerable_update. intros Hrun Hauth Hwf.
  destruct (whenNotPaused s); cbn in Hrun; [|done].
  destruct (if negb _ then _ else _); cbn in Hrun; [|done].
  destruct (ERC721_update to tokenId auth s) eqn:E; [|done].
  by eapply ERC721_update_auth.
Qed.

(** A successful [transferFrom]: the token existed, was not retired, the
    contract was not paused, and the result is [moved]. *)
Lemma transferFrom_Ok caller from to tokenId s s' :
  transferFrom caller from to tokenId s = Ok s' ->
  caller <> 0 -> approvals_wf s ->
  to <> 0 /\ _ownerOf tokenId s = from /\ from <> 0
  /\ _paused s = false
  /\ getB (isRetired (retirement s)) tokenId = false
  /\ s' = moved to tokenId s.
Proof.
  intros Hrun Hc Hwf. unfold transferFrom in Hrun.
  destruct (to =? 0) eqn:Hto; [done|]. apply Z.eqb_neq in Hto.
  destruct (decide (_ownerOf tokenId s = 0)) as [Hz|Hnz].
  - (* no such token: the authorisation check rejects *)
    exfalso. destruct (_update to tokenId caller s) as [r|] eqn:E; [|done].
    by apply update_auth_exists in E.
  - rewrite update_existing in Hrun by done.
    peel Hrun. peel Hg. guards. simplify_eq. cbn in Hrun.
    destruct (_ownerOf tokenId s =? from) eqn:E; cbn in Hrun; [|done].
    apply Z.eqb_eq in E. apply negb_true_iff in Hg1. by simplify_eq.
Qed.

Lemma safeTransferFrom_Ok caller from to tokenId s s' :
  safeTransferFrom caller from to tokenId s = Ok s' ->
  transferFrom caller from to tokenId s = Ok s'.
Proof.
  unfold safeTransferFrom. intros Hrun. peel Hrun. by simplify_eq.
Qed.

(** A transfer of a retired credit never succeeds. *)
Lemma update_retired to tokenId auth s :
  _ownerOf tokenId s <> 0 -> to <> 0 -> _paused s = false ->
  getB (isRetired (retirement s)) tokenId = true ->
  _update to tokenId auth s = Revert RetiredCreditTransfer.
Proof.
  intros Hown Hto Hp Hr. rewrite update_existing by done.
  unfold whenNotPaused. rewrite Hp, Hr. done.
Qed.

(** ** Minting *)

Lemma mint_Ok to tokenId s s' :
  _mint to tokenId s = Ok s' ->
  to <> 0 /\ _ownerOf tokenId s = 0 /\ _paused s = false
  /\ s' = created to tokenId s.
Proof.
  unfold _mint. intros Hrun.
  destruct (to =? 0) eqn:Hto; [done|]. apply Z.eqb_neq in Hto.
  destruct (decide (_ownerOf tokenId s = 0)) as [Hz|Hnz].
  - rewrite update_fresh in Hrun by done. peel Hrun. peel Hg. guards.
    simplify_eq. cbn in Hrun. by simplify_eq.
  - rewrite update_existing in Hrun by done. peel Hrun. peel Hg.
    simplify_eq. cbn in Hrun. apply Z.eqb_neq in Hnz. by rewrite Hnz in Hrun.
Qed.

Lemma mint_run to tokenId s :
  to <> 0 -> _ownerOf tokenId s = 0 -> _paused s = false ->
  _mint to tokenId s = Ok (created to tokenId s).
Proof.
  intros Hto Hz Hp. unfold _mint.
  apply Z.eqb_neq in Hto as Hto'. rewrite Hto', update_fresh by done.
  unfold whenNotPaused. by rewrite Hp.
Qed.

Lemma mint_loop_Ok n caller now to cert h s s' :
  mint_loop n caller now to cert h s = Ok s' ->
  s' = issue n now to cert h s.
Proof.
  revert s. induction n as [|n IH]; intros s Hrun; cbn in Hrun.
  - by simplify_eq.
  - peel Hrun. unfold _safeMint in Hg. peel Hg.
    apply mint_Ok in Hg1 as (Hto & Hz & Hp & ->). simplify_eq.
    unfold checked_add in Hg0. case_match; [|done]. simplify_eq.
    apply IH in Hrun. by subst.
Qed.

Lemma mint_loop_run n caller now to cert h s :
  to <> 0 -> _paused s = false ->
  (forall id, _nextTokenId s <= id -> _ownerOf id s = 0) ->
  (forall id, _nextTokenId s <= id < _nextTokenId s + Z.of_nat n ->
              onERC721Received to caller 0 id = true) ->
  _nextTokenId s + Z.of_nat n <= MAX_UINT256 ->
  mint_loop n caller now to cert h s = Ok (issue n now to cert h s).
Proof.
  intros Hto. revert s. induction n as [|n IH]; intros s Hp Hfresh Hrecv Hmax.
  - done.
  - cbn [mint_loop issue]. unfold _safeMint.
    rewrite mint_run by (done || apply Hfresh; lia). cbn.
    unfold checkOnERC721Received. rewrite Hrecv by lia. cbn.
    unfold checked_add.
    destruct (_ <=? _) eqn:E; [|apply Z.leb_gt in E; lia]. cbn.
    apply IH; cbn.
    + done.
    + intros id Hid. unfold _ownerOf, getZ; cbn.
      rewrite lookup_insert_ne by lia. apply Hfresh. lia.
    + intros id Hid. apply Hrecv. lia.
    + lia.
Qed.

(** What [n] turns of the loop leave behind. *)
Lemma issue_nextTokenId n now to cert h s :
  _nextTokenId (issue n now to cert h s) = _nextTokenId s + Z.of_nat n.
Proof.
  revert s. induction n as [|n IH]; intros s; cbn [issue]; [lia|].
  rewrite IH. cbn. lia.
Qed.

Lemma issue_allTokens n now to cert h s :
  _allTokens (erc721 (issue n now to cert h s))
  = _allTokens (erc721 s)
    ++ map (fun i => _nextTokenId s + Z.of_nat i) (seq 0 n).
Proof.
  revert s. induction n as [|n IH]; intros s; cbn [issue].
  - cbn. by rewrite app_nil_r.
  - rewrite IH. cbn. rewrite <- app_assoc. f_equal. cbn. f_equal.
    + f_equal. lia.
    + rewrite <- seq_shift, map_map. apply map_ext. intros i. lia.
Qed.

Lemma issue_owner_new n now to cert h s id :
  _nextTokenId s <= id < _nextTokenId s + Z.of_nat n ->
  _ownerOf id (issue n now to cert h s) = to
  /\ tokenCertifications (issue n now to cert h s) !! id
     = Some (mkCertificationData to cert now "" h).
Proof.
  revert s. induction n as [|n IH]; intros s Hid; cbn [issue]; [lia|].
  destruct (decide (id = _nextTokenId s)) as [->|Hne].
  - clear IH Hid.
    assert (Hlt : _nextTokenId s
                  < _nextTokenId (issue_one now to cert h s)) by (cbn; lia).
    assert (Hhere : _ownerOf (_nextTokenId s) (issue_one now to cert h s) = to
                    /\ tokenCertifications (issue_one now to cert h s)
                       !! _nextTokenId s
                       = Some (mkCertificationData to cert now "" h)).
    { unfold _ownerOf, getZ; cbn. by rewrite !lookup_insert_eq. }
    revert Hlt Hhere. generalize (issue_one now to cert h s) as s1.
    generalize (_nextTokenId s) as k. clear s.
    induction n as [|n IH]; intros k s1 Hlt Hhere; cbn [issue]; [done|].
    apply IH; [cbn; lia|].
    unfold _ownerOf, getZ in *; cbn.
    by rewrite !lookup_insert_ne by lia.
  - apply IH. cbn. lia.
Qed.

Lemma issue_owner_old n now to cert h s id :
  id < _nextTokenId s ->
  _ownerOf id (issue n now to cert h s) = _ownerOf id s
  /\ tokenCertifications (issue n now to cert h s) !! id
     = tokenCertifications s !! id.
Proof.
  revert s. induction n as [|n IH]; intros s Hid; cbn [issue]; [done|].
  destruct (IH (issue_one now to cert h s)) as [-> ->]; [cbn; lia|].
  unfold _ownerOf, getZ; cbn. by rewrite !lookup_insert_ne by lia.
Qed.

(** The loop touches the token store, the certification records, the id
    counter and the event log, and nothing else. *)
Lemma issue_frame n now to cert h s :
  let s' := issue n now to cert h s in
  _paused s' = _paused s /\ _roles s' = _roles s
  /\ hierarchy s' = hierarchy s
  /\ certificationHashUsed s' = certificationHashUsed s
  /\ retirement s' = retirement s
  /\ _tokenApprovals (erc721 s') = _tokenApprovals (erc721 s)
  /\ _operatorApprovals (erc721 s') = _operatorApprovals (erc721 s).
Proof.
  revert s. induction n as [|n IH]; intros s; cbn [issue]; [done|].
  cbn zeta in IH. destruct (IH (issue_one now to cert h s))
    as (-> & -> & -> & -> & -> & -> & ->). done.
Qed.

Lemma issue_events n now to cert h s :
  events (issue n now to cert h s)
  = events s
    ++ map (fun i => Transfer 0 to (_nextTokenId s + Z.of_nat i)) (seq 0 n).
Proof.
  revert s. induction n as [|n IH]; intros s; cbn [issue].
  - cbn. by rewrite app_nil_r.
  - rewrite IH. cbn. rewrite <- app_assoc. f_equal. cbn. f_equal.
    + f_equal. lia.
    + rewrite <- seq_shift, map_map. apply map_ext. intros i.
      f_equal. lia.
Qed.

Lemma mintWithCertification_Ok caller now to amount h sig s s' :
  mintWithCertification caller now to amount h sig s = Ok s' ->
  _paused s = false /\ to <> 0 /\ 0 < amount <= 1000
  /\ getB (isProducer (hierarchy s)) to = true
  /\ getB (certificationHashUsed s) h = false
  /\ exists cert,
      ECDSA_recover (onchain_digest to amount h) sig = Ok cert
      /\ hasRole CITY_ADMIN_ROLE cert s = true
      /\ s' = minted now to amount h cert s.
Proof.
  unfold mintWithCertification. intros Hrun. peel Hrun. guards.
  apply negb_true_iff, Z.eqb_neq in Hg0.
  apply andb_true_iff in Hg1 as [?%Z.ltb_lt ?%Z.leb_le].
  apply negb_true_iff in Hg3.
  repeat split; try done. exists a4. repeat split; try done.
  apply mint_loop_Ok in Hg8. subst a8. unfold minted.
  unfold checked_add in Hg6. unfold checked_sub in Hg7. cbn in Hg6.
  repeat case_match; simplify_eq. done.
Qed.

Lemma mintWithCertification_run caller now to amount h sig cert s :
  _paused s = false -> to <> 0 -> 0 < amount <= 1000 ->
  getB (isProducer (hierarchy s)) to = true ->
  getB (certificationHashUsed s) h = false ->
  ECDSA_recover (onchain_digest to amount h) sig = Ok cert ->
  hasRole CITY_ADMIN_ROLE cert s = true ->
  (forall id, _nextTokenId s <= id -> _ownerOf id s = 0) ->
  (forall id, _nextTokenId s <= id < _nextTokenId s + amount ->
              onERC721Received to caller 0 id = true) ->
  0 <= _nextTokenId s -> _nextTokenId s + amount <= MAX_UINT256 ->
  mintWithCertification caller now to amount h sig s
  = Ok (minted now to amount h cert s).
Proof.
  intros Hp Hto Ham Hprod Hused Hrec Hrole Hfresh Hrecv Hpos Hmax.
  unfold mintWithCertification, whenNotPaused, require. rewrite Hp. cbn.
  apply Z.eqb_neq in Hto as Hto'. rewrite Hto'. cbn.
  assert ((0 <? amount) && (amount <=? 1000) = true) as ->.
  { apply andb_true_iff. split; [apply Z.ltb_lt | apply Z.leb_le]; lia. }
  cbn. rewrite Hprod. cbn. rewrite Hused. cbn.
  unfold onchain_digest in Hrec. rewrite Hrec. cbn. rewrite Hrole. cbn.
  unfold checked_add, checked_sub.
  destruct (_nextTokenId s + amount <=? MAX_UINT256) eqn:E1;
    [|apply Z.leb_gt in E1; lia]. cbn.
  destruct (1 <=? _nextTokenId s + amount) eqn:E2;
    [|apply Z.leb_gt in E2; lia]. cbn.
  rewrite (mint_loop_run _ _ _ _ cert h); cbn; try done.
  - intros id Hid. apply Hrecv. lia.
  - lia.
Qed.

(** ** Calls that leave the token ledger alone *)

Lemma grantRole_ledger r a c s : same_ledger s (_grantRole r a c s).
Proof. unfold _grantRole. by case_match. Qed.

Lemma revokeRole_ledger r a c s : same_ledger s (_revokeRole r a c s).
Proof. unfold _revokeRole. by case_match. Qed.

Lemma grantRole_hierarchy r a c s :
  hierarchy (_grantRole r a c s) = hierarchy s
  /\ _paused (_grantRole r a c s) = _paused s.
Proof. unfold _grantRole. by case_match. Qed.

Lemma revokeRole_hierarchy r a c s :
  hierarchy (_revokeRole r a c s) = hierarchy s
  /\ _paused (_revokeRole r a c s) = _paused s.
Proof. unfold _revokeRole. by case_match. Qed.

Ltac unfold_calls H :=
  cbn [run] in H;
  unfold appointCountryAdmin, appointStateAdmin, appointCityAdmin,
    registerProducer, registerBuyer, registerAuditor, pause, unpause,
    grantRole, revokeRole, renounceRole in H.

Lemma quiet_ledger caller now c s s' :
  quiet c = true -> run caller now c s = Ok s' -> same_ledger s s'.
Proof.
  intros Hq Hrun. destruct c; try done; unfold_calls Hrun;
    try (peel Hrun; guards; simplify_eq);
    try (case_match; simplify_eq);
    try done;
    try (destruct (grantRole_ledger r a c s) as (? & ? & ? & ? & ?));
    cbn;
    match goal with
    | |- same_ledger _ (emit _ (_grantRole ?r ?a ?c ?s0)) =>
        destruct (grantRole_ledger r a c s0) as (? & ? & ? & ? & ?);
        by repeat split
    | |- same_ledger _ (_grantRole _ _ _ _) => apply grantRole_ledger
    | |- same_ledger _ (_revokeRole _ _ _ _) => apply revokeRole_ledger
    | _ => idtac
    end.
Qed.

(** ** Calls that act on the token store only *)

Lemma same_outside_token_trans s1 s2 s3 :
  same_outside_token s1 s2 -> same_outside_token s2 s3 ->
  same_outside_token s1 s3.
Proof.
  intros (? & ? & ? & ? & ? & ? & ?) (? & ? & ? & ? & ? & ? & ?).
  repeat split; congruence.
Qed.

Lemma ERC721_update_outside to tokenId auth s p s' :
  ERC721_update to tokenId auth s = Ok (p, s') -> same_outside_token s s'.
Proof.
  unfold ERC721_update. intros Hrun. peel Hrun. by simplify_eq.
Qed.

Lemma enumeration_outside (b1 b2 : bool) tokenId s :
  same_outside_token s
    (let s2 := if b1 then _addTokenToAllTokensEnumeration tokenId s else s in
     if b2 then _removeTokenFromAllTokensEnumeration tokenId s2 else s2).
Proof.
  unfold _addTokenToAllTokensEnumeration,
    _removeTokenFromAllTokensEnumeration.
  destruct b1, b2; cbn; repeat case_match; done.
Qed.

Lemma update_outside to tokenId auth s p s' :
  _update to tokenId auth s = Ok (p, s') -> same_outside_token s s'.
Proof.
  unfold _update, ERC721Enumerable_update.
  intros Hrun. peel Hrun. destruct a1 as [p1 s1]. simplify_eq.
  eapply same_outside_token_trans; [by eapply ERC721_update_outside|].
  apply (enumeration_outside (p =? 0) (to =? 0)).
Qed.

Lemma transferFrom_outside caller from to tokenId s s' :
  transferFrom caller from to tokenId s = Ok s' -> same_outside_token s s'.
Proof.
  unfold transferFrom. intros Hrun. case_match; [done|].
  peel Hrun. destruct a as [p s1]. case_match; [done|]. simplify_eq.
  by eapply update_outside.
Qed.

Lemma retire_Ok caller now tokenId s s' :
  retire caller now tokenId s = Ok s' ->
  _ownerOf tokenId s = caller
  /\ getB (isRetired (retirement s)) tokenId = false
  /\ s' = emit (CreditRetired caller tokenId now)
            (set_retirement
               (mkRetirement
                  (<[tokenId := true]> (isRetired (retirement s)))
                  (<[tokenId := caller]> (retiredBy (retirement s)))
                  (<[tokenId := now]> (retiredAt (retirement s)))) s).
Proof.
  unfold retire. intros Hrun. peel Hrun. guards.
  apply Z.eqb_eq in Hg. apply negb_true_iff in Hg0. by simplify_eq.
Qed.

Lemma approve_Ok caller to tokenId s s' :
  approve caller to tokenId s = Ok s' ->
  _ownerOf tokenId s <> 0
  /\ s' = set_erc721
            (mkERC721 (_owners (erc721 s)) (_balances (erc721 s))
               (<[tokenId := to]> (_tokenApprovals (erc721 s)))
               (_operatorApprovals (erc721 s)) (_allTokens (erc721 s)))
            (emit (Approval (_ownerOf tokenId s) to tokenId) s).
Proof.
  unfold approve. intros Hrun.
  destruct (_ownerOf tokenId s =? 0) eqn:E; [done|]. apply Z.eqb_neq in E.
  case_match; by simplify_eq.
Qed.

Lemma setApprovalForAll_Ok caller operator approved s s' :
  setApprovalForAll caller operator approved s = Ok s' ->
  s' = emit (ApprovalForAll caller operator approved)
         (set_erc721
            (mkERC721 (_owners (erc721 s)) (_balances (erc721 s))
               (_tokenApprovals (erc721 s))
               (<[(caller, operator) := approved]>
                  (_operatorApprovals (erc721 s)))
               (_allTokens (erc721 s))) s).
Proof. unfold setApprovalForAll. intros Hrun. case_match; by simplify_eq. Qed.

(** ** Appointment flags and consumed hashes only grow *)

Lemma appointed_le_refl h : appointed_le h h.
Proof. by intros a. Qed.

Lemma getB_insert_true {K} `{Countable K} (m : gmap K bool) k k' :
  getB m k' = true -> getB (<[k := true]> m) k' = true.
Proof.
  unfold getB. destruct (decide (k = k')) as [->|Hne].
  - by rewrite lookup_insert_eq.
  - by rewrite lookup_insert_ne.
Qed.

Lemma run_appointed_le caller now c s s' :
  run caller now c s = Ok s' -> appointed_le (hierarchy s) (hierarchy s').
Proof.
  intros Hrun. destruct c.
  - apply mintWithCertification_Ok in Hrun
      as (_ & _ & _ & _ & _ & cert & _ & _ & ->).
    unfold minted; cbn.
    destruct (issue_frame (Z.to_nat amount) now to cert certHash
                (set_certificationHashUsed
                   (<[certHash:=true]> (certificationHashUsed s)) s))
      as (_ & _ & -> & _). apply appointed_le_refl.
  - unfold_calls Hrun. peel Hrun. guards. simplify_eq. cbn.
    rewrite (proj1 (grantRole_hierarchy _ _ _ _)). cbn.
    intros acct. repeat split; try done. apply getB_insert_true.
  - unfold_calls Hrun. peel Hrun. guards. simplify_eq. cbn.
    rewrite (proj1 (grantRole_hierarchy _ _ _ _)). cbn.
    intros acct. repeat split; try done. apply getB_insert_true.
  - unfold_calls Hrun. peel Hrun. guards. simplify_eq. cbn.
    rewrite (proj1 (grantRole_hierarchy _ _ _ _)). cbn.
    intros acct. repeat split; try done. apply getB_insert_true.
  - unfold_calls Hrun. peel Hrun. guards. simplify_eq. cbn.
    rewrite (proj1 (grantRole_hierarchy _ _ _ _)). cbn.
    intros acct. repeat split; try done. apply getB_insert_true.
  - unfold_calls Hrun. peel Hrun. guards. simplify_eq. cbn.
    rewrite (proj1 (grantRole_hierarchy _ _ _ _)). cbn.
    intros acct. by repeat split.
  - unfold_calls Hrun. peel Hrun. guards. simplify_eq. cbn.
    rewrite (proj1 (grantRole_hierarchy _ _ _ _)). cbn.
    intros acct. by repeat split.
  - apply retire_Ok in Hrun as (_ & _ & ->). apply appointed_le_refl.
  - unfold_calls Hrun. peel Hrun. simplify_eq. apply appointed_le_refl.
  - unfold_calls Hrun. peel Hrun. simplify_eq. apply appointed_le_refl.
  - cbn in Hrun. apply transferFrom_outside in Hrun as (_ & _ & _ & -> & _).
    apply appointed_le_refl.
  - cbn in Hrun. apply safeTransferFrom_Ok, transferFrom_outside in Hrun
      as (_ & _ & _ & -> & _). apply appointed_le_refl.
  - apply approve_Ok in Hrun as (_ & ->). apply appointed_le_refl.
  - apply setApprovalForAll_Ok in Hrun as ->. apply appointed_le_refl.
  - unfold_calls Hrun. peel Hrun. simplify_eq.
    rewrite (proj1 (grantRole_hierarchy _ _ _ _)). apply appointed_le_refl.
  - unfold_calls Hrun. peel Hrun. simplify_eq.
    rewrite (proj1 (revokeRole_hierarchy _ _ _ _)). apply appointed_le_refl.
  - unfold_calls Hrun. case_match; [done|]. simplify_eq.
    rewrite (proj1 (revokeRole_hierarchy _ _ _ _)). apply appointed_le_refl.
Qed.

Lemma exec_all_appointed_le txs s :
  appointed_le (hierarchy s) (hierarchy (exec_all txs s)).
Proof.
  revert s. induction txs as [|tx txs IH]; intros s; cbn.
  - apply appointed_le_refl.
  - intros a. specialize (IH (exec_tx s tx) a).
    assert (Hstep : appointed_le (hierarchy s) (hierarchy (exec_tx s tx))).
    { unfold exec_tx, exec.
      destruct (run _ _ _ s) eqn:E; [by eapply run_appointed_le|].
      apply appointed_le_refl. }
    specialize (Hstep a). intuition.
Qed.

(** ** Reachability *)

Lemma reachable_exec_all txs s :
  reachable s -> Forall valid_tx txs -> reachable (exec_all txs s).
Proof.
  revert s. induction txs as [|tx txs IH]; intros s Hs Hv; cbn; [done|].
  inversion Hv; subst. apply IH; [|done]. by apply reachable_step.
Qed.

(** ** One level at a time? *)

Lemma appointCountryAdmin_flag caller admin id s s1 :
  appointCountryAdmin caller admin id s = Ok s1 ->
  admin <> 0 /\ getB (isCountryAdmin (hierarchy s1)) admin = true
  /\ hasRole COUNTRY_ADMIN_ROLE admin s1 = true.
Proof.
  unfold appointCountryAdmin. intros Hrun. peel Hrun. guards. simplify_eq.
  apply negb_true_iff, Z.eqb_neq in Hg0. split; [done|]. cbn. split.
  - rewrite (proj1 (grantRole_hierarchy _ _ _ _)). cbn.
    unfold getB. by rewrite lookup_insert_eq.
  - unfold hasRole. cbn. apply hasRole_grant_same.
Qed.

Lemma appointStateAdmin_flag caller admin id s s1 :
  appointStateAdmin caller admin id s = Ok s1 ->
  admin <> 0 /\ getB (isStateAdmin (hierarchy s1)) admin = true
  /\ hasRole STATE_ADMIN_ROLE admin s1 = true.
Proof.
  unfold appointStateAdmin. intros Hrun. peel Hrun. guards. simplify_eq.
  apply negb_true_iff, Z.eqb_neq in Hg0. split; [done|]. cbn. split.
  - rewrite (proj1 (grantRole_hierarchy _ _ _ _)). cbn.
    unfold getB. by rewrite lookup_insert_eq.
  - unfold hasRole. cbn. apply hasRole_grant_same.
Qed.

Lemma appointCityAdmin_flag caller admin id s s1 :
  appointCityAdmin caller admin id s = Ok s1 ->
  admin <> 0 /\ getB (isCityAdmin (hierarchy s1)) admin = true
  /\ hasRole CITY_ADMIN_ROLE admin s1 = true.
Proof.
  unfold appointCityAdmin. intros Hrun. peel Hrun. guards. simplify_eq.
  apply negb_true_iff, Z.eqb_neq in Hg0. split; [done|]. cbn. split.
  - rewrite (proj1 (grantRole_hierarchy _ _ _ _)). cbn.
    unfold getB. by rewrite lookup_insert_eq.
  - unfold hasRole. cbn. apply hasRole_grant_same.
Qed.

(** C9, as the contract has it.  Once an account has been appointed at a
    level, every later attempt by an authorised caller to appoint it at
    that same level is rejected with [AlreadyHeld] and changes nothing,
    whatever transactions happened in between.  (Nothing in the contract
    keeps the levels apart: see [two_levels_at_once].) *)
Theorem reappointment_rejected (caller now admin id : Z) (s s1 : State)
    (txs : list Tx) (caller' now' id' : Z) :
  (run caller now (AppointCountryAdmin admin id) s = Ok s1 ->
   hasRole MAIN_ADMIN_ROLE caller' (exec_all txs s1) = true ->
   run caller' now' (AppointCountryAdmin admin id') (exec_all txs s1)
   = Revert AlreadyHeld_country
   /\ exec caller' now' (AppointCountryAdmin admin id') (exec_all txs s1)
      = exec_all txs s1)
  /\ (run caller now (AppointStateAdmin admin id) s = Ok s1 ->
      hasRole COUNTRY_ADMIN_ROLE caller' (exec_all txs s1) = true ->
      run caller' now' (AppointStateAdmin admin id') (exec_all txs s1)
      = Revert AlreadyHeld_state
      /\ exec caller' now' (AppointStateAdmin admin id') (exec_all txs s1)
         = exec_all txs s1)
  /\ (run caller now (AppointCityAdmin admin id) s = Ok s1 ->
      hasRole STATE_ADMIN_ROLE caller' (exec_all txs s1) = true ->
      run caller' now' (AppointCityAdmin admin id') (exec_all txs s1)
      = Revert AlreadyHeld_city
      /\ exec caller' now' (AppointCityAdmin admin id') (exec_all txs s1)
         = exec_all txs s1).
Proof.
  pose proof (exec_all_appointed_le txs s1 admin) as (Hco & Hst & Hci & _).
  split; [|split]; intros Hrun Hrole; cbn in Hrun;
    (split; [|unfold exec]); cbn [run].
  1,2: apply appointCountryAdmin_flag in Hrun as (Hnz & Hflag & _);
       unfold appointCountryAdmin, onlyRole; rewrite Hrole; cbn;
       apply Z.eqb_neq in Hnz; rewrite Hnz; cbn;
       by rewrite (Hco Hflag).
  1,2: apply appointStateAdmin_flag in Hrun as (Hnz & Hflag & _);
       unfold appointStateAdmin, onlyRole; rewrite Hrole; cbn;
       apply Z.eqb_neq in Hnz; rewrite Hnz; cbn;
       by rewrite (Hst Hflag).
  1,2: apply appointCityAdmin_flag in Hrun as (Hnz & Hflag & _);
       unfold appointCityAdmin, onlyRole; rewrite Hrole; cbn;
       apply Z.eqb_neq in Hnz; rewrite Hnz; cbn;
       by rewrite (Hci Hflag).
Qed.

(** ** The circuit breaker *)

Lemma run_paused caller now c s s' :
  run caller now c s = Ok s' -> c <> DoPause -> c <> DoUnpause ->
  _paused s' = _paused s.
Proof.
  intros Hrun Hp Hu. destruct c; try done.
  - apply mintWithCertification_Ok in Hrun
      as (_ & _ & _ & _ & _ & cert & _ & _ & ->).
    unfold minted; cbn.
    by destruct (issue_frame (Z.to_nat amount) now to cert certHash
                   (set_certificationHashUsed
                      (<[certHash:=true]> (certificationHashUsed s)) s))
      as (-> & _).
  - unfold_calls Hrun. peel Hrun. guards. simplify_eq. cbn.
    by rewrite (proj2 (grantRole_hierarchy _ _ _ _)).
  - unfold_calls Hrun. peel Hrun. guards. simplify_eq. cbn.
    by rewrite (proj2 (grantRole_hierarchy _ _ _ _)).
  - unfold_calls Hrun. peel Hrun. guards. simplify_eq. cbn.
    by rewrite (proj2 (grantRole_hierarchy _ _ _ _)).
  - unfold_calls Hrun. peel Hrun. guards. simplify_eq. cbn.
    by rewrite (proj2 (grantRole_hierarchy _ _ _ _)).
  - unfold_calls Hrun. peel Hrun. guards. simplify_eq. cbn.
    by rewrite (proj2 (grantRole_hierarchy _ _ _ _)).
  - unfold_calls Hrun. peel Hrun. guards. simplify_eq. cbn.
    by rewrite (proj2 (grantRole_hierarchy _ _ _ _)).
  - by apply retire_Ok in Hrun as (_ & _ & ->).
  - cbn in Hrun. by apply transferFrom_outside in Hrun as (-> & _).
  - cbn in Hrun.
    by apply safeTransferFrom_Ok, transferFrom_outside in Hrun as (-> & _).
  - by apply approve_Ok in Hrun as (_ & ->).
  - by apply setApprovalForAll_Ok in Hrun as ->.
  - unfold_calls Hrun. peel Hrun. simplify_eq.
    by rewrite (proj2 (grantRole_hierarchy _ _ _ _)).
  - unfold_calls Hrun. peel Hrun. simplify_eq.
    by rewrite (proj2 (revokeRole_hierarchy _ _ _ _)).
  - unfold_calls Hrun. case_match; [done|]. simplify_eq.
    by rewrite (proj2 (revokeRole_hierarchy _ _ _ _)).
Qed.

Lemma update_while_paused to tokenId auth s :
  _paused s = true -> _update to tokenId auth s = Revert Paused.
Proof. intros Hp. unfold _update, whenNotPaused. by rewrite Hp. Qed.

Lemma transferFrom_while_paused caller from to tokenId s :
  _paused s = true ->
  transferFrom caller from to tokenId s
  = Revert (if to =? 0 then ERC721InvalidReceiver 0 else Paused).
Proof.
  intros Hp. unfold transferFrom. case_match; [done|].
  by rewrite update_while_paused.
Qed.

(** C2, as the contract has it.  While the contract is paused,
    [mintWithCertification] aborts with [Paused] and every transfer aborts
    (with [Paused] whenever the recipient is not the zero address), the
    ledger staying as it was; no call other than a main admin's [unpause]
    clears the flag, and that call does clear it.  ([retire] and the
    appointment and registration operations carry no pause guard: see
    [paused_ledger_still_changes].) *)
Theorem pause_blocks_mint_and_transfer (caller now : Z) (s : State) :
  _paused s = true ->
  (forall to amount h sig,
      run caller now (MintWithCertification to amount h sig) s = Revert Paused
      /\ exec caller now (MintWithCertification to amount h sig) s = s)
  /\ (forall from to tokenId,
         to <> 0 ->
         run caller now (TransferFrom from to tokenId) s = Revert Paused
         /\ run caller now (SafeTransferFrom from to tokenId) s
            = Revert Paused)
  /\ (forall from to tokenId,
         exec caller now (TransferFrom from to tokenId) s = s
         /\ exec caller now (SafeTransferFrom from to tokenId) s = s)
  /\ (forall c,
         _paused (exec caller now c s) = false ->
         c = DoUnpause /\ hasRole MAIN_ADMIN_ROLE caller s = true)
  /\ (hasRole MAIN_ADMIN_ROLE caller s = true ->
      _paused (exec caller now DoUnpause s) = false).
Proof.
  intros Hp. split; [|split; [|split; [|split]]].
  - intros to amount h sig.
    assert (Hr : run caller now (MintWithCertification to amount h sig) s
                 = Revert Paused).
    { cbn. unfold mintWithCertification, whenNotPaused. by rewrite Hp. }
    split; [done|]. by eapply exec_Revert.
  - intros from to tokenId Hto. apply Z.eqb_neq in Hto. cbn.
    unfold safeTransferFrom.
    rewrite transferFrom_while_paused by done. by rewrite Hto.
  - intros from to tokenId. unfold exec. cbn. unfold safeTransferFrom.
    by rewrite transferFrom_while_paused.
  - intros c Hc. unfold exec in Hc.
    destruct (run caller now c s) as [s'|e] eqn:E; [|congruence].
    assert (c = DoUnpause \/ c = DoPause \/ (c <> DoPause /\ c <> DoUnpause))
      as [->|[->|[Hne Hne']]]
      by (destruct c;
          first [by left | by right; left | by right; right; split]).
    + split; [done|]. cbn in E. unfold unpause in E. peel E. by guards.
    + cbn in E. unfold pause in E. peel E. guards. congruence.
    + apply run_paused in E; [congruence|done..].
  - intros Hrole. unfold exec. cbn.
    unfold unpause, onlyRole, whenPaused. by rewrite Hrole, Hp.
Qed.

(** ** The ledger invariant *)

Lemma issue_owner_other n now to cert h s id :
  ~ (_nextTokenId s <= id < _nextTokenId s + Z.of_nat n) ->
  _ownerOf id (issue n now to cert h s) = _ownerOf id s
  /\ tokenCertifications (issue n now to cert h s) !! id
     = tokenCertifications s !! id.
Proof.
  revert s. induction n as [|n IH]; intros s Hid; cbn [issue]; [done|].
  destruct (IH (issue_one now to cert h s)) as [-> ->]; [cbn; lia|].
  unfold _ownerOf, getZ; cbn. by rewrite !lookup_insert_ne by lia.
Qed.

Lemma constructor_Ok deployer mainAdmin s :
  constructor deployer mainAdmin = Ok s ->
  mainAdmin <> 0
  /\ s = _grantRole MAIN_ADMIN_ROLE mainAdmin deployer
           (_grantRole DEFAULT_ADMIN_ROLE mainAdmin deployer empty_state).
Proof.
  unfold constructor. intros Hrun. peel Hrun. guards.
  apply negb_true_iff, Z.eqb_neq in Hg. by simplify_eq.
Qed.

Lemma token_store_inv s s' :
  erc721 s' = erc721 s -> _nextTokenId s' = _nextTokenId s ->
  ledger_inv s -> ledger_inv s'.
Proof.
  intros He Hn (H1 & H2 & H3 & H4 & H5).
  unfold ledger_inv, approvals_wf, totalSupply, _ownerOf, isApprovedForAll,
    _getApproved in *.
  rewrite He, Hn. done.
Qed.

Lemma same_ledger_inv s s' : same_ledger s s' -> ledger_inv s -> ledger_inv s'.
Proof. intros (He & Hn & _). by apply token_store_inv. Qed.

Lemma constructor_inv deployer mainAdmin s :
  constructor deployer mainAdmin = Ok s -> ledger_inv s.
Proof.
  intros (_ & ->)%constructor_Ok.
  eapply same_ledger_inv; [apply grantRole_ledger|].
  eapply same_ledger_inv; [apply grantRole_ledger|].
  repeat split.
Qed.

Lemma seq_snoc_map (k : Z) (n m : nat) :
  map (fun i => k + Z.of_nat i) (seq 0 n)
  ++ map (fun i => k + Z.of_nat n + Z.of_nat i) (seq 0 m)
  = map (fun i => k + Z.of_nat i) (seq 0 (n + m)).
Proof.
  revert k. induction m as [|m IH]; intros k.
  - cbn. by rewrite app_nil_r, Nat.add_0_r.
  - replace (n + S m)%nat with (S (n + m)) by lia.
    rewrite !seq_S, !map_app, app_assoc, IH. cbn.
    do 2 f_equal. lia.
Qed.

Lemma minted_inv now to amount h cert s :
  0 < amount -> to <> 0 -> ledger_inv s ->
  ledger_inv (minted now to amount h cert s).
Proof.
  intros Ham Hto (H1 & H2 & H3 & H4 & H5).
  set (s1 := set_certificationHashUsed
               (<[h:=true]> (certificationHashUsed s)) s).
  assert (Hn : Z.of_nat (Z.to_nat amount) = amount) by lia.
  pose proof (issue_nextTokenId (Z.to_nat amount) now to cert h s1) as Hnext.
  pose proof (issue_allTokens (Z.to_nat amount) now to cert h s1) as Hall.
  destruct (issue_frame (Z.to_nat amount) now to cert h s1)
    as (_ & _ & _ & _ & _ & Hta & Hoa).
  cbn in Hnext, Hall.
  unfold ledger_inv, minted, totalSupply. cbn. fold s1.
  rewrite Hnext, Hall, length_app, length_map, length_seq.
  split; [unfold totalSupply in H1; lia|]. split.
  { rewrite H2 at 1. unfold totalSupply in H1. rewrite H1.
    replace (Z.of_nat (length (_allTokens (erc721 s))) + 1)
      with (1 + Z.of_nat (length (_allTokens (erc721 s)))) by lia.
    apply seq_snoc_map. }
  split.
  { intros id Hid.
    destruct (issue_owner_other (Z.to_nat amount) now to cert h s1 id)
      as [Hown _]; [cbn; lia|].
    unfold _ownerOf in *. cbn in *. rewrite Hown. apply H3. lia. }
  split.
  { intros op. unfold isApprovedForAll in *. cbn. rewrite Hoa. apply H4. }
  intros id Hz. unfold _getApproved, _ownerOf in *. cbn in *. rewrite Hta.
  apply H5.
  destruct (decide (_nextTokenId s <= id < _nextTokenId s + amount))
    as [Hin|Hout].
  - destruct (issue_owner_new (Z.to_nat amount) now to cert h s1 id)
      as [Hown _]; [cbn; lia|].
    unfold _ownerOf in Hown. cbn in Hown. congruence.
  - destruct (issue_owner_other (Z.to_nat amount) now to cert h s1 id)
      as [Hown _]; [cbn; lia|].
    unfold _ownerOf in Hown. cbn in Hown. congruence.
Qed.

Lemma moved_inv to tokenId s :
  to <> 0 -> _ownerOf tokenId s <> 0 -> ledger_inv s ->
  ledger_inv (moved to tokenId s).
Proof.
  intros Hto Hown (H1 & H2 & H3 & H4 & H5).
  unfold ledger_inv, approvals_wf, totalSupply, _ownerOf, isApprovedForAll,
    _getApproved, getZ in *. cbn.
  repeat split; try done.
  - intros id Hid. destruct (decide (tokenId = id)) as [->|Hne].
    + by rewrite H3 in Hown.
    + rewrite lookup_insert_ne by done. by apply H3.
  - intros id. destruct (decide (tokenId = id)) as [->|Hne].
    + by rewrite !lookup_insert_eq.
    + rewrite !lookup_insert_ne by done. apply H5.
Qed.

Lemma run_inv caller now c s s' :
  caller <> 0 -> ledger_inv s -> run caller now c s = Ok s' -> ledger_inv s'.
Proof.
  intros Hc Hinv Hrun.
  destruct (quiet c) eqn:Hq.
  { eapply same_ledger_inv; [by eapply quiet_ledger|done]. }
  destruct c; try done.
  - apply mintWithCertification_Ok in Hrun
      as (_ & Hto & [Ham _] & _ & _ & cert & _ & _ & ->).
    by apply minted_inv.
  - apply retire_Ok in Hrun as (_ & _ & ->).
    by eapply token_store_inv.
  - cbn in Hrun. destruct Hinv as (H1 & H2 & H3 & H4).
    apply transferFrom_Ok in Hrun as (Hto & Hfrom & Hnz & _ & _ & ->);
      [|done..].
    apply moved_inv; [done| congruence |done].
  - cbn in Hrun. apply safeTransferFrom_Ok in Hrun.
    destruct Hinv as (H1 & H2 & H3 & H4).
    apply transferFrom_Ok in Hrun as (Hto & Hfrom & Hnz & _ & _ & ->);
      [|done..].
    apply moved_inv; [done| congruence |done].
  - apply approve_Ok in Hrun as (Hown & ->).
    destruct Hinv as (H1 & H2 & H3 & H4 & H5).
    unfold ledger_inv, approvals_wf, totalSupply, _ownerOf, isApprovedForAll,
      _getApproved, getZ in *. cbn.
    repeat split; try done.
    intros id Hz. destruct (decide (tokenId = id)) as [->|Hne].
    + by rewrite Hz in Hown.
    + rewrite lookup_insert_ne by done. by apply H5.
  - apply setApprovalForAll_Ok in Hrun as ->.
    destruct Hinv as (H1 & H2 & H3 & H4 & H5).
    unfold ledger_inv, approvals_wf, totalSupply, _ownerOf, isApprovedForAll,
      _getApproved, getB in *. cbn.
    repeat split; try done.
    intros op. rewrite lookup_insert_ne by congruence. apply H4.
Qed.

Lemma exec_tx_inv s tx : valid_tx tx -> ledger_inv s -> ledger_inv (exec_tx s tx).
Proof.
  intros Hv Hinv. unfold exec_tx, exec.
  destruct (run _ _ _ s) eqn:E; [|done]. by eapply run_inv.
Qed.

Lemma reachable_inv s : reachable s -> ledger_inv s.
Proof.
  induction 1 as [d m s Hc | s tx _ IH Hv].
  - by eapply constructor_inv.
  - by apply exec_tx_inv.
Qed.

(** ** The enumeration only grows *)

Lemma minted_allTokens now to amount h cert s :
  _allTokens (erc721 (minted now to amount h cert s))
  = _allTokens (erc721 s)
    ++ map (fun i => _nextTokenId s + Z.of_nat i) (seq 0 (Z.to_nat amount)).
Proof. unfold minted. cbn. by rewrite issue_allTokens. Qed.

Lemma run_allTokens caller now c s s' :
  caller <> 0 -> ledger_inv s -> run caller now c s = Ok s' ->
  _allTokens (erc721 s')
  = _allTokens (erc721 s)
    ++ match c with
       | MintWithCertification _ amount _ _ =>
           map (fun i => _nextTokenId s + Z.of_nat i) (seq 0 (Z.to_nat amount))
       | _ => []
       end.
Proof.
  intros Hc Hinv Hrun.
  destruct (quiet c) eqn:Hq.
  { apply quiet_ledger in Hrun as (-> & _); [|done].
    destruct c; try done; by rewrite app_nil_r. }
  destruct c; try done; rewrite ?app_nil_r.
  - apply mintWithCertification_Ok in Hrun
      as (_ & _ & _ & _ & _ & cert & _ & _ & ->).
    apply minted_allTokens.
  - by apply retire_Ok in Hrun as (_ & _ & ->).
  - cbn in Hrun. destruct Hinv as (_ & _ & _ & Hwf).
    by apply transferFrom_Ok in Hrun as (_ & _ & _ & _ & _ & ->).
  - cbn in Hrun. apply safeTransferFrom_Ok in Hrun.
    destruct Hinv as (_ & _ & _ & Hwf).
    by apply transferFrom_Ok in Hrun as (_ & _ & _ & _ & _ & ->).
  - by apply approve_Ok in Hrun as (_ & ->).
  - by apply setApprovalForAll_Ok in Hrun as ->.
Qed.

(** ** Certified batches *)

Lemma minted_events now to amount h cert s :
  last (events (minted now to amount h cert s))
  = Some (CreditsIssued to amount (_nextTokenId s)
            (_nextTokenId s + amount - 1) h).
Proof. unfold minted. cbn. by rewrite last_snoc. Qed.

(** ** Consumed certification hashes *)

Lemma run_hash_mono caller now c s s' h :
  run caller now c s = Ok s' ->
  getB (certificationHashUsed s) h = true ->
  getB (certificationHashUsed s') h = true.
Proof.
  intros Hrun Hused.
  destruct (quiet c) eqn:Hq.
  { by apply quiet_ledger in Hrun as (_ & _ & -> & _). }
  destruct c; try done.
  - apply mintWithCertification_Ok in Hrun
      as (_ & _ & _ & _ & _ & cert & _ & _ & ->).
    unfold minted; cbn.
    destruct (issue_frame (Z.to_nat amount) now to cert certHash
                (set_certificationHashUsed
                   (<[certHash:=true]> (certificationHashUsed s)) s))
      as (_ & _ & _ & -> & _). cbn. by apply getB_insert_true.
  - by apply retire_Ok in Hrun as (_ & _ & ->).
  - cbn in Hrun.
    by apply transferFrom_outside in Hrun as (_ & _ & _ & _ & -> & _).
  - cbn in Hrun.
    by apply safeTransferFrom_Ok, transferFrom_outside in Hrun
      as (_ & _ & _ & _ & -> & _).
  - by apply approve_Ok in Hrun as (_ & ->).
  - by apply setApprovalForAll_Ok in Hrun as ->.
Qed.

Lemma exec_all_hash_mono txs s h :
  getB (certificationHashUsed s) h = true ->
  getB (certificationHashUsed (exec_all txs s)) h = true.
Proof.
  revert s. induction txs as [|tx txs IH]; intros s Hused; cbn; [done|].
  apply IH. unfold exec_tx, exec.
  destruct (run _ _ _ s) eqn:E; [by eapply run_hash_mono|done].
Qed.

Lemma minted_hash now to amount h cert s :
  getB (certificationHashUsed (minted now to amount h cert s)) h = true.
Proof.
  unfold minted; cbn.
  destruct (issue_frame (Z.to_nat amount) now to cert h
              (set_certificationHashUsed
                 (<[h:=true]> (certificationHashUsed s)) s))
    as (_ & _ & _ & -> & _). cbn.
  unfold getB. by rewrite lookup_insert_eq.
Qed.

Lemma mint_hash_reused caller now to amount h sig s :
  _paused s = false -> to <> 0 -> 0 < amount <= 1000 ->
  getB (isProducer (hierarchy s)) to = true ->
  getB (certificationHashUsed s) h = true ->
  mintWithCertification caller now to amount h sig s = Revert HashReused.
Proof.
  intros Hp Hto Ham Hprod Hused.
  unfold mintWithCertification, whenNotPaused, require. rewrite Hp. cbn.
  apply Z.eqb_neq in Hto as ->. cbn.
  assert ((0 <? amount) && (amount <=? 1000) = true) as ->.
  { apply andb_true_iff. split; [apply Z.ltb_lt | apply Z.leb_le]; lia. }
  cbn. rewrite Hprod. cbn. by rewrite Hused.
Qed.

(** ** Retirement *)

Lemma run_retired caller now c s s' tokenId :
  caller <> 0 -> ledger_inv s -> run caller now c s = Ok s' ->
  getB (isRetired (retirement s)) tokenId = true ->
  _ownerOf tokenId s <> 0 ->
  _ownerOf tokenId s' = _ownerOf tokenId s
  /\ retirement_of tokenId s' = retirement_of tokenId s.
Proof.
  intros Hc Hinv Hrun Hret Hown. unfold retirement_of.
  destruct (quiet c) eqn:Hq.
  { apply quiet_ledger in Hrun as (He & _ & _ & _ & Hr); [|done].
    unfold _ownerOf. by rewrite He, Hr. }
  destruct c; try done.
  - apply mintWithCertification_Ok in Hrun
      as (_ & _ & _ & _ & _ & cert & _ & _ & ->).
    set (s1 := set_certificationHashUsed
                 (<[certHash:=true]> (certificationHashUsed s)) s).
    destruct (issue_frame (Z.to_nat amount) now to cert certHash s1)
      as (_ & _ & _ & _ & Hr & _).
    destruct Hinv as (_ & _ & Hfresh & _).
    destruct (issue_owner_other (Z.to_nat amount) now to cert certHash s1
                tokenId) as [Ho _].
    { cbn. intros [Hge _]. by apply Hfresh in Hge. }
    unfold minted, _ownerOf in *. cbn in *. fold s1. by rewrite Ho, Hr.
  - apply retire_Ok in Hrun as (_ & Hnot & ->).
    destruct (decide (tokenId0 = tokenId)) as [->|Hne]; [congruence|].
    unfold _ownerOf, getB, getZ. cbn.
    by rewrite !lookup_insert_ne by done.
  - cbn in Hrun. destruct Hinv as (_ & _ & _ & Hwf).
    apply transferFrom_Ok in Hrun as (_ & _ & _ & _ & Hnot & ->); [|done..].
    destruct (decide (tokenId0 = tokenId)) as [->|Hne]; [congruence|].
    unfold _ownerOf, getZ. cbn. by rewrite lookup_insert_ne by done.
  - cbn in Hrun. apply safeTransferFrom_Ok in Hrun.
    destruct Hinv as (_ & _ & _ & Hwf).
    apply transferFrom_Ok in Hrun as (_ & _ & _ & _ & Hnot & ->); [|done..].
    destruct (decide (tokenId0 = tokenId)) as [->|Hne]; [congruence|].
    unfold _ownerOf, getZ. cbn. by rewrite lookup_insert_ne by done.
  - by apply approve_Ok in Hrun as (_ & ->).
  - by apply setApprovalForAll_Ok in Hrun as ->.
Qed.

Lemma exec_all_retired txs s tokenId :
  Forall valid_tx txs -> ledger_inv s ->
  getB (isRetired (retirement s)) tokenId = true ->
  _ownerOf tokenId s <> 0 ->
  ledger_inv (exec_all txs s)
  /\ _ownerOf tokenId (exec_all txs s) = _ownerOf tokenId s
  /\ retirement_of tokenId (exec_all txs s) = retirement_of tokenId s.
Proof.
  revert s. induction txs as [|tx txs IH]; intros s Hv Hinv Hret Hown; cbn.
  { done. }
  inversion Hv as [|? ? Hv1 Hv2]; subst.
  assert (Hstep : _ownerOf tokenId (exec_tx s tx) = _ownerOf tokenId s
                  /\ retirement_of tokenId (exec_tx s tx)
                     = retirement_of tokenId s).
  { unfold exec_tx, exec. destruct (run _ _ _ s) eqn:E; [|done].
    by eapply run_retired. }
  destruct Hstep as [Ho Hr].
  destruct (IH (exec_tx s tx)) as (Hi & Ho' & Hr').
  - done.
  - by apply exec_tx_inv.
  - unfold retirement_of in Hr. congruence.
  - congruence.
  - unfold exec_all in *. split; [done|]. split; congruence.
Qed.

Lemma retire_not_owner caller now tokenId s :
  _ownerOf tokenId s <> caller ->
  retire caller now tokenId s = Revert NotOwner.
Proof.
  intros Hne. unfold retire, require.
  apply Z.eqb_neq in Hne. by rewrite Hne.
Qed.

Lemma retire_already caller now tokenId s :
  _ownerOf tokenId s = caller ->
  getB (isRetired (retirement s)) tokenId = true ->
  retire caller now tokenId s = Revert AlreadyRetired.
Proof.
  intros Ho Hr. unfold retire, require.
  apply Z.eqb_eq in Ho. rewrite Ho. cbn. by rewrite Hr.
Qed.

Lemma transferFrom_retired caller from to tokenId s :
  _ownerOf tokenId s <> 0 ->
  getB (isRetired (retirement s)) tokenId = true ->
  transferFrom caller from to tokenId s
  = Revert (if to =? 0 then ERC721InvalidReceiver 0
            else if _paused s then Paused else RetiredCreditTransfer).
Proof.
  intros Hown Hret. unfold transferFrom.
  destruct (to =? 0) eqn:Hto; [done|]. apply Z.eqb_neq in Hto.
  destruct (_paused s) eqn:Hp.
  - by rewrite update_while_paused.
  - by rewrite update_retired.
Qed.

(** C4, as the contract has it.  [retire] is rejected with [NotOwner]
    unless the caller owns the credit.  After a successful [retire] on a
    reachable ledger, and whatever transactions follow: the owner is still
    the account that retired the credit and the retired flag, [retiredBy]
    and [retiredAt] are as set at retirement; every transfer of the credit
    is rejected and changes nothing, with [RetiredCreditTransfer] when the
    recipient is not the zero address and the contract is not paused (with
    the invalid-receiver, respectively the [Paused] error otherwise); a
    further [retire] is rejected with [AlreadyRetired] when the owner calls
    and with [NotOwner] when anybody else does. *)
Theorem retirement_is_terminal (caller now tokenId : Z) (s s1 : State)
    (txs : list Tx) :
  reachable s -> caller <> 0 -> Forall valid_tx txs ->
  run caller now (Retire tokenId) s = Ok s1 ->
  let s2 := exec_all txs s1 in
  _ownerOf tokenId s = caller
  /\ _ownerOf tokenId s2 = caller
  /\ retirement_of tokenId s2 = (true, caller, now)
  /\ (forall c' now' from to,
        run c' now' (TransferFrom from to tokenId) s2
        = Revert (if to =? 0 then ERC721InvalidReceiver 0
                  else if _paused s2 then Paused else RetiredCreditTransfer)
        /\ run c' now' (SafeTransferFrom from to tokenId) s2
           = Revert (if to =? 0 then ERC721InvalidReceiver 0
                     else if _paused s2 then Paused
                          else RetiredCreditTransfer)
        /\ exec c' now' (TransferFrom from to tokenId) s2 = s2
        /\ exec c' now' (SafeTransferFrom from to tokenId) s2 = s2)
  /\ (forall now', run caller now' (Retire tokenId) s2 = Revert AlreadyRetired)
  /\ (forall c' now', c' <> caller ->
        run c' now' (Retire tokenId) s2 = Revert NotOwner)
  /\ (forall c' now' s0, _ownerOf tokenId s0 <> c' ->
        run c' now' (Retire tokenId) s0 = Revert NotOwner).
Proof.
  intros Hreach Hc Hv Hrun s2.
  pose proof (reachable_inv s Hreach) as Hinv.
  assert (Hinv1 : ledger_inv s1) by (by eapply run_inv).
  cbn in Hrun. apply retire_Ok in Hrun as (Hown & _ & Hs1).
  assert (Hown1 : _ownerOf tokenId s1 = caller) by (by subst s1).
  assert (Hret1 : retirement_of tokenId s1 = (true, caller, now)).
  { subst s1. unfold retirement_of, getB, getZ. cbn.
    by rewrite !lookup_insert_eq. }
  destruct (exec_all_retired txs s1 tokenId) as (_ & Ho2 & Hr2); try done.
  { unfold retirement_of in Hret1. congruence. }
  { congruence. }
  fold s2 in Ho2, Hr2. rewrite Hown1 in Ho2. rewrite Hret1 in Hr2.
  assert (Hflag : getB (isRetired (retirement s2)) tokenId = true).
  { unfold retirement_of in Hr2. congruence. }
  assert (Hnz : _ownerOf tokenId s2 <> 0) by congruence.
  split; [done|]. split; [done|]. split; [done|].
  split; [|split; [|split]].
  - intros c' now' from to. unfold exec. cbn. unfold safeTransferFrom.
    rewrite transferFrom_retired by done. by repeat split.
  - intros now'. cbn. by apply retire_already.
  - intros c' now' Hne. cbn. apply retire_not_owner. congruence.
  - intros c' now' s0 Hne. cbn. by apply retire_not_owner.
Qed.

(** ** Signatures *)

Lemma be_bytes_length n z : length (be_bytes n z) = n.
Proof.
  revert z. induction n as [|n IH]; intros z; [done|].
  unfold be_bytes; fold be_bytes. rewrite length_app, IH. cbn. lia.
Qed.

Lemma encodePacked_length to amount h : length (encodePacked to amount h) = 84%nat.
Proof. unfold encodePacked. by rewrite !length_app, !be_bytes_length. Qed.

Lemma AbiCoder_encode_length p amount h :
  length (AbiCoder_encode p amount h) = 96%nat.
Proof. unfold AbiCoder_encode. by rewrite !length_app, !be_bytes_length. Qed.

Lemma hashMessage_bytes32 m : hashMessage (getBytes m) = toEthSignedMessageHash m.
Proof.
  unfold hashMessage, toEthSignedMessageHash, getBytes.
  by rewrite be_bytes_length.
Qed.

Lemma ECDSA_recover_error d sig e :
  ECDSA_recover d sig = Revert e -> e <> InvalidCertifierSignature.
Proof.
  unfold ECDSA_recover, tryRecover_vrs.
  repeat case_match; intros; by simplify_eq.
Qed.

Lemma ECDSA_recover_length d sig :
  length sig <> 65%nat ->
  ECDSA_recover d sig
  = Revert (ECDSAInvalidSignatureLength (Z.of_nat (length sig))).
Proof.
  intros Hlen. unfold ECDSA_recover.
  destruct (_ =? 65) eqn:E; [apply Z.eqb_eq in E; lia|done].
Qed.

Lemma mint_after_guards caller now to amount h sig s :
  _paused s = false -> to <> 0 -> 0 < amount <= 1000 ->
  getB (isProducer (hierarchy s)) to = true ->
  getB (certificationHashUsed s) h = false ->
  match ECDSA_recover (onchain_digest to amount h) sig with
  | Revert e => mintWithCertification caller now to amount h sig s = Revert e
  | Ok signer =>
      hasRole CITY_ADMIN_ROLE signer s = false ->
      mintWithCertification caller now to amount h sig s
      = Revert InvalidCertifierSignature
  end.
Proof.
  intros Hp Hto Ham Hprod Hused.
  unfold mintWithCertification, whenNotPaused, require, onchain_digest.
  rewrite Hp. cbn. apply Z.eqb_neq in Hto as ->. cbn.
  assert ((0 <? amount) && (amount <=? 1000) = true) as ->.
  { apply andb_true_iff. split; [apply Z.ltb_lt | apply Z.leb_le]; lia. }
  cbn. rewrite Hprod. cbn. rewrite Hused. cbn.
  destruct (ECDSA_recover _ sig) as [signer|e]; cbn; [|done].
  by intros ->.
Qed.

(** C3 (the code departs from it).  The contract hashes the packed
    encoding of (producer, amount, hash), 84 bytes; the backend hashes the
    standard ABI encoding, 96 bytes.  The two payloads differ for every
    tuple; the signed-message step after that is the same on both sides. *)
Theorem payload_encodings_differ (producerAddress amount certHash : Z) :
  AbiCoder_encode producerAddress amount certHash
  <> encodePacked producerAddress amount certHash
  /\ length (AbiCoder_encode producerAddress amount certHash) = 96%nat
  /\ length (encodePacked producerAddress amount certHash) = 84%nat
  /\ offchain_digest producerAddress amount certHash
     = toEthSignedMessageHash
         (keccak256 (AbiCoder_encode producerAddress amount certHash))
  /\ onchain_digest producerAddress amount certHash
     = toEthSignedMessageHash
         (keccak256 (encodePacked producerAddress amount certHash)).
Proof.
  split.
  { intros Heq. apply (f_equal length) in Heq.
    rewrite AbiCoder_encode_length, encodePacked_length in Heq. lia. }
  split; [apply AbiCoder_encode_length|].
  split; [apply encodePacked_length|].
  split; [apply hashMessage_bytes32|done].
Qed.

(** C8, as the contract has it.  When the signature does not recover to a
    holder of [CITY_ADMIN_ROLE], [mintWithCertification] is rejected and the
    ledger (consumed hashes, tokens, everything) stays as it was.  On a call
    that passes the earlier guards the error is
    [InvalidCertifierSignature] when the signature recovers to an account
    without the capability, and the ECDSA library's own error when the
    signature is malformed and recovers to nothing. *)
Theorem uncertified_mint_rejected (caller now to amount h : Z)
    (sig : list byte) (s : State) :
  (forall signer, ECDSA_recover (onchain_digest to amount h) sig = Ok signer ->
                  hasRole CITY_ADMIN_ROLE signer s = false) ->
  (exists e, run caller now (MintWithCertification to amount h sig) s
             = Revert e)
  /\ exec caller now (MintWithCertification to amount h sig) s = s
  /\ (_paused s = false -> to <> 0 -> 0 < amount <= 1000 ->
      getB (isProducer (hierarchy s)) to = true ->
      getB (certificationHashUsed s) h = false ->
      (forall signer,
          ECDSA_recover (onchain_digest to amount h) sig = Ok signer ->
          run caller now (MintWithCertification to amount h sig) s
          = Revert InvalidCertifierSignature)
      /\ (forall e,
             ECDSA_recover (onchain_digest to amount h) sig = Revert e ->
             run caller now (MintWithCertification to amount h sig) s
             = Revert e
             /\ e <> InvalidCertifierSignature)).
Proof.
  intros Hbad.
  assert (Hfail : exists e,
             run caller now (MintWithCertification to amount h sig) s
             = Revert e).
  { destruct (run _ _ _ s) as [s'|e] eqn:E; [|by eexists].
    apply mintWithCertification_Ok in E
      as (_ & _ & _ & _ & _ & signer & Hrec & Hrole & _).
    apply Hbad in Hrec. congruence. }
  split; [done|]. split.
  { destruct Hfail as [e He]. by eapply exec_Revert. }
  intros Hp Hto Ham Hprod Hused.
  pose proof (mint_after_guards caller now to amount h sig s
                Hp Hto Ham Hprod Hused) as Hstage.
  split.
  - intros signer Hrec. rewrite Hrec in Hstage. cbn. apply Hstage. eauto.
  - intros e Hrec. rewrite Hrec in Hstage. split; [done|].
    by eapply ECDSA_recover_error.
Qed.

(** C6, as the code has it.  The backend verifier never throws: when
    ethers' [recoverAddress] throws on the signature, the result is
    [(false, ZeroAddress)].  The contract has no such tolerant path: a
    signature [ECDSA.recover] rejects (any signature that is not 65 bytes
    long, for one) makes [mintWithCertification] revert, the ledger
    unchanged, and on a call that passes the earlier guards the revert
    carries the ECDSA library's error, which is not
    [InvalidCertifierSignature]. *)
Theorem malformed_signature_outcomes (caller now to amount h : Z)
    (sig : list byte) (signature : string) (s : State) :
  (ethers_recoverAddress (offchain_digest to amount h) signature = None ->
   verifyCertificationSignature s to amount h signature
   = (false, ZeroAddress))
  /\ (length sig <> 65%nat ->
      ECDSA_recover (onchain_digest to amount h) sig
      = Revert (ECDSAInvalidSignatureLength (Z.of_nat (length sig))))
  /\ (forall e,
        ECDSA_recover (onchain_digest to amount h) sig = Revert e ->
        (exists e', run caller now (MintWithCertification to amount h sig) s
                    = Revert e')
        /\ exec caller now (MintWithCertification to amount h sig) s = s
        /\ (_paused s = false -> to <> 0 -> 0 < amount <= 1000 ->
            getB (isProducer (hierarchy s)) to = true ->
            getB (certificationHashUsed s) h = false ->
            run caller now (MintWithCertification to amount h sig) s
            = Revert e
            /\ e <> InvalidCertifierSignature)).
Proof.
  split; [|split].
  - intros Hthrow. unfold verifyCertificationSignature.
    unfold offchain_digest in Hthrow. by rewrite Hthrow.
  - apply ECDSA_recover_length.
  - intros e Hrec.
    assert (Hfail : exists e',
               run caller now (MintWithCertification to amount h sig) s
               = Revert e').
    { destruct (run _ _ _ s) as [s'|e'] eqn:E; [|by eexists].
      apply mintWithCertification_Ok in E
        as (_ & _ & _ & _ & _ & signer & Hrec' & _). congruence. }
    split; [done|]. split.
    { destruct Hfail as [e' He]. by eapply exec_Revert. }
    intros Hp Hto Ham Hprod Hused.
    pose proof (mint_after_guards caller now to amount h sig s
                  Hp Hto Ham Hprod Hused) as Hstage.
    rewrite Hrec in Hstage. split; [done|]. by eapply ECDSA_recover_error.
Qed.

(** * Further properties of the contract *)

(** ** Deployment *)

Lemma grantRole_fresh role account caller s :
  hasRole role account s = false ->
  _grantRole role account caller s
  = emit (RoleGranted role account caller)
      (set_roles (<[(role, account) := true]> (_roles s)) s).
Proof. unfold _grantRole. by intros ->. Qed.

(** X1. The constructor rejects the zero address as main admin.  Otherwise
    it yields a ledger in which the main admin, and nobody else, holds
    [DEFAULT_ADMIN_ROLE] and [MAIN_ADMIN_ROLE] and no other role is held;
    the contract is not paused, no credit exists and the first id to be
    issued is 1. *)
Theorem constructor_spec (deployer mainAdmin : Z) :
  (mainAdmin = 0 ->
   constructor deployer mainAdmin
   = Revert (Error_ "Main admin cannot be zero address"))
  /\ (mainAdmin <> 0 ->
      exists s,
        constructor deployer mainAdmin = Ok s
        /\ (forall r a,
              hasRole r a s = true
              <-> a = mainAdmin
                  /\ (r = DEFAULT_ADMIN_ROLE \/ r = MAIN_ADMIN_ROLE))
        /\ _paused s = false
        /\ _nextTokenId s = 1
        /\ totalSupply s = 0
        /\ hierarchy s = mkHierarchy ∅ ∅ ∅ ∅ ∅ ∅ ∅ ∅ ∅
        /\ events s = [RoleGranted DEFAULT_ADMIN_ROLE mainAdmin deployer;
                       RoleGranted MAIN_ADMIN_ROLE mainAdmin deployer]).
Proof.
  split.
  - intros ->. done.
  - intros Hnz. unfold constructor, require.
    apply Z.eqb_neq in Hnz as ->. cbn. eexists. split; [done|].
    rewrite (grantRole_fresh DEFAULT_ADMIN_ROLE) by done.
    rewrite (grantRole_fresh MAIN_ADMIN_ROLE)
      by (unfold hasRole, getB; cbn; by rewrite lookup_insert_ne).
    cbn. repeat split; try done.
    + unfold hasRole, getB in *. cbn in *.
      destruct (decide ((MAIN_ADMIN_ROLE, mainAdmin) = (r, a))) as [?|Hne1];
        [by simplify_eq|].
      rewrite lookup_insert_ne in H0 by done.
      destruct (decide ((DEFAULT_ADMIN_ROLE, mainAdmin) = (r, a))) as [?|Hne2];
        [by simplify_eq|].
      rewrite lookup_insert_ne in H0 by done. by rewrite lookup_empty in H0.
    + unfold hasRole, getB in *. cbn in *.
      destruct (decide ((MAIN_ADMIN_ROLE, mainAdmin) = (r, a))) as [?|Hne1];
        [simplify_eq; by right|].
      rewrite lookup_insert_ne in H0 by done.
      destruct (decide ((DEFAULT_ADMIN_ROLE, mainAdmin) = (r, a))) as [?|Hne2];
        [simplify_eq; by left|].
      rewrite lookup_insert_ne in H0 by done. by rewrite lookup_empty in H0.
    + intros [-> [-> | ->]]; unfold hasRole, getB; cbn.
      * rewrite lookup_insert_ne by congruence. by rewrite lookup_insert_eq.
      * by rewrite lookup_insert_eq.
Qed.

(** ** The guards of [mintWithCertification] *)

(** X2. On a contract that is not paused, [mintWithCertification] rejects
    a zero recipient with "Cannot mint to zero address", then an amount of
    zero or less or above 1000 with "Invalid amount", then a recipient that
    is not a registered producer with "Recipient must be registered
    producer", whatever the signature; the ledger is unchanged in each
    case. *)
Theorem mint_guard_errors (caller now to amount h : Z) (sig : list byte)
    (s : State) :
  _paused s = false ->
  (to = 0 ->
   run caller now (MintWithCertification to amount h sig) s
   = Revert ZeroIdentity_mint)
  /\ (to <> 0 -> amount <= 0 \/ 1000 < amount ->
      run caller now (MintWithCertification to amount h sig) s
      = Revert InvalidAmount)
  /\ (to <> 0 -> 0 < amount <= 1000 ->
      getB (isProducer (hierarchy s)) to = false ->
      run caller now (MintWithCertification to amount h sig) s
      = Revert UnknownRecipient)
  /\ (to = 0 \/ amount <= 0 \/ 1000 < amount
      \/ getB (isProducer (hierarchy s)) to = false ->
      exec caller now (MintWithCertification to amount h sig) s = s).
Proof.
  intros Hp.
  assert (H1 : to = 0 ->
               run caller now (MintWithCertification to amount h sig) s
               = Revert ZeroIdentity_mint).
  { intros ->. cbn. unfold mintWithCertification, whenNotPaused.
    by rewrite Hp. }
  assert (H2 : to <> 0 -> amount <= 0 \/ 1000 < amount ->
               run caller now (MintWithCertification to amount h sig) s
               = Revert InvalidAmount).
  { intros Hto Ham. cbn. unfold mintWithCertification, whenNotPaused, require.
    rewrite Hp. cbn. apply Z.eqb_neq in Hto as ->. cbn.
    assert ((0 <? amount) && (amount <=? 1000) = false) as ->; [|done].
    apply andb_false_iff. destruct Ham; [left; apply Z.ltb_ge | right; apply Z.leb_gt]; lia. }
  assert (H3 : to <> 0 -> 0 < amount <= 1000 ->
               getB (isProducer (hierarchy s)) to = false ->
               run caller now (MintWithCertification to amount h sig) s
               = Revert UnknownRecipient).
  { intros Hto Ham Hprod. cbn.
    unfold mintWithCertification, whenNotPaused, require.
    rewrite Hp. cbn. apply Z.eqb_neq in Hto as ->. cbn.
    assert ((0 <? amount) && (amount <=? 1000) = true) as ->.
    { apply andb_true_iff. split; [apply Z.ltb_lt | apply Z.leb_le]; lia. }
    cbn. by rewrite Hprod. }
  repeat split; try done.
  intros Hcase.
  destruct (decide (to = 0)) as [Hz|Hnz];
    [eapply exec_Revert; by apply H1|].
  destruct (decide (0 < amount <= 1000)) as [Hin|Hout];
    [|eapply exec_Revert; apply H2; [done|lia]].
  destruct Hcase as [?|[?|[?|Hprod]]]; try lia.
  eapply exec_Revert. by apply H3.
Qed.

(** ** Self-registration and auditors *)

(** X3. [registerBuyer] needs no role and no pause check: an account that
    is not yet a buyer becomes one (flag set, [BUYER_ROLE] granted, token
    ledger untouched), and registering again is rejected with "Already a
    buyer". *)
Theorem registerBuyer_spec (caller now : Z) (s : State) :
  (getB (isBuyer (hierarchy s)) caller = true ->
   run caller now RegisterBuyer s = Revert (Error_ "Already a buyer"))
  /\ (getB (isBuyer (hierarchy s)) caller = false ->
      exists s',
        run caller now RegisterBuyer s = Ok s'
        /\ getB (isBuyer (hierarchy s')) caller = true
        /\ hasRole BUYER_ROLE caller s' = true
        /\ same_ledger s s'
        /\ _paused s' = _paused s
        /\ forall now',
            run caller now' RegisterBuyer s'
            = Revert (Error_ "Already a buyer")).
Proof.
  split.
  - intros Hb. cbn. unfold registerBuyer, require. by rewrite Hb.
  - intros Hb. cbn. unfold registerBuyer, require. rewrite Hb. cbn.
    eexists. split; [done|].
    assert (Hflag : getB (isBuyer (hierarchy
              (emit (BuyerRegistered caller)
                 (_grantRole BUYER_ROLE caller caller
                    (set_hierarchy
                       (mkHierarchy (isCountryAdmin (hierarchy s))
                          (countryAdminCountryId (hierarchy s))
                          (isStateAdmin (hierarchy s))
                          (stateAdminStateId (hierarchy s))
                          (isCityAdmin (hierarchy s))
                          (cityAdminCityId (hierarchy s))
                          (isProducer (hierarchy s))
                          (<[caller:=true]> (isBuyer (hierarchy s)))
                          (isAuditor (hierarchy s))) s))))) caller = true).
    { cbn. rewrite (proj1 (grantRole_hierarchy _ _ _ _)). cbn.
      unfold getB. by rewrite lookup_insert_eq. }
    split; [done|]. split.
    { unfold hasRole. cbn. apply hasRole_grant_same. }
    split.
    { destruct (grantRole_ledger BUYER_ROLE caller caller
                  (set_hierarchy
                     (mkHierarchy (isCountryAdmin (hierarchy s))
                        (countryAdminCountryId (hierarchy s))
                        (isStateAdmin (hierarchy s))
                        (stateAdminStateId (hierarchy s))
                        (isCityAdmin (hierarchy s))
                        (cityAdminCityId (hierarchy s))
                        (isProducer (hierarchy s))
                        (<[caller:=true]> (isBuyer (hierarchy s)))
                        (isAuditor (hierarchy s))) s))
        as (? & ? & ? & ? & ?). by repeat split. }
    split.
    { cbn. by rewrite (proj2 (grantRole_hierarchy _ _ _ _)). }
    intros now'. by rewrite Hflag.
Qed.

(** X4. [registerAuditor] is reserved to the main admin; it rejects the
    zero address and an account that already is an auditor, and otherwise
    sets the flag and grants [AUDITOR_ROLE]. *)
Theorem registerAuditor_spec (caller now auditor : Z) (s : State) :
  (hasRole MAIN_ADMIN_ROLE caller s = false ->
   run caller now (RegisterAuditor auditor) s
   = Revert (InsufficientCapability caller MAIN_ADMIN_ROLE))
  /\ (hasRole MAIN_ADMIN_ROLE caller s = true ->
      (auditor = 0 ->
       run caller now (RegisterAuditor auditor) s
       = Revert (Error_ "Auditor cannot be zero address"))
      /\ (auditor <> 0 -> getB (isAuditor (hierarchy s)) auditor = true ->
          run caller now (RegisterAuditor auditor) s
          = Revert (Error_ "Already an auditor"))
      /\ (auditor <> 0 -> getB (isAuditor (hierarchy s)) auditor = false ->
          exists s',
            run caller now (RegisterAuditor auditor) s = Ok s'
            /\ getB (isAuditor (hierarchy s')) auditor = true
            /\ hasRole AUDITOR_ROLE auditor s' = true)).
Proof.
  split.
  - intros Hr. cbn. unfold registerAuditor. by rewrite onlyRole_missing.
  - intros Hr. cbn. unfold registerAuditor, onlyRole, require. rewrite Hr. cbn.
    split; [by intros ->|]. split.
    + intros Hnz Ha. apply Z.eqb_neq in Hnz as ->. cbn. by rewrite Ha.
    + intros Hnz Ha. apply Z.eqb_neq in Hnz as ->. cbn. rewrite Ha. cbn.
      eexists. split; [done|]. split.
      * cbn. rewrite (proj1 (grantRole_hierarchy _ _ _ _)). cbn.
        unfold getB. by rewrite lookup_insert_eq.
      * unfold hasRole. cbn. apply hasRole_grant_same.
Qed.

(** ** Pausing and unpausing *)

(** X5. Only a main admin may pause or unpause.  Pausing a paused contract
    is rejected with [EnforcedPause] and unpausing one that is not paused
    with [ExpectedPause].  A pause followed by an unpause gives back the
    ledger it started from, the two events apart. *)
Theorem pause_unpause_roundtrip (caller now : Z) (s : State) :
  (hasRole MAIN_ADMIN_ROLE caller s = false ->
   run caller now DoPause s
   = Revert (InsufficientCapability caller MAIN_ADMIN_ROLE)
   /\ run caller now DoUnpause s
      = Revert (InsufficientCapability caller MAIN_ADMIN_ROLE))
  /\ (hasRole MAIN_ADMIN_ROLE caller s = true ->
      (_paused s = true -> run caller now DoPause s = Revert EnforcedPause)
      /\ (_paused s = false ->
          run caller now DoUnpause s = Revert ExpectedPause)
      /\ (_paused s = false ->
          exists s1 s2,
            run caller now DoPause s = Ok s1
            /\ _paused s1 = true
            /\ run caller now DoUnpause s1 = Ok s2
            /\ s2 = mkState (_paused s) (_roles s) (erc721 s) (_nextTokenId s)
                      (hierarchy s) (certificationHashUsed s)
                      (tokenCertifications s) (retirement s)
                      (events s ++ [PausedBy caller; UnpausedBy caller]))).
Proof.
  split.
  - intros Hr. cbn. unfold pause, unpause. by rewrite onlyRole_missing.
  - intros Hr. cbn. unfold pause, unpause, onlyRole, whenNotPaused, whenPaused.
    rewrite Hr. cbn. split; [by intros ->|]. split; [by intros ->|].
    intros Hp. rewrite Hp. cbn. do 2 eexists. split; [done|]. split; [done|].
    unfold hasRole in *. cbn. rewrite Hr. cbn. split; [done|].
    unfold emit, set_paused. cbn. by rewrite <- app_assoc.
Qed.

(** ** Jurisdiction ids *)

(** The jurisdiction ids of the accounts appointed so far. *)
Lemma run_jurisdiction caller now c s s' a :
  run caller now c s = Ok s' ->
  (getB (isCountryAdmin (hierarchy s)) a = true ->
   getZ (countryAdminCountryId (hierarchy s')) a
   = getZ (countryAdminCountryId (hierarchy s)) a)
  /\ (getB (isStateAdmin (hierarchy s)) a = true ->
      getZ (stateAdminStateId (hierarchy s')) a
      = getZ (stateAdminStateId (hierarchy s)) a)
  /\ (getB (isCityAdmin (hierarchy s)) a = true ->
      getZ (cityAdminCityId (hierarchy s')) a
      = getZ (cityAdminCityId (hierarchy s)) a).
Proof.
  intros Hrun.
  assert (Hsame : hierarchy s' = hierarchy s ->
    (getB (isCountryAdmin (hierarchy s)) a = true ->
     getZ (countryAdminCountryId (hierarchy s')) a
     = getZ (countryAdminCountryId (hierarchy s)) a)
    /\ (getB (isStateAdmin (hierarchy s)) a = true ->
        getZ (stateAdminStateId (hierarchy s')) a
        = getZ (stateAdminStateId (hierarchy s)) a)
    /\ (getB (isCityAdmin (hierarchy s)) a = true ->
        getZ (cityAdminCityId (hierarchy s')) a
        = getZ (cityAdminCityId (hierarchy s)) a)).
  { by intros ->. }
  destruct c.
  - apply Hsame. apply mintWithCertification_Ok in Hrun
      as (_ & _ & _ & _ & _ & cert & _ & _ & ->).
    unfold minted; cbn.
    by destruct (issue_frame (Z.to_nat amount) now to cert certHash
                   (set_certificationHashUsed
                      (<[certHash:=true]> (certificationHashUsed s)) s))
      as (_ & _ & -> & _).
  - clear Hsame. unfold_calls Hrun. peel Hrun. guards. simplify_eq. cbn.
    rewrite (proj1 (grantRole_hierarchy _ _ _ _)). cbn.
    repeat split; try done. intros Hflag.
    apply negb_true_iff in Hg1.
    unfold getZ. rewrite lookup_insert_ne by congruence. done.
  - clear Hsame. unfold_calls Hrun. peel Hrun. guards. simplify_eq. cbn.
    rewrite (proj1 (grantRole_hierarchy _ _ _ _)). cbn.
    repeat split; try done. intros Hflag.
    apply negb_true_iff in Hg1.
    unfold getZ. rewrite lookup_insert_ne by congruence. done.
  - clear Hsame. unfold_calls Hrun. peel Hrun. guards. simplify_eq. cbn.
    rewrite (proj1 (grantRole_hierarchy _ _ _ _)). cbn.
    repeat split; try done. intros Hflag.
    apply negb_true_iff in Hg1.
    unfold getZ. rewrite lookup_insert_ne by congruence. done.
  - clear Hsame. unfold_calls Hrun. peel Hrun. guards. simplify_eq. cbn.
    rewrite (proj1 (grantRole_hierarchy _ _ _ _)). cbn. by repeat split.
  - clear Hsame. unfold_calls Hrun. peel Hrun. guards. simplify_eq. cbn.
    rewrite (proj1 (grantRole_hierarchy _ _ _ _)). cbn. by repeat split.
  - clear Hsame. unfold_calls Hrun. peel Hrun. guards. simplify_eq. cbn.
    rewrite (proj1 (grantRole_hierarchy _ _ _ _)). cbn. by repeat split.
  - apply Hsame. by apply retire_Ok in Hrun as (_ & _ & ->).
  - apply Hsame. unfold_calls Hrun. peel Hrun. by simplify_eq.
  - apply Hsame. unfold_calls Hrun. peel Hrun. by simplify_eq.
  - apply Hsame. cbn in Hrun.
    by apply transferFrom_outside in Hrun as (_ & _ & _ & -> & _).
  - apply Hsame. cbn in Hrun.
    by apply safeTransferFrom_Ok, transferFrom_outside in Hrun
      as (_ & _ & _ & -> & _).
  - apply Hsame. by apply approve_Ok in Hrun as (_ & ->).
  - apply Hsame. by apply setApprovalForAll_Ok in Hrun as ->.
  - apply Hsame. unfold_calls Hrun. peel Hrun. simplify_eq.
    by rewrite (proj1 (grantRole_hierarchy _ _ _ _)).
  - apply Hsame. unfold_calls Hrun. peel Hrun. simplify_eq.
    by rewrite (proj1 (revokeRole_hierarchy _ _ _ _)).
  - apply Hsame. unfold_calls Hrun. case_match; [done|]. simplify_eq.
    by rewrite (proj1 (revokeRole_hierarchy _ _ _ _)).
Qed.

Lemma exec_all_jurisdiction txs s a :
  (getB (isCountryAdmin (hierarchy s)) a = true ->
   getZ (countryAdminCountryId (hierarchy (exec_all txs s))) a
   = getZ (countryAdminCountryId (hierarchy s)) a)
  /\ (getB (isStateAdmin (hierarchy s)) a = true ->
      getZ (stateAdminStateId (hierarchy (exec_all txs s))) a
      = getZ (stateAdminStateId (hierarchy s)) a)
  /\ (getB (isCityAdmin (hierarchy s)) a = true ->
      getZ (cityAdminCityId (hierarchy (exec_all txs s))) a
      = getZ (cityAdminCityId (hierarchy s)) a).
Proof.
  revert s. induction txs as [|tx txs IH]; intros s; [done|].
  cbn [exec_all fold_left]. fold (exec_all txs (exec_tx s tx)).
  destruct (IH (exec_tx s tx)) as (I1 & I2 & I3).
  assert (Hstep :
    appointed_le (hierarchy s) (hierarchy (exec_tx s tx))
    /\ (getB (isCountryAdmin (hierarchy s)) a = true ->
        getZ (countryAdminCountryId (hierarchy (exec_tx s tx))) a
        = getZ (countryAdminCountryId (hierarchy s)) a)
    /\ (getB (isStateAdmin (hierarchy s)) a = true ->
        getZ (stateAdminStateId (hierarchy (exec_tx s tx))) a
        = getZ (stateAdminStateId (hierarchy s)) a)
    /\ (getB (isCityAdmin (hierarchy s)) a = true ->
        getZ (cityAdminCityId (hierarchy (exec_tx s tx))) a
        = getZ (cityAdminCityId (hierarchy s)) a)).
  { unfold exec_tx, exec. destruct (run _ _ _ s) eqn:E.
    - split; [by eapply run_appointed_le|]. by eapply run_jurisdiction.
    - split; [apply appointed_le_refl|done]. }
  destruct Hstep as (Hle & S1 & S2 & S3).
  destruct (Hle a) as (L1 & L2 & L3 & _).
  repeat split; intros Hflag.
  - rewrite I1 by auto. auto.
  - rewrite I2 by auto. auto.
  - rewrite I3 by auto. auto.
Qed.

(** X6. A successful appointment records the jurisdiction id given in the
    call, and no later transaction changes it: the country, state or city
    id of an appointed admin is fixed at appointment. *)
Theorem jurisdiction_fixed_at_appointment (caller now admin id : Z)
    (s s1 : State) (txs : list Tx) :
  (run caller now (AppointCountryAdmin admin id) s = Ok s1 ->
   getZ (countryAdminCountryId (hierarchy (exec_all txs s1))) admin = id)
  /\ (run caller now (AppointStateAdmin admin id) s = Ok s1 ->
      getZ (stateAdminStateId (hierarchy (exec_all txs s1))) admin = id)
  /\ (run caller now (AppointCityAdmin admin id) s = Ok s1 ->
      getZ (cityAdminCityId (hierarchy (exec_all txs s1))) admin = id).
Proof.
  destruct (exec_all_jurisdiction txs s1 admin) as (J1 & J2 & J3).
  split; [|split]; intros Hrun; cbn in Hrun.
  - pose proof (appointCountryAdmin_flag _ _ _ _ _ Hrun) as (_ & Hflag & _).
    rewrite J1 by done. unfold appointCountryAdmin in Hrun.
    peel Hrun. simplify_eq. cbn.
    rewrite (proj1 (grantRole_hierarchy _ _ _ _)). cbn.
    unfold getZ. by rewrite lookup_insert_eq.
  - pose proof (appointStateAdmin_flag _ _ _ _ _ Hrun) as (_ & Hflag & _).
    rewrite J2 by done. unfold appointStateAdmin in Hrun.
    peel Hrun. simplify_eq. cbn.
    rewrite (proj1 (grantRole_hierarchy _ _ _ _)). cbn.
    unfold getZ. by rewrite lookup_insert_eq.
  - pose proof (appointCityAdmin_flag _ _ _ _ _ Hrun) as (_ & Hflag & _).
    rewrite J3 by done. unfold appointCityAdmin in Hrun.
    peel Hrun. simplify_eq. cbn.
    rewrite (proj1 (grantRole_hierarchy _ _ _ _)). cbn.
    unfold getZ. by rewrite lookup_insert_eq.
Qed.

(** ** Transfers and retirement of live credits *)

(** X7. On a contract that is not paused, the owner of a credit that is
    not retired can transfer it to any non-zero account: the recipient
    becomes the owner, the approval of the credit is cleared, every other
    credit keeps its owner, and the supply, the id counter, the
    certification records and the retirement records are untouched. *)
Theorem transfer_moves_credit (caller now to tokenId : Z) (s : State) :
  _paused s = false -> caller <> 0 -> to <> 0 ->
  _ownerOf tokenId s = caller ->
  getB (isRetired (retirement s)) tokenId = false ->
  exists s',
    run caller now (TransferFrom caller to tokenId) s = Ok s'
    /\ _ownerOf tokenId s' = to
    /\ _getApproved tokenId s' = 0
    /\ (forall id, id <> tokenId -> _ownerOf id s' = _ownerOf id s)
    /\ _allTokens (erc721 s') = _allTokens (erc721 s)
    /\ same_outside_token s s'.
Proof.
  intros Hp Hc Hto Hown Hret. exists (moved to tokenId s).
  split.
  - cbn. unfold transferFrom. apply Z.eqb_neq in Hto as Hto'. rewrite Hto'.
    rewrite update_existing by congruence.
    unfold whenNotPaused, require. rewrite Hp, Hret. cbn.
    apply Z.eqb_neq in Hc as Hc'. rewrite Hc'. cbn.
    unfold _checkAuthorized, _isAuthorized. rewrite Hc', Hown, Z.eqb_refl.
    cbn. by rewrite Z.eqb_refl.
  - unfold moved, _ownerOf, _getApproved, getZ. cbn.
    rewrite !lookup_insert_eq. repeat split; try done.
    intros id Hne. by rewrite lookup_insert_ne.
Qed.

(** X8. [retire] by the owner of a credit that is not yet retired
    succeeds, also while the contract is paused: the credit is flagged
    retired with the caller and the block time, a [CreditRetired] event is
    logged, the token store (owners, supply) is exactly as before, and the
    retirement records of all other credits are unchanged.  For a credit
    that does not exist every caller (a non-zero account) gets
    [NotOwner]. *)
Theorem retire_records (caller now tokenId : Z) (s : State) :
  (_ownerOf tokenId s = caller ->
   getB (isRetired (retirement s)) tokenId = false ->
   exists s',
     run caller now (Retire tokenId) s = Ok s'
     /\ retirement_of tokenId s' = (true, caller, now)
     /\ (forall id, id <> tokenId -> retirement_of id s' = retirement_of id s)
     /\ erc721 s' = erc721 s
     /\ _nextTokenId s' = _nextTokenId s
     /\ _paused s' = _paused s
     /\ events s' = events s ++ [CreditRetired caller tokenId now])
  /\ (caller <> 0 -> _ownerOf tokenId s = 0 ->
      run caller now (Retire tokenId) s = Revert NotOwner).
Proof.
  split.
  - intros Hown Hret. cbn. unfold retire, require.
    apply Z.eqb_eq in Hown as ->. cbn. rewrite Hret. cbn.
    eexists. split; [done|]. unfold retirement_of, getB, getZ. cbn.
    rewrite !lookup_insert_eq. repeat split; try done.
    intros id Hne. by rewrite !lookup_insert_ne.
  - intros Hc Hz. cbn. apply retire_not_owner. congruence.
Qed.

(** ** What the ledger holds *)

Lemma run_ids_owned caller now c s s' :
  caller <> 0 -> ledger_inv s -> ids_owned s ->
  run caller now c s = Ok s' -> ids_owned s'.
Proof.
  intros Hc Hinv Hids Hrun.
  destruct (quiet c) eqn:Hq.
  { apply quiet_ledger in Hrun as (He & _); [|done].
    unfold ids_owned, _ownerOf, totalSupply in *. by rewrite He. }
  destruct c; try done.
  - apply mintWithCertification_Ok in Hrun
      as (_ & Hto & [Ham _] & _ & _ & cert & _ & _ & ->).
    destruct Hinv as (Hnext & _ & _ & _).
    set (s1 := set_certificationHashUsed
                 (<[certHash:=true]> (certificationHashUsed s)) s).
    intros id. unfold totalSupply.
    rewrite minted_allTokens, length_app, length_map, length_seq.
    unfold totalSupply in Hnext.
    destruct (decide (_nextTokenId s <= id < _nextTokenId s + amount))
      as [Hin|Hout].
    + destruct (issue_owner_new (Z.to_nat amount) now to cert certHash s1 id)
        as [Ho _]; [cbn; lia|].
      unfold minted, _ownerOf in *. cbn in *. fold s1. rewrite Ho.
      split; [lia|done].
    + destruct (issue_owner_other (Z.to_nat amount) now to cert certHash s1 id)
        as [Ho _]; [cbn; lia|].
      unfold minted, _ownerOf in *. cbn in *. fold s1. rewrite Ho.
      specialize (Hids id). unfold _ownerOf, totalSupply in Hids.
      rewrite Hids. lia.
  - apply retire_Ok in Hrun as (_ & _ & ->). done.
  - cbn in Hrun. destruct Hinv as (_ & _ & _ & Hwf).
    apply transferFrom_Ok in Hrun as (Hto & Hfrom & Hnz & _ & _ & ->);
      [|done..].
    intros id. specialize (Hids id).
    unfold moved, _ownerOf, totalSupply, getZ in *. cbn.
    destruct (decide (tokenId = id)) as [->|Hne].
    + rewrite lookup_insert_eq. cbn. rewrite <- Hids.
      split; intros _; [congruence|done].
    + by rewrite lookup_insert_ne.
  - cbn in Hrun. apply safeTransferFrom_Ok in Hrun.
    destruct Hinv as (_ & _ & _ & Hwf).
    apply transferFrom_Ok in Hrun as (Hto & Hfrom & Hnz & _ & _ & ->);
      [|done..].
    intros id. specialize (Hids id).
    unfold moved, _ownerOf, totalSupply, getZ in *. cbn.
    destruct (decide (tokenId = id)) as [->|Hne].
    + rewrite lookup_insert_eq. cbn. rewrite <- Hids.
      split; intros _; [congruence|done].
    + by rewrite lookup_insert_ne.
  - by apply approve_Ok in Hrun as (_ & ->).
  - by apply setApprovalForAll_Ok in Hrun as ->.
Qed.

Lemma constructor_ids_owned deployer mainAdmin s :
  constructor deployer mainAdmin = Ok s -> ids_owned s.
Proof.
  intros (_ & ->)%constructor_Ok.
  destruct (grantRole_ledger MAIN_ADMIN_ROLE mainAdmin deployer
              (_grantRole DEFAULT_ADMIN_ROLE mainAdmin deployer empty_state))
    as (He & _).
  destruct (grantRole_ledger DEFAULT_ADMIN_ROLE mainAdmin deployer empty_state)
    as (He' & _).
  intros id. unfold _ownerOf, totalSupply. rewrite He, He'. cbn.
  unfold getZ. rewrite lookup_empty. cbn. lia.
Qed.

(** X9. In every reachable ledger the credits are exactly the ids
    [1 .. totalSupply()]: an id has an owner if and only if it lies in that
    range.  No credit is ever destroyed and no id is skipped. *)
Theorem credits_are_one_to_supply (s : State) :
  reachable s -> ids_owned s.
Proof.
  induction 1 as [d m s Hc | s tx Hreach IH Hv].
  - by eapply constructor_ids_owned.
  - unfold exec_tx, exec. destruct (run _ _ _ s) eqn:E; [|done].
    eapply run_ids_owned; eauto. by apply reachable_inv.
Qed.

(** X10. A consumed certification hash stays consumed: no sequence of
    transactions removes a hash from the ledger of used hashes. *)
Theorem consumed_hash_stays_consumed (txs : list Tx) (s : State) (h : Z) :
  getB (certificationHashUsed s) h = true ->
  getB (certificationHashUsed (exec_all txs s)) h = true.
Proof. apply exec_all_hash_mono. Qed.

(** ** Certification records *)

Lemma certified_frame s s' :
  (forall id, _ownerOf id s' <> 0 -> _ownerOf id s <> 0) ->
  tokenCertifications s' = tokenCertifications s ->
  appointed_le (hierarchy s) (hierarchy s') ->
  (forall h, getB (certificationHashUsed s) h = true ->
             getB (certificationHashUsed s') h = true) ->
  certified s -> certified s'.
Proof.
  intros Hown Hcert Hle Hhash Hs id Hid.
  destruct (Hs id (Hown id Hid)) as (rec & Hrec & Hp & Hprod & Hused).
  exists rec. rewrite Hcert. repeat split; try done.
  - by apply (Hle (producer rec)).
  - by apply Hhash.
Qed.

Lemma run_certified caller now c s s' :
  caller <> 0 -> ledger_inv s -> certified s ->
  run caller now c s = Ok s' -> certified s'.
Proof.
  intros Hc Hinv Hs Hrun.
  pose proof (run_appointed_le _ _ _ _ _ Hrun) as Hle.
  pose proof (fun h => run_hash_mono _ _ _ _ _ h Hrun) as Hhash.
  destruct (quiet c) eqn:Hq.
  { apply quiet_ledger in Hrun as (He & _ & _ & Ht & _); [|done].
    apply (certified_frame s s'); try done.
    intros id. unfold _ownerOf. by rewrite He. }
  destruct c; try done.
  - apply mintWithCertification_Ok in Hrun
      as (_ & Hto & [Ham _] & Hprod & _ & cert & _ & _ & ->).
    set (s1 := set_certificationHashUsed
                 (<[certHash:=true]> (certificationHashUsed s)) s).
    intros id Hid.
    destruct (decide (_nextTokenId s <= id < _nextTokenId s + amount))
      as [Hin|Hout].
    + destruct (issue_owner_new (Z.to_nat amount) now to cert certHash s1 id)
        as [_ Hrec]; [cbn; lia|].
      eexists. split; [unfold minted; cbn; fold s1; apply Hrec|]. cbn.
      split; [done|]. split.
      * by apply (Hle to).
      * apply minted_hash.
    + destruct (issue_owner_other (Z.to_nat amount) now to cert certHash s1 id)
        as [Ho Hrec]; [cbn; lia|].
      unfold minted, _ownerOf in Hid. cbn in Hid. fold s1 in Hid.
      unfold _ownerOf in Ho. rewrite Ho in Hid.
      destruct (Hs id Hid) as (rec & Hr & Hp & Hpr & Hu).
      exists rec. split; [unfold minted; cbn; fold s1; by rewrite Hrec|].
      split; [done|]. split; [by apply (Hle (producer rec))|by apply Hhash].
  - apply retire_Ok in Hrun as (_ & _ & Hs').
    apply (certified_frame s s'); try done; by subst s'.
  - cbn in Hrun. destruct Hinv as (_ & _ & _ & Hwf).
    pose proof (transferFrom_outside _ _ _ _ _ _ Hrun)
      as (_ & _ & _ & _ & _ & Ht & _).
    apply transferFrom_Ok in Hrun as (Hto & Hfrom & Hnz & _ & _ & Hs');
      [|done..].
    apply (certified_frame s s'); try done. subst s'. intros id.
    unfold moved, _ownerOf, getZ in *. cbn.
    destruct (decide (tokenId = id)) as [->|Hne]; [congruence|].
    by rewrite lookup_insert_ne.
  - cbn in Hrun. apply safeTransferFrom_Ok in Hrun.
    destruct Hinv as (_ & _ & _ & Hwf).
    pose proof (transferFrom_outside _ _ _ _ _ _ Hrun)
      as (_ & _ & _ & _ & _ & Ht & _).
    apply transferFrom_Ok in Hrun as (Hto & Hfrom & Hnz & _ & _ & Hs');
      [|done..].
    apply (certified_frame s s'); try done. subst s'. intros id.
    unfold moved, _ownerOf, getZ in *. cbn.
    destruct (decide (tokenId = id)) as [->|Hne]; [congruence|].
    by rewrite lookup_insert_ne.
  - apply approve_Ok in Hrun as (_ & Hs').
    apply (certified_frame s s'); try done; by subst s'.
  - apply setApprovalForAll_Ok in Hrun as Hs'.
    apply (certified_frame s s'); try done; by subst s'.
Qed.

Lemma reachable_certified s : reachable s -> certified s.
Proof.
  induction 1 as [d m s Hc | s tx Hreach IH Hv].
  - intros id Hid. exfalso.
    pose proof (constructor_ids_owned _ _ _ Hc id) as [Hc1 _].
    specialize (Hc1 Hid). apply constructor_Ok in Hc as (_ & ->).
    destruct (grantRole_ledger MAIN_ADMIN_ROLE m d
                (_grantRole DEFAULT_ADMIN_ROLE m d empty_state)) as (He & _).
    destruct (grantRole_ledger DEFAULT_ADMIN_ROLE m d empty_state)
      as (He' & _).
    unfold totalSupply in Hc1. rewrite He, He' in Hc1. cbn in Hc1. lia.
  - unfold exec_tx, exec. destruct (run _ _ _ s) eqn:E; [|done].
    eapply run_certified; eauto. by apply reachable_inv.
Qed.

(** X11. [getCertificationData] rejects an id without an owner with "Token
    does not exist".  In a reachable ledger it answers, for every existing
    credit, with the record written when the credit was minted: its
    producer is a non-zero account registered as producer and its
    certification hash is in the ledger of consumed hashes. *)
Theorem getCertificationData_spec (tokenId : Z) (s : State) :
  (_ownerOf tokenId s = 0 ->
   getCertificationData tokenId s = Revert (Error_ "Token does not exist"))
  /\ (reachable s -> _ownerOf tokenId s <> 0 ->
      exists rec,
        getCertificationData tokenId s = Ok rec
        /\ tokenCertifications s !! tokenId = Some rec
        /\ producer rec <> 0
        /\ getB (isProducer (hierarchy s)) (producer rec) = true
        /\ getB (certificationHashUsed s) (certificationHash rec) = true).
Proof.
  split.
  - intros Hz. unfold getCertificationData, _exists, require. by rewrite Hz.
  - intros Hreach Hown.
    destruct (reachable_certified s Hreach tokenId Hown)
      as (rec & Hrec & Hp & Hprod & Hused).
    exists rec. split; [|done].
    unfold getCertificationData, _exists, require.
    apply Z.eqb_neq in Hown as ->. cbn. by rewrite Hrec.
Qed.

(** ** Balances *)

Lemma issue_balance n now to cert h s a :
  getZ (_balances (erc721 (issue n now to cert h s))) a
  = if decide (a = to)
    then (if n is O then getZ (_balances (erc721 s)) a
          else wrap256 (getZ (_balances (erc721 s)) a + Z.of_nat n))
    else getZ (_balances (erc721 s)) a.
Proof.
  revert s. induction n as [|n IH]; intros s; cbn [issue].
  - by case_decide.
  - rewrite IH. unfold getZ. cbn. case_decide as Ha.
    + subst a. rewrite lookup_insert_eq. cbn. destruct n as [|n]; [done|].
      unfold wrap256, getZ. rewrite Zplus_mod_idemp_l. f_equal. lia.
    + by rewrite lookup_insert_ne.
Qed.

(** ** The packed encoding *)

Lemma byte_of_Z_value z : Z.of_N (Byte.to_N (byte_of_Z z)) = z mod 256.
Proof.
  unfold byte_of_Z.
  assert (Hb : 0 <= z mod 256 < 256) by (apply Z.mod_pos_bound; lia).
  destruct (Byte.of_N (Z.to_N (z mod 256))) as [b|] eqn:E; cbn.
  - apply Byte.to_of_N in E. rewrite E. lia.
  - apply Byte.of_N_None_iff in E. lia.
Qed.

Lemma Z_of_bytes_snoc l b :
  Z_of_bytes (l ++ [b]) = Z_of_bytes l * 256 + Z.of_N (Byte.to_N b).
Proof. unfold Z_of_bytes. by rewrite fold_left_app. Qed.

(** Decoding the [n] bytes of [z] gives [z] back, reduced to [n] bytes. *)
Lemma Z_of_be_bytes n z : Z_of_bytes (be_bytes n z) = z mod 256 ^ Z.of_nat n.
Proof.
  revert z. induction n as [|n IH]; intros z.
  - cbn. by rewrite Z.mod_1_r.
  - unfold be_bytes; fold be_bytes.
    rewrite Z_of_bytes_snoc, IH, byte_of_Z_value.
    rewrite Nat2Z.inj_succ, Z.pow_succ_r by lia.
    assert (0 < 256 ^ Z.of_nat n) by (apply Z.pow_pos_nonneg; lia).
    rewrite Z.rem_mul_r by lia. lia.
Qed.

Lemma be_bytes_inj n x y :
  0 <= x < 256 ^ Z.of_nat n -> 0 <= y < 256 ^ Z.of_nat n ->
  be_bytes n x = be_bytes n y -> x = y.
Proof.
  intros Hx Hy Heq. apply (f_equal Z_of_bytes) in Heq.
  rewrite !Z_of_be_bytes in Heq. by rewrite !Z.mod_small in Heq.
Qed.

(** X13. The packed payload the contract hashes determines the certified
    tuple: for addresses below [2^160] and amounts and hashes below
    [2^256], two tuples with the same [abi.encodePacked] image are the same
    tuple.  (All three fields have a fixed width, so the packing is not
    ambiguous.) *)
Theorem encodePacked_injective (to amount h to' amount' h' : Z) :
  0 <= to < 2 ^ 160 -> 0 <= to' < 2 ^ 160 ->
  0 <= amount < 2 ^ 256 -> 0 <= amount' < 2 ^ 256 ->
  0 <= h < 2 ^ 256 -> 0 <= h' < 2 ^ 256 ->
  encodePacked to amount h = encodePacked to' amount' h' ->
  to = to' /\ amount = amount' /\ h = h'.
Proof.
  intros Hto Hto' Ha Ha' Hh Hh' Heq. unfold encodePacked in Heq.
  apply app_inj_1 in Heq as [H1 Heq]; [|by rewrite !be_bytes_length].
  apply app_inj_1 in Heq as [H2 H3]; [|by rewrite !be_bytes_length].
  split; [|split].
  - by apply (be_bytes_inj 20).
  - by apply (be_bytes_inj 32).
  - by apply (be_bytes_inj 32).
Qed.

(** * Properties of the backend service *)

(** ** Producers *)

(** X16. [registerProducer] called by a city admin rejects the zero
    address and an account that already is a producer; otherwise the
    account is flagged producer and granted [PRODUCER_ROLE], and it stays
    flagged through every later transaction, so that the recipient check of
    [mintWithCertification] accepts it from then on. *)
Theorem registerProducer_spec (caller now who : Z) (s : State) :
  hasRole CITY_ADMIN_ROLE caller s = true ->
  (who = 0 ->
   run caller now (RegisterProducer who) s
   = Revert (Error_ "Producer cannot be zero address"))
  /\ (who <> 0 -> getB (isProducer (hierarchy s)) who = true ->
      run caller now (RegisterProducer who) s = Revert AlreadyHeld_producer)
  /\ (who <> 0 -> getB (isProducer (hierarchy s)) who = false ->
      exists s',
        run caller now (RegisterProducer who) s = Ok s'
        /\ hasRole PRODUCER_ROLE who s' = true
        /\ forall txs,
            getB (isProducer (hierarchy (exec_all txs s'))) who = true).
Proof.
  intros Hr. cbn. unfold registerProducer, onlyRole, require. rewrite Hr. cbn.
  split; [by intros ->|]. split.
  - intros Hnz Hp. apply Z.eqb_neq in Hnz as ->. cbn. by rewrite Hp.
  - intros Hnz Hp. apply Z.eqb_neq in Hnz as ->. cbn. rewrite Hp. cbn.
    eexists. split; [done|]. split.
    + unfold hasRole. cbn. apply hasRole_grant_same.
    + intros txs.
      match goal with
      | |- getB (isProducer (hierarchy (exec_all txs ?s1))) who = true =>
          destruct (exec_all_appointed_le txs s1 who) as (_ & _ & _ & Hle)
      end.
      apply Hle. cbn. rewrite (proj1 (grantRole_hierarchy _ _ _ _)). cbn.
      unfold getB. by rewrite lookup_insert_eq.
Qed.

(** ** Supply *)


(** ** The verifier's verdict *)

(** X18. When [verifyCertificationSignature] answers [isValid = true], the
    certifier it names is the account ethers recovered from the signature
    over the backend's digest, and that account holds [CITY_ADMIN_ROLE] on
    chain; when the recovered account lacks the role the answer is invalid
    but still names that account. *)
Theorem verifier_verdict (s : State) (p amount h : Z) (signature : string) :
  (fst (verifyCertificationSignature s p amount h signature) = true ->
   ethers_recoverAddress (offchain_digest p amount h) signature
   = Some (snd (verifyCertificationSignature s p amount h signature))
   /\ hasRole CITY_ADMIN_ROLE
        (snd (verifyCertificationSignature s p amount h signature)) s = true)
  /\ (forall signer,
        ethers_recoverAddress (offchain_digest p amount h) signature
        = Some signer ->
        verifyCertificationSignature s p amount h signature
        = (hasRole CITY_ADMIN_ROLE signer s, signer)).
Proof.
  unfold verifyCertificationSignature, offchain_digest.
  destruct (ethers_recoverAddress _ signature) as [signer|]; cbn.
  - split; [by intros ->|]. intros ? [= <-]. done.
  - split; [done|]. by intros.
Qed.

(** * Receivers that call back *)

Context {RC : Receivers}.

Lemma mid_same_refl s : mid_same s s.
Proof. by repeat split. Qed.

Lemma mid_same_trans s1 s2 s3 :
  mid_same s1 s2 -> mid_same s2 s3 -> mid_same s1 s3.
Proof.
  intros (A1 & A2 & A3 & A4 & A5) (B1 & B2 & B3 & B4 & B5).
  repeat split; try congruence.
  - intros Hz. by apply A5, B5.
  - intros Hz. by apply B5, A5.
Qed.

Lemma erc721_same_frame s s' :
  erc721 s' = erc721 s -> _nextTokenId s' = _nextTokenId s ->
  tokenCertifications s' = tokenCertifications s ->
  certificationHashUsed s' = certificationHashUsed s ->
  approvals_wf s -> approvals_wf s' /\ mid_same s s'.
Proof.
  intros He Hn Hc Hh (H4 & H5).
  unfold approvals_wf, mid_same, isApprovedForAll, _getApproved, _ownerOf in *.
  rewrite He. repeat split; auto.
Qed.

Lemma moved_frame to tokenId s :
  to <> 0 -> _ownerOf tokenId s <> 0 -> approvals_wf s ->
  approvals_wf (moved to tokenId s) /\ mid_same s (moved to tokenId s).
Proof.
  intros Hto Hown (H4 & H5).
  unfold approvals_wf, mid_same, moved, _ownerOf, isApprovedForAll,
    _getApproved, getZ in *. cbn.
  repeat split; try done.
  - intros id. destruct (decide (tokenId = id)) as [->|Hne].
    + by rewrite !lookup_insert_eq.
    + rewrite !lookup_insert_ne by done. apply H5.
  - destruct (decide (tokenId = id)) as [->|Hne].
    + rewrite lookup_insert_eq. cbn. done.
    + by rewrite lookup_insert_ne.
  - destruct (decide (tokenId = id)) as [->|Hne].
    + intros Hz. by rewrite Hz in Hown.
    + by rewrite lookup_insert_ne.
Qed.

(** Every call but a mint, by a real account, keeps [mid_same]. *)
Lemma run_plain_frame caller now c s s' :
  caller <> 0 -> approvals_wf s ->
  (forall to amount h sig, c <> MintWithCertification to amount h sig) ->
  run caller now c s = Ok s' ->
  approvals_wf s' /\ mid_same s s'.
Proof.
  intros Hc Hwf Hnm Hrun.
  destruct (quiet c) eqn:Hq.
  { apply quiet_ledger in Hrun as (He & Hn & Hh & Ht & _); [|done].
    by apply erc721_same_frame. }
  destruct c; try done.
  - by destruct (Hnm to amount certHash certifierSignature).
  - apply retire_Ok in Hrun as (_ & _ & ->). by apply erc721_same_frame.
  - cbn in Hrun.
    apply transferFrom_Ok in Hrun as (Hto & Hfrom & Hnz & _ & _ & ->);
      [|done..].
    apply moved_frame; [done|congruence|done].
  - cbn in Hrun. apply safeTransferFrom_Ok in Hrun.
    apply transferFrom_Ok in Hrun as (Hto & Hfrom & Hnz & _ & _ & ->);
      [|done..].
    apply moved_frame; [done|congruence|done].
  - apply approve_Ok in Hrun as (Hown & ->). destruct Hwf as (H4 & H5).
    unfold approvals_wf, mid_same, _ownerOf, isApprovedForAll,
      _getApproved, getZ in *. cbn.
    repeat split; try done.
    intros id Hz. destruct (decide (tokenId = id)) as [->|Hne].
    + by rewrite Hz in Hown.
    + rewrite lookup_insert_ne by done. by apply H5.
  - apply setApprovalForAll_Ok in Hrun as ->. destruct Hwf as (H4 & H5).
    unfold approvals_wf, mid_same, _ownerOf, isApprovedForAll,
      _getApproved, getB in *. cbn.
    repeat split; try done.
    intros op. rewrite lookup_insert_ne by congruence. apply H4.
Qed.

(** A mint entered while the counter points at an owned id reverts: the
    first [_mint] of its loop finds the id taken. *)
Lemma mint_re_blocked nested caller now to amount h sig s s' :
  blocked s ->
  mintWithCertification_re nested caller now to amount h sig s = Ok s' ->
  False.
Proof.
  unfold blocked, mintWithCertification_re. intros Hb Hrun.
  peel Hrun. guards.
  apply andb_true_iff in Hg1 as [Hpos%Z.ltb_lt _].
  destruct (Z.to_nat amount) as [|n] eqn:En; [lia|].
  cbn [mint_loop_re] in Hg8.
  apply bind_Ok in Hg8 as (s1 & Hsafe & _).
  unfold _safeMint_re in Hsafe. apply bind_Ok in Hsafe as (s2 & Hmint & _).
  apply mint_Ok in Hmint as (_ & Hz & _). cbn in Hz. by apply Hb.
Qed.

Lemma run_script_pres (J : State -> Prop) run_nested p s s' :
  (forall sender c s0 s1,
      sender <> 0 -> J s0 -> run_nested sender c s0 = Ok s1 -> J s1) ->
  J s -> run_script run_nested p s = Some s' -> J s'.
Proof.
  intros Hstep. revert s.
  induction p as [accept|sender c next IH]; intros s Hs; cbn.
  - destruct accept; [by intros [= <-]|done].
  - destruct (sender =? 0) eqn:E; [by apply IH|].
    destruct (run_nested sender c s) as [s1|e] eqn:E1; [|by apply IH].
    apply IH. eapply Hstep; [by apply Z.eqb_neq|done|done].
Qed.

Lemma check_re_pres (J : State -> Prop) nested operator from to tokenId s s' :
  (forall run_nested, nested = Some run_nested ->
     forall sender c s0 s1,
       sender <> 0 -> J s0 -> run_nested sender c s0 = Ok s1 -> J s1) ->
  J s ->
  checkOnERC721Received_re nested operator from to tokenId s = Ok s' ->
  J s'.
Proof.
  intros Hn Hs. unfold checkOnERC721Received_re.
  destruct (negb (hasCode to)); [by intros [= <-]|].
  destruct nested as [run_nested|]; [|done].
  destruct (run_script _ _ _) as [s1|] eqn:E; [|done].
  intros [= <-]. eapply run_script_pres; [by apply Hn|done|done].
Qed.

Lemma call_re_blocked nested s0 sender now c s s' :
  blocked s0 -> sender <> 0 ->
  callbacks_frozen nested ->
  approvals_wf s /\ mid_same s0 s ->
  call_re nested sender now c s = Ok s' ->
  approvals_wf s' /\ mid_same s0 s'.
Proof.
  intros Hb0 Hc Hn [Hwf Hsame] E.
  assert (Hb : blocked s).
  { unfold blocked in *. destruct Hsame as (-> & _ & _ & _ & Hz).
    by rewrite Hz. }
  assert (Hplain : (forall to amount h sig,
                       c <> MintWithCertification to amount h sig) ->
                   run sender now c s = Ok s' ->
                   approvals_wf s' /\ mid_same s0 s').
  { intros Hnm Hrun.
    destruct (run_plain_frame _ _ _ _ _ Hc Hwf Hnm Hrun) as [? Hf].
    split; [done|by eapply mid_same_trans]. }
  destruct c; try (by apply Hplain).
  - cbn in E. by destruct (mint_re_blocked _ _ _ _ _ _ _ _ _ Hb E).
  - cbn in E. unfold safeTransferFrom_re in E.
    apply bind_Ok in E as (s1 & Ht & E).
    apply transferFrom_Ok in Ht as (Hto & Hfrom & Hnz & _ & _ & ->);
      [|done..].
    destruct (moved_frame to tokenId s Hto ltac:(congruence) Hwf)
      as [Hwf1 Hs1].
    apply (check_re_pres (fun s1 => approvals_wf s1 /\ mid_same s0 s1))
      in E; [done| |].
    + intros run_nested Hrn sender' c' s1 s2 Hc' Hs Hr.
      by eapply (Hn s0 run_nested).
    + split; [done|by eapply mid_same_trans].
Qed.

Lemma run_re_unfold depth caller now c s :
  run_re depth caller now c s
  = call_re
      match depth with
      | O => None
      | S d => Some (fun sender c' s' => run_re d sender now c' s')
      end
      caller now c s.
Proof. by destruct depth. Qed.

(** Inside a callback of the minting loop no call changes the counter,
    the enumeration, the records or the consumed hashes, however deep the
    calls nest. *)
Lemma depth_callbacks_frozen depth now :
  callbacks_frozen
    match depth with
    | O => None
    | S d => Some (fun sender c' s' => run_re d sender now c' s')
    end.
Proof.
  induction depth as [|d IH]; intros s0 run_nested Hb Hn; [done|].
  injection Hn as <-. intros sender c s1 s2 Hc Hs1 Hrun.
  rewrite run_re_unfold in Hrun. by eapply call_re_blocked.
Qed.

Lemma created_frame to tokenId s :
  to <> 0 -> _ownerOf tokenId s = 0 -> approvals_wf s ->
  approvals_wf (created to tokenId s)
  /\ _ownerOf tokenId (created to tokenId s) = to
  /\ (forall id, id <> tokenId ->
        _ownerOf id (created to tokenId s) = _ownerOf id s)
  /\ _nextTokenId (created to tokenId s) = _nextTokenId s
  /\ _allTokens (erc721 (created to tokenId s))
     = _allTokens (erc721 s) ++ [tokenId]
  /\ tokenCertifications (created to tokenId s) = tokenCertifications s
  /\ certificationHashUsed (created to tokenId s) = certificationHashUsed s.
Proof.
  intros Hto Hz (H4 & H5).
  unfold approvals_wf, created, _ownerOf, isApprovedForAll, _getApproved,
    getZ in *. cbn.
  rewrite lookup_insert_eq. repeat split; try done.
  - intros id. destruct (decide (tokenId = id)) as [->|Hne].
    + rewrite lookup_insert_eq. cbn. done.
    + rewrite lookup_insert_ne by done. apply H5.
  - intros id Hne. by rewrite lookup_insert_ne.
Qed.

(** The minting loop with receivers that call back. *)
Lemma mint_loop_re_Ok nested n caller now to cert h s s' :
  callbacks_frozen nested -> approvals_wf s ->
  mint_loop_re nested n caller now to cert h s = Ok s' ->
  issued n now to cert h s s'.
Proof.
  intros Hfrozen. revert s.
  induction n as [|n IH]; intros s Hwf Hrun; cbn [mint_loop_re] in Hrun.
  { simplify_eq. unfold issued. cbn. rewrite app_nil_r.
    split; [lia|]. split; [done|]. split; [done|].
    split; [intros id Hid; lia|]. split; [done|done]. }
  apply bind_Ok in Hrun as (s1' & Hsafe & Hrun).
  unfold _safeMint_re in Hsafe. apply bind_Ok in Hsafe as (s1 & Hmint & Hcb).
  apply mint_Ok in Hmint as (Hto & Hz & _ & ->).
  destruct (created_frame to (_nextTokenId s) s Hto Hz Hwf)
    as (Hwf1 & Hown1 & Hoth1 & Hn1 & Hall1 & Hc1 & Hh1).
  set (s1 := created to (_nextTokenId s) s) in *.
  assert (Hb1 : blocked s1) by (unfold blocked; rewrite Hn1; congruence).
  apply (check_re_pres (fun x => approvals_wf x /\ mid_same s1 x)) in Hcb;
    [| intros run_nested Hn sender c s0 s2 Hc Hs0 Hr;
       by eapply (Hfrozen s1 run_nested)
     | split; [done|apply mid_same_refl]].
  destruct Hcb as (Hwf1' & Hn1' & Hall1' & Hc1' & Hh1' & Hz1').
  apply bind_Ok in Hrun as (next & Hadd & Hrun).
  unfold checked_add in Hadd. cbn in Hadd. case_match; [|done].
  simplify_eq.
  apply IH in Hrun.
  2: { destruct Hwf1' as (A & B). split; [apply A|apply B]. }
  destruct Hrun as (Inext & Iall & Ihash & Inew & Iold & Iwf).
  cbn in Inext, Iall, Ihash, Inew, Iold.
  rewrite Hn1', Hn1 in *.
  unfold issued. split; [lia|]. split.
  { rewrite Iall, Hall1', Hall1, <- app_assoc. f_equal. cbn. f_equal.
    - f_equal. lia.
    - rewrite <- seq_shift, map_map. apply map_ext. intros i. lia. }
  split; [congruence|]. split; [|split; [|done]].
  - intros id Hid. destruct (decide (id = _nextTokenId s)) as [->|Hne].
    + destruct (Iold (_nextTokenId s)) as [Hzero Hcert]; [lia|].
      unfold _ownerOf in Hzero. cbn in Hzero. split.
      * intros Hz'. apply Hzero in Hz'. apply Hz1' in Hz'. congruence.
      * rewrite Hcert. by rewrite lookup_insert_eq.
    + apply Inew. lia.
  - intros id Hid. destruct (Iold id) as [Hzero Hcert]; [lia|].
    unfold _ownerOf in Hzero. cbn in Hzero.
    assert (Hne : id <> _nextTokenId s) by lia. split.
    + rewrite Hzero. fold (_ownerOf id s1'). rewrite Hz1'.
      by rewrite Hoth1.
    + rewrite Hcert. rewrite lookup_insert_ne by done. congruence.
Qed.

(** A successful [mintWithCertification] with receivers that call back. *)
Lemma mintWithCertification_re_Ok nested caller now to amount h sig s s' :
  callbacks_frozen nested -> approvals_wf s ->
  mintWithCertification_re nested caller now to amount h sig s = Ok s' ->
  _paused s = false /\ to <> 0 /\ 0 < amount <= 1000
  /\ getB (isProducer (hierarchy s)) to = true
  /\ getB (certificationHashUsed s) h = false
  /\ exists signer s_loop,
      ECDSA_recover (onchain_digest to amount h) sig = Ok signer
      /\ hasRole CITY_ADMIN_ROLE signer s = true
      /\ issued (Z.to_nat amount) now to signer h
           (set_certificationHashUsed
              (<[h := true]> (certificationHashUsed s)) s) s_loop
      /\ s' = emit (CreditsIssued to amount (_nextTokenId s)
                      (_nextTokenId s + amount - 1) h) s_loop.
Proof.
  intros Hfrozen Hwf. unfold mintWithCertification_re. intros Hrun.
  peel Hrun. guards.
  apply negb_true_iff, Z.eqb_neq in Hg0.
  apply andb_true_iff in Hg1 as [?%Z.ltb_lt ?%Z.leb_le].
  apply negb_true_iff in Hg3.
  split; [done|]. split; [done|]. split; [lia|]. split; [done|].
  split; [done|]. exists a4, a8.
  split; [done|]. split; [done|]. split.
  - apply mint_loop_re_Ok in Hg8; [done|done|].
    destruct Hwf as (A & B). split; [apply A|apply B].
  - unfold checked_add in Hg6. unfold checked_sub in Hg7. cbn in Hg6.
    repeat case_match; simplify_eq. done.
Qed.

(** ** The ledger invariant with receivers that call back *)

Lemma issued_inv n now to cert h s s' :
  ledger_inv s -> issued n now to cert h s s' -> ledger_inv s'.
Proof.
  intros (H1 & H2 & H3 & H4) (I1 & I2 & I3 & I4 & I5 & I6).
  unfold ledger_inv, totalSupply in *.
  rewrite I1, I2, length_app, length_map, length_seq.
  split; [lia|]. split.
  { rewrite H2 at 1. rewrite H1.
    replace (Z.of_nat (length (_allTokens (erc721 s))) + 1)
      with (1 + Z.of_nat (length (_allTokens (erc721 s)))) by lia.
    apply seq_snoc_map. }
  split; [|done].
  intros id Hid. destruct (I5 id) as [Hz _]; [lia|].
  apply Hz, H3. lia.
Qed.

Lemma mintWithCertification_re_inv nested caller now to amount h sig s s' :
  callbacks_frozen nested -> ledger_inv s ->
  mintWithCertification_re nested caller now to amount h sig s = Ok s' ->
  ledger_inv s'
  /\ _allTokens (erc721 s')
     = _allTokens (erc721 s)
       ++ map (fun i => _nextTokenId s + Z.of_nat i) (seq 0 (Z.to_nat amount)).
Proof.
  intros Hf Hinv Hrun.
  apply mintWithCertification_re_Ok in Hrun
    as (_ & _ & _ & _ & _ & signer & s_loop & _ & _ & Hiss & ->);
    [|done|apply Hinv].
  split.
  - change (ledger_inv s_loop).
    by eapply (issued_inv _ _ _ _ _
                 (set_certificationHashUsed
                    (<[h:=true]> (certificationHashUsed s)) s)).
  - destruct Hiss as (_ & Hall & _). exact Hall.
Qed.

Lemma call_re_inv nested caller now c s s' :
  callbacks_frozen nested ->
  (forall run_nested, nested = Some run_nested ->
     forall sender c' s0 s1,
       sender <> 0 -> ledger_inv s0 -> run_nested sender c' s0 = Ok s1 ->
       ledger_inv s1
       /\ exists l, _allTokens (erc721 s1) = _allTokens (erc721 s0) ++ l) ->
  caller <> 0 -> ledger_inv s ->
  call_re nested caller now c s = Ok s' ->
  ledger_inv s'
  /\ exists l, _allTokens (erc721 s') = _allTokens (erc721 s) ++ l.
Proof.
  intros Hf Hn Hc Hinv Hrun.
  destruct c; cbn [call_re] in Hrun;
    try (split; [by eapply run_inv | eexists; by eapply run_allTokens]).
  - apply mintWithCertification_re_inv in Hrun as [? ?]; [|done..].
    split; [done|]. by eexists.
  - unfold safeTransferFrom_re in Hrun.
    apply bind_Ok in Hrun as (s1 & Ht & Hrun).
    pose proof Hinv as (_ & _ & _ & Hwf).
    apply transferFrom_Ok in Ht as (Hto & Hfrom & Hnz & _ & _ & ->);
      [|done..].
    apply (check_re_pres
             (fun x => ledger_inv x
                       /\ exists l, _allTokens (erc721 x)
                                    = _allTokens (erc721 s) ++ l))
      in Hrun; [done| |].
    + intros run_nested Hrn sender c' s0 s1 Hs [Hinv0 [l0 Hl0]] Hr.
      destruct (Hn run_nested Hrn sender c' s0 s1 Hs Hinv0 Hr)
        as [Hinv1 [l1 Hl1]].
      split; [done|]. exists (l0 ++ l1). by rewrite Hl1, Hl0, app_assoc.
    + split; [apply moved_inv; [done|congruence|done]|].
      exists []. by rewrite app_nil_r.
Qed.

Lemma run_re_inv depth caller now c s s' :
  caller <> 0 -> ledger_inv s -> run_re depth caller now c s = Ok s' ->
  ledger_inv s'
  /\ exists l, _allTokens (erc721 s') = _allTokens (erc721 s) ++ l.
Proof.
  revert caller c s s'.
  induction depth as [|d IH]; intros caller c s s' Hc Hinv Hrun;
    rewrite run_re_unfold in Hrun.
  - eapply call_re_inv in Hrun;
      [done|apply (depth_callbacks_frozen 0 now)|by intros|done|done].
  - eapply call_re_inv in Hrun;
      [done|apply (depth_callbacks_frozen (S d) now)| |done|done].
    intros run_nested [= <-] sender c' s0 s1 Hs Hinv0 Hr. by eapply IH.
Qed.

Lemma exec_tx_re_inv depth s tx :
  valid_tx tx -> ledger_inv s -> ledger_inv (exec_tx_re depth s tx).
Proof.
  intros Hv Hinv. unfold exec_tx_re, exec_re.
  destruct (run_re _ _ _ _ s) eqn:E; [|done]. by eapply run_re_inv.
Qed.

Lemma reachable_re_inv depth s : reachable_re depth s -> ledger_inv s.
Proof.
  induction 1 as [d m s Hc | s tx _ IH Hv].
  - by eapply constructor_inv.
  - by apply exec_tx_re_inv.
Qed.

Lemma reachable_re_exec_all depth txs s :
  reachable_re depth s -> Forall valid_tx txs ->
  reachable_re depth (exec_all_re depth txs s).
Proof.
  intros Hs Hv. revert s Hs.
  induction Hv as [|tx txs Htx _ IH]; intros s Hs; cbn; [done|].
  apply IH. by apply reachable_re_step.
Qed.

(** ** A consumed hash stays consumed, receivers calling back or not *)

Lemma mint_loop_re_hash nested n caller now to cert h0 s s' h :
  (forall run_nested, nested = Some run_nested ->
     forall sender c s0 s1,
       sender <> 0 -> getB (certificationHashUsed s0) h = true ->
       run_nested sender c s0 = Ok s1 ->
       getB (certificationHashUsed s1) h = true) ->
  getB (certificationHashUsed s) h = true ->
  mint_loop_re nested n caller now to cert h0 s = Ok s' ->
  getB (certificationHashUsed s') h = true.
Proof.
  intros Hn. revert s.
  induction n as [|n IH]; intros s Hs Hrun; cbn [mint_loop_re] in Hrun.
  { by simplify_eq. }
  apply bind_Ok in Hrun as (s1' & Hsafe & Hrun).
  unfold _safeMint_re in Hsafe. apply bind_Ok in Hsafe as (s1 & Hmint & Hcb).
  apply mint_Ok in Hmint as (_ & _ & _ & ->).
  apply (check_re_pres (fun x => getB (certificationHashUsed x) h = true))
    in Hcb; [|done|done].
  apply bind_Ok in Hrun as (next & _ & Hrun).
  by apply IH in Hrun.
Qed.

Lemma call_re_hash_mono nested caller now c s s' h :
  (forall run_nested, nested = Some run_nested ->
     forall sender c s0 s1,
       sender <> 0 -> getB (certificationHashUsed s0) h = true ->
       run_nested sender c s0 = Ok s1 ->
       getB (certificationHashUsed s1) h = true) ->
  getB (certificationHashUsed s) h = true ->
  call_re nested caller now c s = Ok s' ->
  getB (certificationHashUsed s') h = true.
Proof.
  intros Hn Hs Hrun.
  destruct c; cbn [call_re] in Hrun; try (by eapply run_hash_mono).
  - unfold mintWithCertification_re in Hrun. peel Hrun. guards.
    simplify_eq. cbn.
    eapply mint_loop_re_hash; [done| |done]. cbn.
    by apply getB_insert_true.
  - unfold safeTransferFrom_re in Hrun.
    apply bind_Ok in Hrun as (s1 & Ht & Hrun).
    apply (check_re_pres (fun x => getB (certificationHashUsed x) h = true))
      in Hrun; [done|done|].
    by apply transferFrom_outside in Ht as (_ & _ & _ & _ & -> & _).
Qed.

Lemma run_re_hash_mono depth caller now c s s' h :
  getB (certificationHashUsed s) h = true ->
  run_re depth caller now c s = Ok s' ->
  getB (certificationHashUsed s') h = true.
Proof.
  revert caller c s s'.
  induction depth as [|d IH]; intros caller c s s' Hs Hrun;
    rewrite run_re_unfold in Hrun;
    (eapply call_re_hash_mono in Hrun; [done| |done]).
  - by intros.
  - intros run_nested [= <-] sender c' s0 s1 _ Hs0 Hr. by eapply IH.
Qed.

Lemma exec_all_re_hash_mono depth txs s h :
  getB (certificationHashUsed s) h = true ->
  getB (certificationHashUsed (exec_all_re depth txs s)) h = true.
Proof.
  revert s. induction txs as [|tx txs IH]; intros s Hused; cbn; [done|].
  apply IH. unfold exec_tx_re, exec_re.
  destruct (run_re _ _ _ _ s) eqn:E; [by eapply run_re_hash_mono|done].
Qed.

Lemma mint_re_hash_reused nested caller now to amount h sig s :
  _paused s = false -> to <> 0 -> 0 < amount <= 1000 ->
  getB (isProducer (hierarchy s)) to = true ->
  getB (certificationHashUsed s) h = true ->
  mintWithCertification_re nested caller now to amount h sig s
  = Revert HashReused.
Proof.
  intros Hp Hto Ham Hprod Hused.
  unfold mintWithCertification_re, whenNotPaused, require. rewrite Hp. cbn.
  apply Z.eqb_neq in Hto as ->. cbn.
  assert ((0 <? amount) && (amount <=? 1000) = true) as ->.
  { apply andb_true_iff. split; [apply Z.ltb_lt | apply Z.leb_le]; lia. }
  cbn. rewrite Hprod. cbn. by rewrite Hused.
Qed.

(** ** Recipients that make no call *)

Lemma check_re_plain depth now operator from to tokenId s :
  plain_recipient depth to ->
  checkOnERC721Received_re
    match depth with
    | O => None
    | S d => Some (fun sender c' s' => run_re d sender now c' s')
    end
    operator from to tokenId s
  = Ok s.
Proof.
  intros [Hno | [Hd Hacc]]; unfold checkOnERC721Received_re.
  - by rewrite Hno.
  - destruct (negb (hasCode to)); [done|].
    destruct depth; [lia|]. by rewrite Hacc.
Qed.

Lemma mint_loop_re_plain_Ok nested n caller now to cert h s s' :
  (forall operator from tokenId s0,
      checkOnERC721Received_re nested operator from to tokenId s0 = Ok s0) ->
  mint_loop_re nested n caller now to cert h s = Ok s' ->
  s' = issue n now to cert h s.
Proof.
  intros Hck. revert s.
  induction n as [|n IH]; intros s Hrun; cbn [mint_loop_re] in Hrun.
  - by simplify_eq.
  - apply bind_Ok in Hrun as (s1' & Hsafe & Hrun).
    unfold _safeMint_re in Hsafe.
    apply bind_Ok in Hsafe as (s1 & Hmint & Hcb).
    rewrite Hck in Hcb. simplify_eq.
    apply mint_Ok in Hmint as (Hto & Hz & Hp & ->).
    apply bind_Ok in Hrun as (next & Hadd & Hrun).
    unfold checked_add in Hadd. case_match; [|done]. simplify_eq.
    apply IH in Hrun. by subst.
Qed.

Lemma mint_loop_re_plain_run nested n caller now to cert h s :
  (forall operator from tokenId s0,
      checkOnERC721Received_re nested operator from to tokenId s0 = Ok s0) ->
  to <> 0 -> _paused s = false ->
  (forall id, _nextTokenId s <= id -> _ownerOf id s = 0) ->
  _nextTokenId s + Z.of_nat n <= MAX_UINT256 ->
  mint_loop_re nested n caller now to cert h s = Ok (issue n now to cert h s).
Proof.
  intros Hck Hto. revert s.
  induction n as [|n IH]; intros s Hp Hfresh Hmax.
  - done.
  - cbn [mint_loop_re issue]. unfold _safeMint_re.
    rewrite mint_run by (done || apply Hfresh; lia). cbn.
    rewrite Hck. cbn.
    unfold checked_add.
    destruct (_ <=? _) eqn:E; [|apply Z.leb_gt in E; lia]. cbn.
    apply IH; cbn.
    + done.
    + intros id Hid. unfold _ownerOf, getZ; cbn.
      rewrite lookup_insert_ne by lia. apply Hfresh. lia.
    + lia.
Qed.

Lemma mintWithCertification_re_plain_Ok nested caller now to amount h sig
    s s' :
  (forall operator from tokenId s0,
      checkOnERC721Received_re nested operator from to tokenId s0 = Ok s0) ->
  mintWithCertification_re nested caller now to amount h sig s = Ok s' ->
  exists cert,
    ECDSA_recover (onchain_digest to amount h) sig = Ok cert
    /\ s' = minted now to amount h cert s.
Proof.
  intros Hck. unfold mintWithCertification_re. intros Hrun.
  peel Hrun. guards.
  exists a4. split; [done|].
  apply mint_loop_re_plain_Ok in Hg8; [|done]. subst a8. unfold minted.
  unfold checked_add in Hg6. unfold checked_sub in Hg7. cbn in Hg6.
  repeat case_match; simplify_eq. done.
Qed.

Lemma mintWithCertification_re_plain_run nested caller now to amount h sig
    cert s :
  (forall operator from tokenId s0,
      checkOnERC721Received_re nested operator from to tokenId s0 = Ok s0) ->
  _paused s = false -> to <> 0 -> 0 < amount <= 1000 ->
  getB (isProducer (hierarchy s)) to = true ->
  getB (certificationHashUsed s) h = false ->
  ECDSA_recover (onchain_digest to amount h) sig = Ok cert ->
  hasRole CITY_ADMIN_ROLE cert s = true ->
  (forall id, _nextTokenId s <= id -> _ownerOf id s = 0) ->
  0 <= _nextTokenId s -> _nextTokenId s + amount <= MAX_UINT256 ->
  mintWithCertification_re nested caller now to amount h sig s
  = Ok (minted now to amount h cert s).
Proof.
  intros Hck Hp Hto Ham Hprod Hused Hrec Hrole Hfresh Hpos Hmax.
  unfold mintWithCertification_re, whenNotPaused, require. rewrite Hp. cbn.
  apply Z.eqb_neq in Hto as Hto'. rewrite Hto'. cbn.
  assert ((0 <? amount) && (amount <=? 1000) = true) as ->.
  { apply andb_true_iff. split; [apply Z.ltb_lt | apply Z.leb_le]; lia. }
  cbn. rewrite Hprod. cbn. rewrite Hused. cbn.
  unfold onchain_digest in Hrec. rewrite Hrec. cbn. rewrite Hrole. cbn.
  unfold checked_add, checked_sub.
  destruct (_nextTokenId s + amount <=? MAX_UINT256) eqn:E1;
    [|apply Z.leb_gt in E1; lia]. cbn.
  destruct (1 <=? _nextTokenId s + amount) eqn:E2;
    [|apply Z.leb_gt in E2; lia]. cbn.
  rewrite (mint_loop_re_plain_run _ _ _ _ _ cert h); cbn; try done.
  lia.
Qed.

(** ** What a receiver gets to see during a mint *)

Lemma bind_ext {A B} (c : result A) (k1 k2 : A -> result B) :
  (forall a, c = Ok a -> k1 a = k2 a) -> (c ≫= k1) = (c ≫= k2).
Proof. destruct c as [a|e]; cbn; [by intros ->|done]. Qed.

Lemma run_script_agree h r1 r2 p1 p2 s :
  (forall sender c s0,
      getB (certificationHashUsed s0) h = true ->
      r1 sender c s0 = r2 sender c s0) ->
  (forall sender c s0 s1,
      sender <> 0 -> getB (certificationHashUsed s0) h = true ->
      r1 sender c s0 = Ok s1 ->
      getB (certificationHashUsed s1) h = true) ->
  script_agree h p1 p2 ->
  getB (certificationHashUsed s) h = true ->
  run_script r1 p1 s = run_script r2 p2 s.
Proof.
  intros Hr Hp. revert p2 s.
  induction p1 as [a1|x1 c1 k1 IH]; intros p2 s Hag Hs;
    destruct p2 as [a2|x2 c2 k2]; cbn in Hag; try done.
  - by subst.
  - destruct Hag as (-> & -> & Hk). cbn.
    destruct (x2 =? 0) eqn:E; [by apply IH; [apply Hk|]|].
    rewrite <- (Hr x2 c2 s Hs).
    destruct (r1 x2 c2 s) as [s1|e] eqn:E1; [|by apply IH; [apply Hk|]].
    assert (getB (certificationHashUsed s1) h = true).
    { eapply Hp; [by apply Z.eqb_neq|done|done]. }
    by apply IH; [apply Hk|].
Qed.

Lemma check_re_agree (R' : Receivers) h n1 n2 operator from to tokenId s :
  receivers_agree_after h RC R' -> runners_agree h n1 n2 ->
  (forall r1, n1 = Some r1 ->
     forall sender c s0 s1,
       sender <> 0 -> getB (certificationHashUsed s0) h = true ->
       r1 sender c s0 = Ok s1 ->
       getB (certificationHashUsed s1) h = true) ->
  getB (certificationHashUsed s) h = true ->
  checkOnERC721Received_re (RC := RC) n1 operator from to tokenId s
  = checkOnERC721Received_re (RC := R') n2 operator from to tokenId s.
Proof.
  intros [Hcode Hon] Hr Hp Hs. unfold checkOnERC721Received_re.
  rewrite <- Hcode. destruct (negb _); [done|].
  destruct n1 as [r1|], n2 as [r2|]; try done.
  rewrite (run_script_agree h r1 r2 _
             (onReceived (Receivers := R') to operator from tokenId s) s);
    [done|done|by apply Hp|by apply Hon|done].
Qed.

Lemma mint_loop_re_agree (R' : Receivers) h n1 n2 n caller now to cert h0 s :
  receivers_agree_after h RC R' -> runners_agree h n1 n2 ->
  (forall r1, n1 = Some r1 ->
     forall sender c s0 s1,
       sender <> 0 -> getB (certificationHashUsed s0) h = true ->
       r1 sender c s0 = Ok s1 ->
       getB (certificationHashUsed s1) h = true) ->
  getB (certificationHashUsed s) h = true ->
  mint_loop_re (RC := RC) n1 n caller now to cert h0 s
  = mint_loop_re (RC := R') n2 n caller now to cert h0 s.
Proof.
  intros Hag Hr Hp. revert s.
  induction n as [|n IH]; intros s Hs; cbn [mint_loop_re]; [done|].
  unfold _safeMint_re.
  destruct (_mint to (_nextTokenId s) s) as [s1|e] eqn:Hmint; cbn; [|done].
  apply mint_Ok in Hmint as (_ & _ & _ & ->).
  rewrite <- (check_re_agree R' h n1 n2) by done.
  destruct (checkOnERC721Received_re (RC := RC) n1 caller 0 to
              (_nextTokenId s) (created to (_nextTokenId s) s))
    as [s1|e] eqn:Hcb; cbn; [|done].
  apply (check_re_pres (fun x => getB (certificationHashUsed x) h = true))
    in Hcb; [|done|done].
  apply bind_ext. intros next _. by apply IH.
Qed.

Lemma mintWithCertification_re_agree (R' : Receivers) h n1 n2
    caller now to amount h0 sig s :
  receivers_agree_after h RC R' -> runners_agree h n1 n2 ->
  (forall r1, n1 = Some r1 ->
     forall sender c s0 s1,
       sender <> 0 -> getB (certificationHashUsed s0) h = true ->
       r1 sender c s0 = Ok s1 ->
       getB (certificationHashUsed s1) h = true) ->
  getB (certificationHashUsed s) h = true \/ h0 = h ->
  mintWithCertification_re (RC := RC) n1 caller now to amount h0 sig s
  = mintWithCertification_re (RC := R') n2 caller now to amount h0 sig s.
Proof.
  intros Hag Hr Hp Hs. unfold mintWithCertification_re. cbv zeta.
  do 9 (apply bind_ext; intros ? _).
  rewrite (mint_loop_re_agree R' h n1 n2); [done|done|done|done|].
  cbn. destruct Hs as [Hs| ->]; [by apply getB_insert_true|].
  unfold getB. by rewrite lookup_insert_eq.
Qed.

Lemma call_re_agree (R' : Receivers) h n1 n2 caller now c s :
  receivers_agree_after h RC R' -> runners_agree h n1 n2 ->
  (forall r1, n1 = Some r1 ->
     forall sender c s0 s1,
       sender <> 0 -> getB (certificationHashUsed s0) h = true ->
       r1 sender c s0 = Ok s1 ->
       getB (certificationHashUsed s1) h = true) ->
  getB (certificationHashUsed s) h = true ->
  call_re (RC := RC) n1 caller now c s = call_re (RC := R') n2 caller now c s.
Proof.
  intros Hag Hr Hp Hs. destruct c; cbn [call_re]; try done.
  - apply mintWithCertification_re_agree with (h := h); auto.
  - unfold safeTransferFrom_re.
    apply bind_ext. intros s1 Ht.
    apply check_re_agree with (h := h); try done.
    by apply transferFrom_outside in Ht as (_ & _ & _ & _ & -> & _).
Qed.

Lemma run_re_agree (R' : Receivers) h depth caller now c s :
  receivers_agree_after h RC R' ->
  getB (certificationHashUsed s) h = true ->
  run_re (RC := RC) depth caller now c s
  = run_re (RC := R') depth caller now c s.
Proof.
  intros Hag. revert caller c s.
  induction depth as [|d IH]; intros caller c s Hs.
  - apply (call_re_agree R' h None None); try done.
  - apply (call_re_agree R' h
             (Some (fun sender c' s' => run_re (RC := RC) d sender now c' s'))
             (Some (fun sender c' s' => run_re (RC := R') d sender now c' s')));
      try done.
    intros r1 [= <-] sender c' s0 s1 _ Hs0 Hr.
    by eapply run_re_hash_mono.
Qed.

(** During a mint under the hash [h], every receiver is entered on a
    ledger on which [h] is already consumed. *)
Lemma mint_re_agree (R' : Receivers) h depth caller now to amount sig s :
  receivers_agree_after h RC R' ->
  run_re (RC := RC) depth caller now (MintWithCertification to amount h sig) s
  = run_re (RC := R') depth caller now
      (MintWithCertification to amount h sig) s.
Proof.
  intros Hag. destruct depth as [|d].
  - apply (mintWithCertification_re_agree R' h None None); try done.
    by right.
  - apply (mintWithCertification_re_agree R' h
             (Some (fun sender c' s' => run_re (RC := RC) d sender now c' s'))
             (Some (fun sender c' s' => run_re (RC := R') d sender now c' s')));
      try done.
    + intros sender c' s0 Hs0. by apply run_re_agree with (h := h).
    + intros r1 [= <-] sender c' s0 s1 _ Hs0 Hr.
      by eapply run_re_hash_mono.
    + by right.
Qed.

(** ** [run] is [run_re] with receivers that call nothing *)

Lemma mint_loop_call_free nested n caller now to cert h s :
  mint_loop_re (RC := call_free) (Some nested) n caller now to cert h s
  = mint_loop n caller now to cert h s.
Proof.
  revert s. induction n as [|n IH]; intros s; cbn [mint_loop_re mint_loop];
    [done|].
  unfold _safeMint_re, _safeMint.
  destruct (_mint to (_nextTokenId s) s) as [s1|e]; cbn; [|done].
  unfold checkOnERC721Received_re, checkOnERC721Received. cbn.
  destruct (onERC721Received to caller 0 (_nextTokenId s)); cbn; [|done].
  apply bind_ext. intros next _. apply IH.
Qed.

Lemma run_re_call_free depth caller now c s :
  run_re (RC := call_free) (S depth) caller now c s = run caller now c s.
Proof.
  destruct c; try done.
  - cbn. unfold mintWithCertification_re, mintWithCertification. cbv zeta.
    do 9 (apply bind_ext; intros ? _).
    by rewrite mint_loop_call_free.
  - cbn. unfold safeTransferFrom_re, safeTransferFrom.
    apply bind_ext. intros s1 _.
    unfold checkOnERC721Received_re, checkOnERC721Received. cbn.
    by destruct (onERC721Received to caller from tokenId).
Qed.

Lemma reachable_call_free depth s :
  reachable s -> reachable_re (RC := call_free) (S depth) s.
Proof.
  induction 1 as [d m s Hc | s tx _ IH Hv].
  - by eapply reachable_re_deploy.
  - replace (exec_tx s tx)
      with (exec_tx_re (RC := call_free) (S depth) s tx).
    + by apply reachable_re_step.
    + unfold exec_tx_re, exec_re, exec_tx, exec.
      by rewrite run_re_call_free.
Qed.

(** ** Minting with receivers that call back *)

Lemma mint_re_Ok d caller now to amount h sig s s' :
  approvals_wf s ->
  run_re d caller now (MintWithCertification to amount h sig) s = Ok s' ->
  _paused s = false /\ to <> 0 /\ 0 < amount <= 1000
  /\ getB (isProducer (hierarchy s)) to = true
  /\ getB (certificationHashUsed s) h = false
  /\ exists signer s_loop,
      ECDSA_recover (onchain_digest to amount h) sig = Ok signer
      /\ hasRole CITY_ADMIN_ROLE signer s = true
      /\ issued (Z.to_nat amount) now to signer h
           (set_certificationHashUsed
              (<[h := true]> (certificationHashUsed s)) s) s_loop
      /\ s' = emit (CreditsIssued to amount (_nextTokenId s)
                      (_nextTokenId s + amount - 1) h) s_loop.
Proof.
  intros Hwf Hrun. rewrite run_re_unfold in Hrun. cbn [call_re] in Hrun.
  eapply mintWithCertification_re_Ok; [|done|done].
  apply depth_callbacks_frozen.
Qed.

Lemma mint_re_ids d caller now to amount h sig s s' :
  ledger_inv s ->
  run_re d caller now (MintWithCertification to amount h sig) s = Ok s' ->
  _allTokens (erc721 s')
  = _allTokens (erc721 s)
    ++ map (fun i => _nextTokenId s + Z.of_nat i) (seq 0 (Z.to_nat amount))
  /\ mintedIds s s' = predictedTokenIds s amount
  /\ totalSupply s' = totalSupply s + amount.
Proof.
  intros Hinv Hrun. pose proof Hinv as (Hnext & _ & _ & Hwf).
  pose proof (mint_re_Ok _ _ _ _ _ _ _ _ _ Hwf Hrun)
    as (_ & _ & [Ham _] & _).
  rewrite run_re_unfold in Hrun. cbn [call_re] in Hrun.
  apply mintWithCertification_re_inv in Hrun as [_ Hall];
    [|apply depth_callbacks_frozen|done].
  split; [done|].
  unfold mintedIds, predictedTokenIds, totalSupply.
  rewrite Hall, drop_app_length, length_app, length_map, length_seq.
  unfold totalSupply in Hnext. rewrite Hnext. split; [done|lia].
Qed.

Lemma mint_re_plain_Ok d caller now to amount h sig s s' :
  plain_recipient d to ->
  run_re d caller now (MintWithCertification to amount h sig) s = Ok s' ->
  exists cert,
    ECDSA_recover (onchain_digest to amount h) sig = Ok cert
    /\ s' = minted now to amount h cert s.
Proof.
  intros Hplain Hrun. rewrite run_re_unfold in Hrun. cbn [call_re] in Hrun.
  eapply mintWithCertification_re_plain_Ok; [|done].
  intros. by apply check_re_plain.
Qed.

(** C1. On a reachable ledger, with receivers that may call back: a
    well-formed [mintWithCertification] to a recipient that makes no call
    of its own succeeds; whenever such a call succeeds, whatever the
    recipient does, exactly the [amount] consecutive ids
    [N .. N + amount - 1] are added, [N] being the id counter, and the hash
    is consumed; and whatever transactions follow, every later well-formed
    call with the same hash is rejected with [HashReused] and the ledger
    (credit count, ownership, everything) stays as it was.  The hash is
    marked before the first credit is created: every receiver called
    during the mint is entered on a ledger in which the hash is already
    consumed, so receivers that differ only on ledgers in which it is not
    cannot make the call end differently.  And it is marked together with
    the credits: a call that reverts leaves the hash unconsumed. *)
Theorem same_certification_twice (d : nat) (caller now to amount h : Z)
    (sig : list byte) (signer : Z) (s : State) :
  reachable_re d s ->
  _paused s = false -> to <> 0 -> 0 < amount <= 1000 ->
  getB (isProducer (hierarchy s)) to = true ->
  getB (certificationHashUsed s) h = false ->
  ECDSA_recover (onchain_digest to amount h) sig = Ok signer ->
  hasRole CITY_ADMIN_ROLE signer s = true ->
  _nextTokenId s + amount <= MAX_UINT256 ->
  (plain_recipient d to ->
   exists s1,
     run_re d caller now (MintWithCertification to amount h sig) s = Ok s1)
  /\ (forall s1,
        run_re d caller now (MintWithCertification to amount h sig) s
        = Ok s1 ->
        mintedIds s s1
        = map (fun i => _nextTokenId s + Z.of_nat i)
            (seq 0 (Z.to_nat amount))
        /\ totalSupply s1 = totalSupply s + amount
        /\ getB (certificationHashUsed s1) h = true
        /\ forall txs caller' now' to' amount' sig',
            let s2 := exec_all_re d txs s1 in
            _paused s2 = false -> to' <> 0 -> 0 < amount' <= 1000 ->
            getB (isProducer (hierarchy s2)) to' = true ->
            run_re d caller' now' (MintWithCertification to' amount' h sig')
              s2
            = Revert HashReused
            /\ exec_re d caller' now'
                 (MintWithCertification to' amount' h sig') s2
               = s2)
  /\ (forall R' : Receivers,
        receivers_agree_after h RC R' ->
        run_re (RC := RC) d caller now
          (MintWithCertification to amount h sig) s
        = run_re (RC := R') d caller now
            (MintWithCertification to amount h sig) s)
  /\ (forall e,
        run_re d caller now (MintWithCertification to amount h sig) s
        = Revert e ->
        getB (certificationHashUsed
                (exec_re d caller now
                   (MintWithCertification to amount h sig) s)) h
        = false).
Proof.
  intros Hreach Hp Hto Ham Hprod Hunused Hrec Hrole Hmax.
  pose proof (reachable_re_inv d s Hreach) as Hinv.
  pose proof Hinv as (Hnext & _ & Hfresh & Hwf).
  assert (Hpos : 0 <= _nextTokenId s) by (unfold totalSupply in Hnext; lia).
  split; [|split; [|split]].
  - intros Hplain. exists (minted now to amount h signer s).
    rewrite run_re_unfold. cbn [call_re].
    apply mintWithCertification_re_plain_run; try done.
    intros. by apply check_re_plain.
  - intros s1 Hrun.
    destruct (mint_re_ids _ _ _ _ _ _ _ _ _ Hinv Hrun)
      as (Hall & Hids & Hsupply).
    assert (Hused : getB (certificationHashUsed s1) h = true).
    { apply mint_re_Ok in Hrun
        as (_ & _ & _ & _ & _ & c & s_loop & _ & _ & Hiss & ->); [|done].
      destruct Hiss as (_ & _ & Hh & _). cbn. rewrite Hh. cbn.
      unfold getB. by rewrite lookup_insert_eq. }
    split; [by rewrite Hids; unfold predictedTokenIds; rewrite Hnext|].
    split; [done|]. split; [done|].
    intros txs caller' now' to' amount' sig' s2 Hp' Hto' Ham' Hprod'.
    assert (Hr : run_re d caller' now'
                   (MintWithCertification to' amount' h sig') s2
                 = Revert HashReused).
    { rewrite run_re_unfold. cbn [call_re].
      apply mint_re_hash_reused; try done.
      by apply exec_all_re_hash_mono. }
    split; [done|]. unfold exec_re. by rewrite Hr.
  - intros R' Hag. by apply mint_re_agree.
  - intros e Hr. unfold exec_re. by rewrite Hr.
Qed.

(** C7, as the contract has it.  A successful [mintWithCertification] on a reachable
    ledger, with receivers that may call back: the signature recovers to a
    holder of [CITY_ADMIN_ROLE]; exactly [amount] credits are appended to
    the enumeration, with the consecutive ids
    [totalSupply + 1 .. totalSupply + amount] (the enumeration before the
    call being [1 .. totalSupply], these start one past the highest id
    issued so far, and are [1 .. amount] on a ledger without credits);
    each new credit exists and carries the record
    [{producer = to; certifier = signer; certificationHash = h}]; older
    credits keep their record and stay in existence; the last event is
    [CreditsIssued to amount firstId lastId h].  The new credits are owned
    by [to], and the older ones by whom they were, when [to] makes no call
    of its own in the callback: a recipient contract may pass the credits
    on before the call ends. *)
Theorem mint_issues_batch (d : nat) (caller now to amount h : Z)
    (sig : list byte) (s s' : State) :
  reachable_re d s ->
  run_re d caller now (MintWithCertification to amount h sig) s = Ok s' ->
  exists signer,
    ECDSA_recover (onchain_digest to amount h) sig = Ok signer
    /\ hasRole CITY_ADMIN_ROLE signer s = true
    /\ _nextTokenId s = totalSupply s + 1
    /\ _allTokens (erc721 s)
       = map (fun i => 1 + Z.of_nat i) (seq 0 (Z.to_nat (totalSupply s)))
    /\ mintedIds s s'
       = map (fun i => totalSupply s + 1 + Z.of_nat i)
           (seq 0 (Z.to_nat amount))
    /\ Z.of_nat (length (mintedIds s s')) = amount
    /\ _allTokens (erc721 s') = _allTokens (erc721 s) ++ mintedIds s s'
    /\ (forall id,
          totalSupply s + 1 <= id <= totalSupply s + amount ->
          _ownerOf id s' <> 0
          /\ tokenCertifications s' !! id
             = Some (mkCertificationData to signer now "" h)
          /\ (plain_recipient d to -> _ownerOf id s' = to))
    /\ (forall id,
          id <= totalSupply s ->
          (_ownerOf id s' = 0 <-> _ownerOf id s = 0)
          /\ tokenCertifications s' !! id = tokenCertifications s !! id
          /\ (plain_recipient d to -> _ownerOf id s' = _ownerOf id s))
    /\ last (events s')
       = Some (CreditsIssued to amount (totalSupply s + 1)
                 (totalSupply s + amount) h).
Proof.
  intros Hreach Hrun.
  pose proof (reachable_re_inv d s Hreach) as Hinv.
  pose proof Hinv as (Hnext & Hids & _ & Hwf).
  destruct (mint_re_ids _ _ _ _ _ _ _ _ _ Hinv Hrun)
    as (Hall & Hminted & Hsupply).
  pose proof (mint_re_Ok _ _ _ _ _ _ _ _ _ Hwf Hrun)
    as (_ & _ & [Ham _] & _ & _ & signer & s_loop & Hrec & Hrole & Hiss & Hs').
  exists signer. split; [done|]. split; [done|]. split; [done|].
  split.
  { unfold totalSupply. by rewrite Nat2Z.id. }
  split; [done|]. split.
  { rewrite Hminted. unfold predictedTokenIds.
    rewrite length_map, length_seq. lia. }
  split.
  { rewrite Hminted. unfold predictedTokenIds. by rewrite Hall, Hnext. }
  destruct Hiss as (_ & _ & _ & Inew & Iold & _).
  cbn in Inew, Iold.
  set (s1 := set_certificationHashUsed
               (<[h:=true]> (certificationHashUsed s)) s).
  split; [|split].
  - intros id Hid. destruct (Inew id) as [Hown Hcert]; [lia|].
    split; [by subst s'|]. split; [by subst s'|].
    intros Hplain.
    destruct (mint_re_plain_Ok _ _ _ _ _ _ _ _ _ Hplain Hrun)
      as (cert & _ & ->).
    destruct (issue_owner_new (Z.to_nat amount) now to cert h s1 id)
      as [Hown' _]; [cbn; lia|].
    unfold minted, _ownerOf in *. cbn in *. by fold s1.
  - intros id Hid. destruct (Iold id) as [Hown Hcert]; [lia|].
    split; [by subst s'|]. split; [by subst s'|].
    intros Hplain.
    destruct (mint_re_plain_Ok _ _ _ _ _ _ _ _ _ Hplain Hrun)
      as (cert & _ & ->).
    destruct (issue_owner_other (Z.to_nat amount) now to cert h s1 id)
      as [Hown' _]; [cbn; lia|].
    unfold minted, _ownerOf in *. cbn in *. by fold s1.
  - subst s'. cbn. rewrite last_snoc, Hnext. do 3 f_equal. lia.
Qed.

(** C10. With receivers that may call back, in every reachable ledger the
    next token id is [totalSupply() + 1].  No transaction removes a credit
    from the enumeration (each one only appends to it), a retirement
    leaves it as it is, and so the ids the backend computes from
    [totalSupply()] right before a successful mint are exactly the ids the
    contract assigns, [amount] of them. *)
Theorem next_id_tracks_supply (d : nat) (s : State) :
  reachable_re d s ->
  _nextTokenId s = totalSupply s + 1
  /\ (forall tx, valid_tx tx ->
        exists l, _allTokens (erc721 (exec_tx_re d s tx))
                  = _allTokens (erc721 s) ++ l)
  /\ (forall caller now tokenId,
        _allTokens (erc721 (exec_re d caller now (Retire tokenId) s))
        = _allTokens (erc721 s))
  /\ (forall caller now to amount h sig s',
        run_re d caller now (MintWithCertification to amount h sig) s
        = Ok s' ->
        mintedIds s s' = predictedTokenIds s amount
        /\ totalSupply s' = totalSupply s + amount).
Proof.
  intros Hreach. pose proof (reachable_re_inv d s Hreach) as Hinv.
  pose proof Hinv as (Hnext & _).
  split; [done|]. split; [|split].
  - intros tx Hv. unfold exec_tx_re, exec_re.
    destruct (run_re _ _ _ _ s) as [s'|e] eqn:E.
    + by eapply run_re_inv.
    + exists []. by rewrite app_nil_r.
  - intros caller now tokenId. unfold exec_re.
    destruct (run_re _ _ _ _ s) as [s'|e] eqn:E; [|done].
    rewrite run_re_unfold in E. cbn in E.
    by apply retire_Ok in E as (_ & _ & ->).
  - intros caller now to amount h sig s' Hrun.
    by destruct (mint_re_ids _ _ _ _ _ _ _ _ _ Hinv Hrun) as (_ & ? & ?).
Qed.

(** X12. A successful [mintWithCertification] to a recipient that makes no
    call of its own (an account without code, or a contract whose callback
    just accepts) raises the balance of the recipient by [amount] (in
    256-bit arithmetic) and leaves every other balance as it was. *)
Theorem mint_credits_balance (d : nat) (caller now to amount h : Z)
    (sig : list byte) (s s' : State) :
  plain_recipient d to ->
  run_re d caller now (MintWithCertification to amount h sig) s = Ok s' ->
  _balanceOf to s' = wrap256 (_balanceOf to s + amount)
  /\ forall a, a <> to -> _balanceOf a s' = _balanceOf a s.
Proof.
  intros Hplain Hrun.
  assert (Ham : 0 < amount).
  { rewrite run_re_unfold in Hrun. cbn [call_re] in Hrun.
    unfold mintWithCertification_re in Hrun. peel Hrun. guards.
    by apply andb_true_iff in Hg1 as [?%Z.ltb_lt _]. }
  destruct (mint_re_plain_Ok _ _ _ _ _ _ _ _ _ Hplain Hrun)
    as (cert & _ & ->).
  unfold _balanceOf, minted. cbn. split.
  - rewrite issue_balance. rewrite decide_True by done.
    destruct (Z.to_nat amount) eqn:E; [lia|]. rewrite <- E. cbn.
    f_equal. lia.
  - intros a Hne. rewrite issue_balance. by rewrite decide_False.
Qed.

(** X14. [getUserRole] answers with the first role of the fixed order
    main admin, country admin, state admin, city admin, producer, buyer,
    auditor that the account holds on chain, and with nothing exactly when
    it holds none of the seven. *)
Theorem getUserRole_priority (s : State) (u : Z) :
  (getUserRole s u = None
   <-> hasRole MAIN_ADMIN_ROLE u s = false
       /\ hasRole COUNTRY_ADMIN_ROLE u s = false
       /\ hasRole STATE_ADMIN_ROLE u s = false
       /\ hasRole CITY_ADMIN_ROLE u s = false
       /\ hasRole PRODUCER_ROLE u s = false
       /\ hasRole BUYER_ROLE u s = false
       /\ hasRole AUDITOR_ROLE u s = false)
  /\ (hasRole MAIN_ADMIN_ROLE u s = true ->
      getUserRole s u = Some "main_admin")
  /\ (hasRole MAIN_ADMIN_ROLE u s = false ->
      hasRole COUNTRY_ADMIN_ROLE u s = true ->
      getUserRole s u = Some "country_admin")
  /\ (hasRole MAIN_ADMIN_ROLE u s = false ->
      hasRole COUNTRY_ADMIN_ROLE u s = false ->
      hasRole STATE_ADMIN_ROLE u s = true ->
      getUserRole s u = Some "state_admin")
  /\ (hasRole MAIN_ADMIN_ROLE u s = false ->
      hasRole COUNTRY_ADMIN_ROLE u s = false ->
      hasRole STATE_ADMIN_ROLE u s = false ->
      hasRole CITY_ADMIN_ROLE u s = true ->
      getUserRole s u = Some "city_admin")
  /\ (hasRole MAIN_ADMIN_ROLE u s = false ->
      hasRole COUNTRY_ADMIN_ROLE u s = false ->
      hasRole STATE_ADMIN_ROLE u s = false ->
      hasRole CITY_ADMIN_ROLE u s = false ->
      hasRole PRODUCER_ROLE u s = true ->
      getUserRole s u = Some "producer")
  /\ (hasRole MAIN_ADMIN_ROLE u s = false ->
      hasRole COUNTRY_ADMIN_ROLE u s = false ->
      hasRole STATE_ADMIN_ROLE u s = false ->
      hasRole CITY_ADMIN_ROLE u s = false ->
      hasRole PRODUCER_ROLE u s = false ->
      hasRole BUYER_ROLE u s = true ->
      getUserRole s u = Some "buyer")
  /\ (hasRole MAIN_ADMIN_ROLE u s = false ->
      hasRole COUNTRY_ADMIN_ROLE u s = false ->
      hasRole STATE_ADMIN_ROLE u s = false ->
      hasRole CITY_ADMIN_ROLE u s = false ->
      hasRole PRODUCER_ROLE u s = false ->
      hasRole BUYER_ROLE u s = false ->
      hasRole AUDITOR_ROLE u s = true ->
      getUserRole s u = Some "auditor").
Proof.
  unfold getUserRole.
  destruct (hasRole MAIN_ADMIN_ROLE u s), (hasRole COUNTRY_ADMIN_ROLE u s),
    (hasRole STATE_ADMIN_ROLE u s), (hasRole CITY_ADMIN_ROLE u s),
    (hasRole PRODUCER_ROLE u s), (hasRole BUYER_ROLE u s),
    (hasRole AUDITOR_ROLE u s); cbn; intuition congruence.
Qed.


(** X19. While a mint is under way (the id the counter points at is
    already owned, as it is whenever a receiver is called from the loop of
    [mintWithCertification]), a [mintWithCertification] entered by anyone
    reverts, and every other call leaves the id counter, the enumeration,
    the certification records and the consumed hashes as they were,
    however deep the calls nest. *)
Theorem no_mint_inside_a_mint (d : nat) (s0 : State) (sender now : Z)
    (c : Call) (s : State) :
  blocked s0 -> sender <> 0 ->
  approvals_wf s -> mid_same s0 s ->
  (forall to amount h sig,
      c = MintWithCertification to amount h sig ->
      exists e, run_re d sender now c s = Revert e)
  /\ (forall s', run_re d sender now c s = Ok s' -> mid_same s0 s').
Proof.
  intros Hb Hs Hwf Hsame. split.
  - intros to amount h sig ->.
    destruct (run_re d sender now _ s) as [s'|e] eqn:E; [|by eexists].
    rewrite run_re_unfold in E. cbn [call_re] in E.
    exfalso. eapply mint_re_blocked; [|done].
    unfold blocked in *. destruct Hsame as (-> & _ & _ & _ & Hz).
    by rewrite Hz.
  - intros s' Hrun. rewrite run_re_unfold in Hrun.
    by eapply call_re_blocked in Hrun as [_ ?];
      [|done|done|apply depth_callbacks_frozen|].
Qed.

(** [run], the contract with receivers that answer at once, is [run_re]
    with the receivers [call_free] and any call stack left, and so every
    ledger reachable in the first sense is reachable in the second. *)
Lemma run_is_run_re_call_free (d : nat) :
  (forall caller now c s,
      run_re (RC := call_free) (S d) caller now c s = run caller now c s)
  /\ (forall s, reachable s -> reachable_re (RC := call_free) (S d) s).
Proof.
  split.
  - intros. apply run_re_call_free.
  - intros. by apply reachable_call_free.
Qed.

(** ** Scenarios *)

Lemma exec_tx_re_quiet d s tx :
  quiet (tx_call tx) = true -> exec_tx_re d s tx = exec_tx s tx.
Proof.
  intros Hq. unfold exec_tx_re, exec_re, exec_tx, exec.
  rewrite run_re_unfold. by destruct (tx_call tx).
Qed.

Lemma reachable_re_quiet d txs s :
  reachable_re d s ->
  Forall (fun tx => valid_tx tx /\ quiet (tx_call tx) = true) txs ->
  reachable_re d (exec_all txs s).
Proof.
  intros Hs Hv. revert s Hs.
  induction Hv as [|tx txs [Htx Hq] _ IH]; intros s Hs; cbn; [done|].
  apply IH. rewrite <- (exec_tx_re_quiet d) by done.
  by apply reachable_re_step.
Qed.

End Properties.

(** The deployment of the scenarios is a reachable ledger. *)
Lemma deployed_reachable : reachable (H := sim) deployed.
Proof. by apply (reachable_deploy 100 1). Qed.

(** C9 fails as stated: after two appointments account 2 holds
    [COUNTRY_ADMIN_ROLE] and [STATE_ADMIN_ROLE] at once, in a reachable
    ledger. *)
Lemma two_levels_at_once :
  reachable (H := sim) double_admin
  /\ hasRole COUNTRY_ADMIN_ROLE 2 double_admin = true
  /\ hasRole STATE_ADMIN_ROLE 2 double_admin = true
  /\ getB (isCountryAdmin (hierarchy double_admin)) 2 = true
  /\ getB (isStateAdmin (hierarchy double_admin)) 2 = true.
Proof.
  split; [|by vm_compute].
  apply reachable_exec_all; [apply deployed_reachable|].
  repeat constructor; unfold valid_tx; cbn; lia.
Qed.

Lemma reappointment_rejected_witness :
  let s1 := exec (H := sim) 1 10 (AppointCountryAdmin 2 1) deployed in
  let txs := [mkTx 2 11 (AppointStateAdmin 2 9)] in
  run (H := sim) 1 30 (AppointCountryAdmin 2 5) (exec_all (H := sim) txs s1)
  = Revert AlreadyHeld_country
  /\ exec (H := sim) 1 30 (AppointCountryAdmin 2 5)
       (exec_all (H := sim) txs s1)
     = exec_all (H := sim) txs s1.
Proof.
  intros s1 txs.
  refine (proj1 (reappointment_rejected (H := sim) 1 10 2 1 deployed s1 txs
                   1 30 5) _ _); by vm_compute.
Defined.

(** C2 fails as stated: in the paused ledger the owner of credit 1 retires
    it, and the main admin appoints a country admin; both calls succeed and
    change the ledger. *)
Lemma paused_ledger_still_changes :
  _paused paused_ledger = true
  /\ run (H := sim) 5 40 (Retire 1) paused_ledger
     = Ok (exec (H := sim) 5 40 (Retire 1) paused_ledger)
  /\ getB (isRetired (retirement paused_ledger)) 1 = false
  /\ getB (isRetired (retirement (exec (H := sim) 5 40 (Retire 1)
                                    paused_ledger))) 1 = true
  /\ run (H := sim) 1 41 (AppointCountryAdmin 7 3) paused_ledger
     = Ok (exec (H := sim) 1 41 (AppointCountryAdmin 7 3) paused_ledger)
  /\ hasRole COUNTRY_ADMIN_ROLE 7 paused_ledger = false
  /\ hasRole COUNTRY_ADMIN_ROLE 7
       (exec (H := sim) 1 41 (AppointCountryAdmin 7 3) paused_ledger) = true.
Proof. by vm_compute. Qed.

Lemma pause_blocks_mint_and_transfer_witness :
  run (H := sim) 5 40 (TransferFrom 5 6 1) paused_ledger = Revert Paused
  /\ run (H := sim) 5 40 (SafeTransferFrom 5 6 1) paused_ledger
     = Revert Paused.
Proof.
  apply (pause_blocks_mint_and_transfer (H := sim) 5 40 paused_ledger).
  - by vm_compute.
  - lia.
Defined.

Lemma staffed_reachable : reachable (H := sim) staffed.
Proof.
  apply reachable_exec_all; [apply deployed_reachable|].
  repeat constructor; unfold valid_tx; cbn; lia.
Qed.

(** C4 fails as stated: credit 1 is retired, the contract is then paused,
    and a transfer of credit 1 is answered with [Paused], not with
    [RetiredCreditTransfer]; a second [retire] by somebody who is not the
    owner is answered with [NotOwner], not with [AlreadyRetired]. *)
Lemma retired_transfer_other_error :
  getB (isRetired (retirement retired_then_paused)) 1 = true
  /\ run (H := sim) 5 40 (TransferFrom 5 6 1) retired_then_paused
     = Revert Paused
  /\ Paused <> RetiredCreditTransfer
  /\ run (H := sim) 6 40 (Retire 1) retired_then_paused = Revert NotOwner
  /\ NotOwner <> AlreadyRetired.
Proof. by vm_compute. Qed.

(** C6 fails as stated: an empty signature on an otherwise well-formed call
    makes the contract revert with the ECDSA library's length error, not
    with [InvalidCertifierSignature]. *)
Lemma empty_signature_reverts_in_library :
  run (H := sim) 5 20 (MintWithCertification 5 3 77 []) staffed
  = Revert (ECDSAInvalidSignatureLength 0)
  /\ ECDSAInvalidSignatureLength 0 <> InvalidCertifierSignature.
Proof. by vm_compute. Qed.

(** C8 fails as stated: a 65-byte signature with an [s] value in the upper
    half of the curve order recovers to nobody, and the otherwise
    well-formed call is answered with the library's error, not with
    [InvalidCertifierSignature]. *)
Lemma high_s_signature_other_error :
  ECDSA_recover (H := sim) (onchain_digest (H := sim) 5 3 77) (replicate 65 xff)
  = Revert (ECDSAInvalidSignatureS MAX_UINT256)
  /\ run (H := sim) 5 20 (MintWithCertification 5 3 77 (replicate 65 xff)) staffed
     = Revert (ECDSAInvalidSignatureS MAX_UINT256)
  /\ ECDSAInvalidSignatureS MAX_UINT256 <> InvalidCertifierSignature.
Proof. by vm_compute. Qed.

Lemma funded_reachable : reachable (H := sim) funded.
Proof.
  apply (reachable_step (H := sim) staffed
           (mkTx 5 20 (MintWithCertification 5 3 77 (sim_certificate 4 5 3 77)))).
  - apply staffed_reachable.
  - unfold valid_tx; cbn; lia.
Qed.

Lemma appointment_chain_witness :
  run (H := sim) 6 0 (AppointCountryAdmin 7 1) deployed
  = Revert (InsufficientCapability 6 MAIN_ADMIN_ROLE)
  /\ exec (H := sim) 6 0 (AppointCountryAdmin 7 1) deployed = deployed.
Proof.
  destruct (appointment_chain (H := sim) 6 0 7 1 deployed)
    as (_ & _ & _ & _ & Hc & _).
  apply Hc. by vm_compute.
Defined.

Lemma retirement_is_terminal_witness :
  _ownerOf 1 (exec_all (H := sim) [mkTx 1 31 DoPause] retired_ledger) = 5
  /\ retirement_of 1 (exec_all (H := sim) [mkTx 1 31 DoPause] retired_ledger)
     = (true, 5, 30).
Proof.
  destruct (retirement_is_terminal (H := sim) 5 30 1 funded retired_ledger
              [mkTx 1 31 DoPause])
    as (_ & Hown & Hret & _).
  - apply funded_reachable.
  - lia.
  - repeat constructor; unfold valid_tx; cbn; lia.
  - by vm_compute.
  - by split.
Defined.

Lemma malformed_signature_outcomes_witness :
  verifyCertificationSignature (H := sim) staffed 5 3 77 ""
  = (false, ZeroAddress).
Proof.
  refine (proj1 (malformed_signature_outcomes (H := sim) 5 20 5 3 77 [] ""
                   staffed) _).
  by vm_compute.
Defined.

Lemma uncertified_mint_rejected_witness :
  exec (H := sim) 5 20
    (MintWithCertification 5 3 77 (sim_certificate 6 5 3 77)) staffed
  = staffed.
Proof.
  refine (proj1 (proj2 (uncertified_mint_rejected (H := sim) 5 20 5 3 77
                          (sim_certificate 6 5 3 77) staffed _))).
  intros signer Hrec. vm_compute in Hrec. simplify_eq. by vm_compute.
Defined.

(** ** The further properties at work *)

Lemma constructor_spec_witness :
  exists s, constructor 100 1 = Ok s /\ _nextTokenId s = 1.
Proof.
  destruct (proj2 (constructor_spec 100 1)) as (s & Hs & _ & _ & Hn & _).
  - lia.
  - exists s. by split.
Defined.

Lemma mint_guard_errors_witness :
  run (H := sim) 5 20 (MintWithCertification 5 1001 77 []) staffed
  = Revert InvalidAmount.
Proof.
  destruct (mint_guard_errors (H := sim) 5 20 5 1001 77 [] staffed)
    as (_ & Ham & _).
  - by vm_compute.
  - apply Ham; lia.
Defined.

Lemma registerBuyer_spec_witness :
  exists s', run (H := sim) 6 20 RegisterBuyer deployed = Ok s'
             /\ hasRole BUYER_ROLE 6 s' = true.
Proof.
  destruct (proj2 (registerBuyer_spec (H := sim) 6 20 deployed))
    as (s' & Hs & _ & Hr & _).
  - by vm_compute.
  - exists s'. by split.
Defined.

Lemma registerAuditor_spec_witness :
  exists s', run (H := sim) 1 20 (RegisterAuditor 8) deployed = Ok s'
             /\ hasRole AUDITOR_ROLE 8 s' = true.
Proof.
  destruct (proj2 (registerAuditor_spec (H := sim) 1 20 8 deployed))
    as (_ & _ & Hok).
  - by vm_compute.
  - destruct Hok as (s' & Hs & _ & Hr); [lia|by vm_compute|].
    exists s'. by split.
Defined.

Lemma pause_unpause_roundtrip_witness :
  run (H := sim) 1 20 DoUnpause funded = Revert ExpectedPause.
Proof.
  destruct (proj2 (pause_unpause_roundtrip (H := sim) 1 20 funded))
    as (_ & Hu & _).
  - by vm_compute.
  - apply Hu. by vm_compute.
Defined.

Lemma jurisdiction_fixed_at_appointment_witness :
  let s1 := exec (H := sim) 1 10 (AppointCountryAdmin 2 1) deployed in
  getZ (countryAdminCountryId
          (hierarchy (exec_all (H := sim)
                        [mkTx 2 11 (AppointStateAdmin 3 9)] s1))) 2 = 1.
Proof.
  intros s1.
  refine (proj1 (jurisdiction_fixed_at_appointment (H := sim) 1 10 2 1
                   deployed s1 [mkTx 2 11 (AppointStateAdmin 3 9)]) _).
  by vm_compute.
Defined.

Lemma transfer_moves_credit_witness :
  exists s', run (H := sim) 5 40 (TransferFrom 5 6 2) funded = Ok s'
             /\ _ownerOf 2 s' = 6.
Proof.
  destruct (transfer_moves_credit (H := sim) 5 40 6 2 funded)
    as (s' & Hs & Ho & _).
  - by vm_compute.
  - lia.
  - lia.
  - by vm_compute.
  - by vm_compute.
  - exists s'. by split.
Defined.

Lemma retire_records_witness :
  exists s', run (H := sim) 5 30 (Retire 1) funded = Ok s'
             /\ retirement_of 1 s' = (true, 5, 30).
Proof.
  destruct (proj1 (retire_records (H := sim) 5 30 1 funded))
    as (s' & Hs & Hr & _).
  - by vm_compute.
  - by vm_compute.
  - exists s'. by split.
Defined.

Lemma credits_are_one_to_supply_witness : ids_owned funded.
Proof. exact (credits_are_one_to_supply (H := sim) funded funded_reachable). Defined.

Lemma consumed_hash_stays_consumed_witness :
  getB (certificationHashUsed
          (exec_all (H := sim) [mkTx 5 30 (Retire 1); mkTx 1 31 DoPause] funded))
    77 = true.
Proof.
  apply (consumed_hash_stays_consumed (H := sim)). by vm_compute.
Defined.

Lemma getCertificationData_spec_witness :
  exists rec, getCertificationData 2 funded = Ok rec /\ producer rec <> 0.
Proof.
  destruct (proj2 (getCertificationData_spec (H := sim) 2 funded))
    as (rec & Hg & _ & Hp & _).
  - apply funded_reachable.
  - by vm_compute.
  - exists rec. by split.
Defined.

Lemma encodePacked_injective_witness : 5 = 5 /\ 3 = 3 /\ 77 = 77.
Proof.
  apply (encodePacked_injective 5 3 77 5 3 77); try (cbn; lia). done.
Defined.

Lemma registerProducer_spec_witness :
  run (H := sim) 4 20 (RegisterProducer 5) staffed
  = Revert AlreadyHeld_producer.
Proof.
  destruct (registerProducer_spec (H := sim) 4 20 5 staffed)
    as (_ & Hdup & _).
  - by vm_compute.
  - apply Hdup; [lia|by vm_compute].
Defined.


Lemma verifier_verdict_witness :
  verifyCertificationSignature (H := sim) staffed 5 3 77 "0xabcd"
  = (hasRole CITY_ADMIN_ROLE 6 staffed, 6).
Proof.
  refine (proj2 (verifier_verdict (H := sim) staffed 5 3 77 "0xabcd") 6 _).
  by vm_compute.
Defined.

(** ** Scenarios with receivers that call back *)

Lemma staffed_reachable_re (RC : Receivers) (d : nat) :
  reachable_re (H := sim) (RC := RC) d staffed.
Proof.
  apply (reachable_re_quiet (H := sim)).
  - by apply (reachable_re_deploy (H := sim) d 100 1).
  - repeat constructor; unfold valid_tx; cbn; lia.
Qed.


Lemma funded_reachable_re :
  reachable_re (H := sim) (RC := no_code) 1 funded.
Proof.
  assert (E : funded
              = exec_tx_re (H := sim) (RC := no_code) 1 staffed
                  (mkTx 5 20
                     (MintWithCertification 5 3 77
                        (sim_certificate 4 5 3 77)))) by (by vm_compute).
  rewrite E. apply reachable_re_step.
  - apply staffed_reachable_re.
  - unfold valid_tx; cbn; lia.
Qed.

Lemma retired_ledger_reachable_re :
  reachable_re (H := sim) (RC := no_code) 1 retired_ledger.
Proof.
  assert (E : retired_ledger
              = exec_tx_re (H := sim) (RC := no_code) 1 funded
                  (mkTx 5 30 (Retire 1))) by (by vm_compute).
  rewrite E. apply reachable_re_step.
  - apply funded_reachable_re.
  - unfold valid_tx; cbn; lia.
Qed.

Lemma probes_agree : receivers_agree_after 77 (probe true) (probe false).
Proof.
  split; [done|]. intros to operator from tokenId s Hs. cbn. by rewrite Hs.
Qed.

Lemma same_certification_twice_witness :
  (exists s1,
      run_re (H := sim) (RC := probe true) 1 5 20
        (MintWithCertification 5 3 77 (sim_certificate 4 5 3 77)) staffed
      = Ok s1)
  /\ mintedIds staffed funded
     = map (fun i => _nextTokenId staffed + Z.of_nat i) (seq 0 (Z.to_nat 3))
  /\ totalSupply funded = totalSupply staffed + 3
  /\ run_re (H := sim) (RC := probe true) 1 6 40
       (MintWithCertification 5 3 77 (sim_certificate 4 5 3 77))
       (exec_all_re (H := sim) (RC := probe true) 1
          [mkTx 5 30 (Retire 1)] funded)
     = Revert HashReused
  /\ run_re (H := sim) (RC := probe true) 1 5 20
       (MintWithCertification 5 3 77 (sim_certificate 4 5 3 77)) staffed
     = run_re (H := sim) (RC := probe false) 1 5 20
         (MintWithCertification 5 3 77 (sim_certificate 4 5 3 77)) staffed.
Proof.
  destruct (same_certification_twice (H := sim) (RC := probe true) 1 5 20
              5 3 77 (sim_certificate 4 5 3 77) 4 staffed)
    as (Hfirst & Hthen & Horder & _).
  - apply staffed_reachable_re.
  - by vm_compute.
  - lia.
  - lia.
  - by vm_compute.
  - by vm_compute.
  - by vm_compute.
  - by vm_compute.
  - by vm_compute.
  - destruct (Hthen funded) as (Hids & Hsupply & _ & Hlater);
      [by vm_compute|].
    destruct (Hlater [mkTx 5 30 (Retire 1)] 6 40 5 3
                (sim_certificate 4 5 3 77)) as [Hrev _];
      [by vm_compute|lia|lia|by vm_compute|].
    split; [|split; [|split; [|split]]].
    + apply Hfirst. right. split; [lia|done].
    + exact Hids.
    + exact Hsupply.
    + exact Hrev.
    + apply Horder. exact probes_agree.
Defined.

(** What tells the two orders apart.  [probe true] and [probe false]
    differ only on ledgers in which hash 77 is not consumed.  The contract
    ends the mint of [funded] in the same way with both.  Were the hash
    marked after the loop, the first would have its credits and the second
    would make the call revert. *)
Lemma hash_order_is_observable :
  receivers_agree_after 77 (probe true) (probe false)
  /\ run_re (H := sim) (RC := probe true) 1 5 20
       (MintWithCertification 5 3 77 (sim_certificate 4 5 3 77)) staffed
     = Ok funded
  /\ run_re (H := sim) (RC := probe false) 1 5 20
       (MintWithCertification 5 3 77 (sim_certificate 4 5 3 77)) staffed
     = Ok funded
  /\ mintWithCertification_hash_last (H := sim) (RC := probe true)
       (Some (fun sender c s =>
                run_re (H := sim) (RC := probe true) 0 sender 20 c s))
       5 20 5 3 77 (sim_certificate 4 5 3 77) staffed
     = Ok funded
  /\ mintWithCertification_hash_last (H := sim) (RC := probe false)
       (Some (fun sender c s =>
                run_re (H := sim) (RC := probe false) 0 sender 20 c s))
       5 20 5 3 77 (sim_certificate 4 5 3 77) staffed
     = Revert (ERC721InvalidReceiver 5).
Proof. split; [exact probes_agree|]. by vm_compute. Qed.

(** C7 fails as stated: producer 5 is a contract that passes on what it
    receives; the mint succeeds, and none of the three credits is owned by
    the producer it was minted to. *)
Lemma minted_credit_not_owned_by_recipient :
  run_re (H := sim) (RC := forwarder) 1 5 20
    (MintWithCertification 5 3 77 (sim_certificate 4 5 3 77)) staffed
  = Ok forwarded
  /\ _ownerOf 1 forwarded = 6 /\ _ownerOf 2 forwarded = 6
  /\ _ownerOf 3 forwarded = 6
  /\ _balanceOf 5 forwarded = 0 /\ _balanceOf 6 forwarded = 3
  /\ 6 <> 5.
Proof. by vm_compute. Qed.

Lemma mint_issues_batch_witness :
  exists signer,
    ECDSA_recover (H := sim) (onchain_digest (H := sim) 5 3 77)
      (sim_certificate 4 5 3 77) = Ok signer
    /\ hasRole CITY_ADMIN_ROLE signer staffed = true
    /\ mintedIds staffed forwarded
       = map (fun i => totalSupply staffed + 1 + Z.of_nat i)
           (seq 0 (Z.to_nat 3))
    /\ _ownerOf 2 forwarded <> 0
    /\ tokenCertifications forwarded !! 2
       = Some (mkCertificationData 5 signer 20 "" 77).
Proof.
  destruct (mint_issues_batch (H := sim) (RC := forwarder) 1 5 20 5 3 77
              (sim_certificate 4 5 3 77) staffed forwarded)
    as (signer & Hrec & Hrole & _ & _ & Hids & _ & _ & Hnew & _).
  - apply staffed_reachable_re.
  - by vm_compute.
  - assert (Hsupply : totalSupply staffed = 0) by (by vm_compute).
    assert (Hin : totalSupply staffed + 1 <= 2 <= totalSupply staffed + 3)
      by (rewrite Hsupply; lia).
    destruct (Hnew 2 Hin) as (Hown & Hcert & _).
    exists signer.
    split; [exact Hrec|]. split; [exact Hrole|]. split; [exact Hids|].
    split; [exact Hown|exact Hcert].
Defined.

Lemma next_id_tracks_supply_witness :
  _nextTokenId funded = totalSupply funded + 1
  /\ _nextTokenId retired_ledger = totalSupply retired_ledger + 1
  /\ mintedIds staffed funded = predictedTokenIds staffed 3
  /\ totalSupply funded = totalSupply staffed + 3.
Proof.
  split; [|split].
  - exact (proj1 (next_id_tracks_supply (H := sim) (RC := no_code) 1
                    funded funded_reachable_re)).
  - exact (proj1 (next_id_tracks_supply (H := sim) (RC := no_code) 1
                    retired_ledger retired_ledger_reachable_re)).
  - refine (proj2 (proj2 (proj2
              (next_id_tracks_supply (H := sim) (RC := no_code) 1 staffed
                 (staffed_reachable_re no_code 1))))
              5 20 5 3 77 (sim_certificate 4 5 3 77) funded _).
    by vm_compute.
Defined.

Lemma mint_credits_balance_witness :
  _balanceOf 5 funded = wrap256 (_balanceOf 5 staffed + 3).
Proof.
  refine (proj1 (mint_credits_balance (H := sim) (RC := no_code) 0 5 20 5 3
                   77 (sim_certificate 4 5 3 77) staffed funded _ _)).
  - by left.
  - by vm_compute.
Defined.

Lemma getUserRole_priority_witness :
  getUserRole double_admin 2 = Some "country_admin"
  /\ getUserRole buyer_and_auditor 6 = Some "buyer".
Proof.
  split.
  - destruct (getUserRole_priority double_admin 2) as (_ & _ & Hc & _).
    apply Hc; by vm_compute.
  - destruct (getUserRole_priority buyer_and_auditor 6)
      as (_ & _ & _ & _ & _ & _ & Hb & _).
    apply Hb; by vm_compute.
Defined.


Lemma no_mint_inside_a_mint_witness :
  exists e,
    run_re (H := sim) (RC := greedy) 1 5 20
      (MintWithCertification 5 2 78 (sim_certificate 4 5 2 78))
      (created 5 (_nextTokenId staffed) staffed)
    = Revert e.
Proof.
  pose proof (reachable_re_inv (H := sim) (RC := greedy) 1 staffed
                (staffed_reachable_re greedy 1)) as (_ & _ & Hfresh & Hwf).
  destruct (created_frame 5 (_nextTokenId staffed) staffed)
    as (Hwf1 & Hown & _ & Hnext & _); [lia|apply Hfresh; lia|done|].
  destruct (no_mint_inside_a_mint (H := sim) (RC := greedy) 1
              (created 5 (_nextTokenId staffed) staffed) 5 20
              (MintWithCertification 5 2 78 (sim_certificate 4 5 2 78))
              (created 5 (_nextTokenId staffed) staffed))
    as [Hrev _].
  - unfold blocked. rewrite Hnext, Hown. lia.
  - lia.
  - done.
  - apply mid_same_refl.
  - by eapply Hrev.
Defined.

(** Producer 5 is the contract of [greedy]: the certified mint goes
    through with its three credits, and the certification submitted from
    the callback has gained nothing. *)
Lemma greedy_recipient_gains_nothing :
  totalSupply
    (exec_re (H := sim) (RC := greedy) 2 5 20
       (MintWithCertification 5 3 77 (sim_certificate 4 5 3 77)) staffed)
  = 3
  /\ getB (certificationHashUsed
             (exec_re (H := sim) (RC := greedy) 2 5 20
                (MintWithCertification 5 3 77 (sim_certificate 4 5 3 77))
                staffed)) 78
     = false.
Proof. by vm_compute. Qed.

Lemma funded_reachable_call_free :
  reachable_re (H := sim) (RC := call_free (H := sim)) 1 funded.
Proof.
  exact (proj2 (run_is_run_re_call_free (H := sim) 0) funded funded_reachable).
Qed.
